(** * GCP KMS client of sigstore: reference parsing, key-version resolution,
      resolution cache, signing with integrity checks, verification with
      rotation retry, and key provisioning.

    Shallow embedding of [pkg/signature/kms/gcp/client.go]. *)

From Stdlib Require Import ZArith Ascii String Strings.Byte List Lia.
From stdpp Require Import base option gmap strings list.
Import ListNotations.

Local Open Scope Z_scope.

#[local] Arguments String.append !s1 s2 : simpl nomatch.

(* ===================================================================== *)
(** ** Regular expressions (the fragment of Go's [regexp] used by [re]) *)
(* ===================================================================== *)

Module Regexp.

(** Syntax of the patterns occurring in [re].  Go strings are byte
    sequences; a negated class such as [[^/]] accepts every byte but the
    excluded one (newlines included), and [$] without the [m] flag only
    matches at the end of the text. *)
Inductive regex : Type :=
| RBegin                          (* ^ *)
| REnd                            (* $ *)
| RLit (l : string)               (* literal text *)
| RNotPlus (c : ascii)            (* [^c]+ , greedy *)
| RGroup (i : nat) (r : regex)    (* capturing group number i: ( r ) *)
| ROpt (r : regex)                (* (?: r )? , greedy *)
| RSeq (r1 r2 : regex).

(** [strip_prefix l s] removes the literal [l] from the front of [s]. *)
Fixpoint strip_prefix (l s : string) : option string :=
  match l with
  | EmptyString => Some s
  | String a l' =>
      match s with
      | String b s' => if Ascii.eqb a b then strip_prefix l' s' else None
      | EmptyString => None
      end
  end.

(** [take n s]: the first [n] bytes of [s]. *)
Fixpoint take (n : nat) (s : string) : string :=
  match n, s with
  | S n', String a s' => String a (take n' s')
  | _, _ => EmptyString
  end.

(** A continuation receives the position reached, the unread input and
    the captures made so far. *)
Definition cont : Type := nat -> string -> gmap nat string -> option (gmap nat string).

(** Greedy iteration of [[^c]]: read as many bytes as possible, and give
    bytes back one at a time while the rest of the pattern fails. *)
Fixpoint rstar (c : ascii) (pos : nat) (s : string) (caps : gmap nat string)
    (k : cont) : option (gmap nat string) :=
  match s with
  | String a s' =>
      if Ascii.eqb a c then k pos s caps
      else match rstar c (S pos) s' caps k with
           | Some r => Some r
           | None => k pos s caps
           end
  | EmptyString => k pos s caps
  end.

(** Backtracking matcher, leftmost-first as in Go (preferring the greedy
    alternative). *)
Fixpoint rmatch (r : regex) (pos : nat) (s : string) (caps : gmap nat string)
    (k : cont) : option (gmap nat string) :=
  match r with
  | RBegin => if Nat.eqb pos 0 then k pos s caps else None
  | REnd => match s with EmptyString => k pos s caps | String _ _ => None end
  | RLit l =>
      match strip_prefix l s with
      | Some s' => k (pos + String.length l)%nat s' caps
      | None => None
      end
  | RNotPlus c =>
      match s with
      | String a s' => if Ascii.eqb a c then None else rstar c (S pos) s' caps k
      | EmptyString => None
      end
  | RGroup i r' =>
      rmatch r' pos s caps
        (fun pos' s' caps' => k pos' s' (<[i := take (pos' - pos) s]> caps'))
  | ROpt r' =>
      match rmatch r' pos s caps k with
      | Some c => Some c
      | None => k pos s caps
      end
  | RSeq r1 r2 =>
      rmatch r1 pos s caps (fun pos' s' caps' => rmatch r2 pos' s' caps' k)
  end.

(** Unanchored search: the leftmost start offset at which the pattern
    matches. *)
Fixpoint search (r : regex) (pos : nat) (s : string) : option (gmap nat string) :=
  match rmatch r pos s ∅ (fun _ _ c => Some c) with
  | Some c => Some c
  | None =>
      match s with
      | String _ s' => search r (S pos) s'
      | EmptyString => None
      end
  end.

(** [re.MatchString(s)]. *)
Definition MatchString (r : regex) (s : string) : bool :=
  match search (RGroup 0 r) 0 s with Some _ => true | None => false end.

(** [re.FindStringSubmatch(s)]: [nil] when there is no match, otherwise
    the whole match followed by the [n] groups, a group that took no part
    in the match being the empty string. *)
Definition FindStringSubmatch (r : regex) (n : nat) (s : string) : list string :=
  match search (RGroup 0 r) 0 s with
  | None => []
  | Some caps => List.map (fun i => default "" (caps !! i)) (seq 0 (S n))
  end.

End Regexp.

(* ===================================================================== *)
(** ** Errors *)
(* ===================================================================== *)

Inductive error : Type :=
| errors_New (msg : string)
| fmt_Errorf (msg : string)
| errors_Errorf_q (format : string) (arg : string)
| errors_Wrap (cause : error) (msg : string).

(** The static text of an error: the message, or the format it is built
    from. *)
Definition error_text (e : error) : string :=
  match e with
  | errors_New m => m
  | fmt_Errorf m => m
  | errors_Errorf_q f _ => f
  | errors_Wrap _ m => m
  end.

(* ===================================================================== *)
(** ** Reference parser *)
(* ===================================================================== *)

Import Regexp.

Definition ErrKMSReference : error :=
  errors_New "kms specification should be in the format gcpkms://projects/[PROJECT_ID]/locations/[LOCATION]/keyRings/[KEY_RING]/cryptoKeys/[KEY]/versions/[VERSION]".

Definition slash : ascii := "/"%char.

(** [^gcpkms://projects/([^/]+)/locations/([^/]+)/keyRings/([^/]+)/cryptoKeys/([^/]+)(?:/versions/([^/]+))?$] *)
Definition re : regex :=
  RSeq RBegin
  (RSeq (RLit "gcpkms://projects/")
  (RSeq (RGroup 1 (RNotPlus slash))
  (RSeq (RLit "/locations/")
  (RSeq (RGroup 2 (RNotPlus slash))
  (RSeq (RLit "/keyRings/")
  (RSeq (RGroup 3 (RNotPlus slash))
  (RSeq (RLit "/cryptoKeys/")
  (RSeq (RGroup 4 (RNotPlus slash))
  (RSeq (ROpt (RSeq (RLit "/versions/") (RGroup 5 (RNotPlus slash))))
        REnd))))))))).

Definition ReferenceScheme : string := "gcpkms://".

Definition ValidReference (ref : string) : option error :=
  if negb (MatchString re ref) then Some ErrKMSReference else None.

(** The five named results and the error. *)
Record parsed : Type := mkParsed {
  p_projectID : string;
  p_locationID : string;
  p_keyRing : string;
  p_keyName : string;
  p_version : string;
  p_err : option error
}.

Definition parseReference (resourceID : string) : parsed :=
  let v := FindStringSubmatch re 5 resourceID in
  if negb (Nat.eqb (List.length v) 6) then
    mkParsed "" "" "" "" "" (Some (errors_Errorf_q "invalid gcpkms format %q" resourceID))
  else
    mkParsed (nth 1 v "") (nth 2 v "") (nth 3 v "") (nth 4 v "") (nth 5 v "") None.

(** The reference grammar as the specification words it:
    [gcpkms://projects/<P>/locations/<L>/keyRings/<R>/cryptoKeys/<K>[/versions/<V>]],
    every bracketed segment a non-empty slash-free token. *)
Fixpoint slash_free (s : string) : bool :=
  match s with
  | EmptyString => true
  | String a s' => negb (Ascii.eqb a slash) && slash_free s'
  end.

Definition token (s : string) : Prop := s <> "" /\ slash_free s = true.

Definition reference_text (P L R K : string) (V : option string) : string :=
  "gcpkms://projects/" +:+ P +:+ "/locations/" +:+ L +:+ "/keyRings/" +:+ R
    +:+ "/cryptoKeys/" +:+ K
    +:+ match V with Some v => "/versions/" +:+ v | None => "" end.

Definition matches_grammar (s : string) : Prop :=
  exists P L R K V,
    token P /\ token L /\ token R /\ token K /\
    match V with Some v => token v | None => True end /\
    s = reference_text P L R K V.

(** A continuation is [picky] when it fails on every input that goes on
    with a byte other than [c]. *)
Definition picky (c : ascii) (k : cont) : Prop :=
  forall pos a s caps, a <> c -> k pos (String a s) caps = None.

(** Deterministic reading of [re], used to reason about the matcher: the
    longest slash-free prefix of the input and what follows it. *)
Fixpoint span_tok (c : ascii) (s : string) : string :=
  match s with
  | String a s' => if Ascii.eqb a c then "" else String a (span_tok c s')
  | EmptyString => ""
  end.

Fixpoint span_rest (c : ascii) (s : string) : string :=
  match s with
  | String a s' => if Ascii.eqb a c then s else span_rest c s'
  | EmptyString => ""
  end.

Definition read_token (s : string) : option (string * string) :=
  match span_tok slash s with
  | EmptyString => None
  | t => Some (t, span_rest slash s)
  end.

Definition parse_direct (s : string)
    : option (string * string * string * string * option string) :=
  s1 ← strip_prefix "gcpkms://projects/" s;
  '(P, s2) ← read_token s1;
  s3 ← strip_prefix "/locations/" s2;
  '(L, s4) ← read_token s3;
  s5 ← strip_prefix "/keyRings/" s4;
  '(R, s6) ← read_token s5;
  s7 ← strip_prefix "/cryptoKeys/" s6;
  '(K, s8) ← read_token s7;
  match strip_prefix "/versions/" s8 with
  | Some s9 =>
      match read_token s9 with
      | Some (V, EmptyString) => Some (P, L, R, K, Some V)
      | _ => None
      end
  | None =>
      match s8 with
      | EmptyString => Some (P, L, R, K, None)
      | String _ _ => None
      end
  end.

Definition captures_of (s : string)
    (d : string * string * string * string * option string) : gmap nat string :=
  let '(P, L, R, K, V) := d in
  let c4 := <[4%nat := K]> (<[3%nat := R]> (<[2%nat := L]> (<[1%nat := P]> ∅))) in
  <[0%nat := s]> (match V with Some v => <[5%nat := v]> c4 | None => c4 end).

(* ===================================================================== *)
(** ** Go values: contexts, hashes, keys, results *)
(* ===================================================================== *)

(** A [context.Context]: the background context or one supplied by a
    caller (with its own cancellation and deadline). *)
Inductive context : Type :=
| ctxBackground
| ctxCaller (id : nat).

(** [crypto.Hash]. *)
Inductive crypto_Hash : Type :=
| MD4 | MD5 | SHA1 | SHA224 | SHA256 | SHA384 | SHA512 | MD5SHA1 | RIPEMD160
| SHA3_224 | SHA3_256 | SHA3_384 | SHA3_512 | SHA512_224 | SHA512_256
| BLAKE2s_256 | BLAKE2b_256 | BLAKE2b_384 | BLAKE2b_512.

Record ecdsa_PublicKey : Type := { ec_Curve : string; ec_X : Z; ec_Y : Z }.
Record rsa_PublicKey : Type := { rsa_N : Z; rsa_E : Z }.

(** [crypto.PublicKey] is an interface; these are the dynamic types a PEM
    block decodes to. *)
Inductive crypto_PublicKey : Type :=
| PubECDSA (k : ecdsa_PublicKey)
| PubRSA (k : rsa_PublicKey)
| PubEd25519 (k : list byte).

(** The private keys built by the client only ever carry a public part. *)
Record ecdsa_PrivateKey : Type := { ecdsa_PublicKey_of : ecdsa_PublicKey; ecdsa_D : option Z }.
Record rsa_PrivateKey : Type := { rsa_PublicKey_of : rsa_PublicKey; rsa_D : option Z }.

(** What a collaborator returns: a value or an error. *)
Inductive result (A : Type) : Type :=
| ok (a : A)
| err (e : error).
Arguments ok {A} a.
Arguments err {A} e.

(** What a function of the client does: it returns a value, returns an
    error, or panics. *)
Inductive outcome (A : Type) : Type :=
| Ok (a : A)
| Err (e : error)
| Panic (msg : string).
Arguments Ok {A} a.
Arguments Err {A} e.
Arguments Panic {A} msg.

(* ===================================================================== *)
(** ** The local verifier (package [signature]) *)
(* ===================================================================== *)

Inductive SignerVerifier : Type :=
| ECDSASignerVerifier (priv : ecdsa_PrivateKey) (hashFunc : crypto_Hash)
| RSAPKCS1v15SignerVerifier (priv : rsa_PrivateKey) (hashFunc : crypto_Hash)
| RSAPSSSignerVerifier (priv : rsa_PrivateKey) (hashFunc : crypto_Hash).

(** Modelled from the spec: the local verifier factory of package
    [signature] (section 6, not among the sources) builds a verifier over
    the key it is given, exposing [PublicKey()].  The loaders take a pointer
    to a private key; a nil pointer holds no key and is refused. *)
Definition LoadECDSASignerVerifier (priv : option ecdsa_PrivateKey) (hf : crypto_Hash)
    : result SignerVerifier :=
  match priv with
  | None => err (errors_New "invalid ECDSA private key specified")
  | Some p => ok (ECDSASignerVerifier p hf)
  end.

Definition LoadRSAPKCS1v15SignerVerifier (priv : option rsa_PrivateKey) (hf : crypto_Hash)
    : result SignerVerifier :=
  match priv with
  | None => err (errors_New "invalid RSA private key specified")
  | Some p => ok (RSAPKCS1v15SignerVerifier p hf)
  end.

Definition LoadRSAPSSSignerVerifier (priv : option rsa_PrivateKey) (hf : crypto_Hash)
    : result SignerVerifier :=
  match priv with
  | None => err (errors_New "invalid RSA private key specified")
  | Some p => ok (RSAPSSSignerVerifier p hf)
  end.

(** [sv.PublicKey(opts)]. *)
Definition SignerVerifier_PublicKey (sv : SignerVerifier) : crypto_PublicKey :=
  match sv with
  | ECDSASignerVerifier p _ => PubECDSA (ecdsa_PublicKey_of p)
  | RSAPKCS1v15SignerVerifier p _ => PubRSA (rsa_PublicKey_of p)
  | RSAPSSSignerVerifier p _ => PubRSA (rsa_PublicKey_of p)
  end.

Inductive VerifyOption : Type :=
| WithContext (c : context)
| WithDigest (d : list byte).

(** The collaborators whose arithmetic is out of scope: the PEM decoder and
    signature verification.  [R] is the state of an [io.Reader]; verifying
    reads from the signature and message readers and leaves them as read. *)
Record Crypto (R : Type) : Type := {
  UnmarshalPEMToPublicKey : string -> result crypto_PublicKey;
  VerifySignature :
    SignerVerifier -> R -> R -> list VerifyOption -> option error * (R * R)
}.
Arguments UnmarshalPEMToPublicKey {R} _ _.
Arguments VerifySignature {R} _ _ _ _ _.

(* ===================================================================== *)
(** ** The remote service (package [kmspb] and the KMS client) *)
(* ===================================================================== *)

Inductive CryptoKeyPurpose : Type :=
| CRYPTO_KEY_PURPOSE_UNSPECIFIED
| ENCRYPT_DECRYPT
| ASYMMETRIC_SIGN
| ASYMMETRIC_DECRYPT
| MAC.

Inductive CryptoKeyVersionAlgorithm : Type :=
| CRYPTO_KEY_VERSION_ALGORITHM_UNSPECIFIED
| GOOGLE_SYMMETRIC_ENCRYPTION
| RSA_SIGN_PSS_2048_SHA256
| RSA_SIGN_PSS_3072_SHA256
| RSA_SIGN_PSS_4096_SHA256
| RSA_SIGN_PSS_4096_SHA512
| RSA_SIGN_PKCS1_2048_SHA256
| RSA_SIGN_PKCS1_3072_SHA256
| RSA_SIGN_PKCS1_4096_SHA256
| RSA_SIGN_PKCS1_4096_SHA512
| RSA_DECRYPT_OAEP_2048_SHA256
| RSA_DECRYPT_OAEP_3072_SHA256
| RSA_DECRYPT_OAEP_4096_SHA256
| RSA_DECRYPT_OAEP_4096_SHA512
| EC_SIGN_P256_SHA256
| EC_SIGN_P384_SHA384
| EC_SIGN_SECP256K1_SHA256
| HMAC_SHA256
| EXTERNAL_SYMMETRIC_ENCRYPTION.

Inductive CryptoKeyVersionState : Type :=
| STATE_UNSPECIFIED | PENDING_GENERATION | ENABLED | DISABLED | DESTROYED
| DESTROY_SCHEDULED.

Record kmspb_CryptoKey : Type := {
  ck_Name : string;
  ck_Purpose : CryptoKeyPurpose
}.

Record kmspb_CryptoKeyVersion : Type := {
  kv_Name : string;
  kv_State : CryptoKeyVersionState;
  kv_Algorithm : CryptoKeyVersionAlgorithm
}.

Record kmspb_PublicKey : Type := { pk_Pem : string }.

Record kmspb_KeyRing : Type := { kr_Name : string }.

Inductive kmspb_Digest : Type :=
| Digest_unset
| Digest_Sha256 (d : list byte)
| Digest_Sha384 (d : list byte)
| Digest_Sha512 (d : list byte).

Record AsymmetricSignRequest : Type := {
  req_Name : string;
  req_Digest : kmspb_Digest;
  req_DigestCrc32C : option Z
}.

(** [SignatureCrc32C] is a pointer to a wrapped [int64]; [None] is nil. *)
Record AsymmetricSignResponse : Type := {
  resp_Signature : list byte;
  resp_SignatureCrc32C : option Z;
  resp_VerifiedDigestCrc32C : bool
}.

Record ListCryptoKeyVersionsRequest : Type := {
  list_Parent : string;
  list_Filter : string;
  list_OrderBy : string
}.

Record CreateCryptoKeyRequest : Type := {
  cck_Parent : string;
  cck_CryptoKeyId : string;
  cck_Purpose : CryptoKeyPurpose;
  cck_Algorithm : CryptoKeyVersionAlgorithm
}.

Record CreateKeyRingRequest : Type := {
  ckr_Parent : string;
  ckr_KeyRingId : string
}.

(** The remote client as a capability interface over the state [S] of the
    service.  Every operation takes the context of the call.  Listing
    returns an iterator; [ListCryptoKeyVersions_Next] is its first [Next()]. *)
Record KMS (S : Type) : Type := {
  NewKeyManagementClient : context -> option error;
  GetCryptoKey : context -> string -> S -> result kmspb_CryptoKey * S;
  GetCryptoKeyVersion : context -> string -> S -> result kmspb_CryptoKeyVersion * S;
  ListCryptoKeyVersions_Next :
    context -> ListCryptoKeyVersionsRequest -> S -> result kmspb_CryptoKeyVersion * S;
  GetPublicKey : context -> string -> S -> result kmspb_PublicKey * S;
  AsymmetricSign : context -> AsymmetricSignRequest -> S -> result AsymmetricSignResponse * S;
  CreateCryptoKey : context -> CreateCryptoKeyRequest -> S -> result kmspb_CryptoKey * S;
  GetKeyRing : context -> string -> S -> result kmspb_KeyRing * S;
  CreateKeyRing : context -> CreateKeyRingRequest -> S -> result kmspb_KeyRing * S
}.
Arguments NewKeyManagementClient {S} _ _.
Arguments GetCryptoKey {S} _ _ _ _.
Arguments GetCryptoKeyVersion {S} _ _ _ _.
Arguments ListCryptoKeyVersions_Next {S} _ _ _ _.
Arguments GetPublicKey {S} _ _ _ _.
Arguments AsymmetricSign {S} _ _ _ _.
Arguments CreateCryptoKey {S} _ _ _ _.
Arguments GetKeyRing {S} _ _ _ _.
Arguments CreateKeyRing {S} _ _ _ _.

(* ===================================================================== *)
(** ** CRC-32C (package [hash/crc32]) *)
(* ===================================================================== *)

Module crc32.

Definition Castagnoli : Z := 0x82f63b78.

Definition byte_val (b : byte) : Z := Z.of_N (Byte.to_N b).

(** One entry of [simpleMakeTable(poly)]. *)
Fixpoint table_loop (poly : Z) (j : nat) (crc : Z) : Z :=
  match j with
  | O => crc
  | S j' =>
      table_loop poly j'
        (if Z.testbit crc 0 then Z.lxor (Z.shiftr crc 1) poly else Z.shiftr crc 1)
  end.

Definition MakeTable (poly : Z) (i : Z) : Z := table_loop poly 8 i.

Definition not32 (x : Z) : Z := Z.lxor x 0xffffffff.

Definition update (crc : Z) (tab : Z -> Z) (p : list byte) : Z :=
  not32
    (fold_left
       (fun crc v => Z.lxor (tab (Z.lxor (Z.land crc 255) (byte_val v))) (Z.shiftr crc 8))
       p (not32 crc)).

Definition Checksum (data : list byte) (tab : Z -> Z) : Z := update 0 tab data.

End crc32.

(* ===================================================================== *)
(** ** The client *)
(* ===================================================================== *)

Definition Algorithm_ECDSA_P256_SHA256 : string := "ecdsa-p256-sha256".
Definition Algorithm_ECDSA_P384_SHA384 : string := "ecdsa-p384-sha384".
Definition Algorithm_RSA_PKCS1v15_2048_SHA256 : string := "rsa-pkcs1v15-2048-sha256".
Definition Algorithm_RSA_PKCS1v15_3072_SHA256 : string := "rsa-pkcs1v15-3072-sha256".
Definition Algorithm_RSA_PKCS1v15_4096_SHA256 : string := "rsa-pkcs1v15-4096-sha256".
Definition Algorithm_RSA_PKCS1v15_4096_SHA512 : string := "rsa-pkcs1v15-4096-sha512".
Definition Algorithm_RSA_PSS_2048_SHA256 : string := "rsa-pss-2048-sha256".
Definition Algorithm_RSA_PSS_3072_SHA256 : string := "rsa-pss-3072-sha256".
Definition Algorithm_RSA_PSS_4096_SHA256 : string := "rsa-pss-4096-sha256".
Definition Algorithm_RSA_PSS_4096_SHA512 : string := "rsa-pss-4096-sha512".

(** The client's fields; [kvCache] and [kmsClient] are mutable objects and
    live in the world. *)
Record gcpClient : Type := {
  defaultCtx : context;
  refString : string;
  projectID : string;
  locationID : string;
  keyRing : string;
  keyName : string;
  version : string
}.

Record cryptoKeyVersion : Type := {
  CryptoKeyVersion : kmspb_CryptoKeyVersion;
  ckv_SignerVerifier : SignerVerifier;
  HashFunc : crypto_Hash
}.

Definition CacheKey : string := "crypto_key_version".

(** [time.Duration] counts nanoseconds. *)
Definition Second : Z := 1000000000.

(** *** The resolution cache (package [ttlcache]) *)

Module ttlcache.

(** Modelled from the spec: the resolution cache of section 4.4 (the
    [ttlcache] package is not among the sources).  An entry holds a value,
    its time-to-live and its expiry instant; a time-to-live of 0 stands for
    the cache-wide one, and an entry whose time-to-live is not positive
    never expires.  Unless extension on hit is skipped, a read resets the
    expiry of the entry it returns. *)
Record item : Type := {
  data : cryptoKeyVersion;
  ttl : Z;
  expireAt : Z
}.

Record Cache : Type := {
  items : gmap string item;
  cache_ttl : Z;
  skipTTLExtension : bool
}.

Definition NewCache : Cache :=
  {| items := ∅; cache_ttl := 0; skipTTLExtension := false |}.

Definition SkipTTLExtensionOnHit (value : bool) (c : Cache) : Cache :=
  {| items := items c; cache_ttl := cache_ttl c; skipTTLExtension := value |}.

Definition set_items (m : gmap string item) (c : Cache) : Cache :=
  {| items := m; cache_ttl := cache_ttl c; skipTTLExtension := skipTTLExtension c |}.

Definition touch (now : Z) (it : item) : item :=
  if 0 <? ttl it
  then {| data := data it; ttl := ttl it; expireAt := now + ttl it |}
  else it.

Definition expired (now : Z) (it : item) : bool :=
  if ttl it <=? 0 then false else expireAt it <? now.

Definition getItem (c : Cache) (now : Z) (key : string) : option item * Cache :=
  match items c !! key with
  | None => (None, c)
  | Some it =>
      if expired now it then (None, c)
      else
        let it' :=
          if (0 <=? ttl it) && ((0 <? ttl it) || (0 <? cache_ttl c)) then
            let it1 :=
              if (0 <? cache_ttl c) && (ttl it =? 0)
              then {| data := data it; ttl := cache_ttl c; expireAt := expireAt it |}
              else it in
            if skipTTLExtension c then it1 else touch now it1
          else it in
        (Some it', set_items (<[key := it']> (items c)) c)
  end.

Definition SetWithTTL (c : Cache) (now : Z) (key : string)
    (d : cryptoKeyVersion) (t : Z) : Cache :=
  let '(existing, c1) := getItem c now key in
  let it0 :=
    match existing with
    | Some it => {| data := d; ttl := t; expireAt := expireAt it |}
    | None => touch now {| data := d; ttl := t; expireAt := 0 |}
    end in
  let it1 :=
    if ttl it0 =? 0
    then {| data := data it0; ttl := cache_ttl c1; expireAt := expireAt it0 |}
    else it0 in
  set_items (<[key := touch now it1]> (items c1)) c1.

Definition Remove (c : Cache) (key : string) : Cache :=
  set_items (delete key (items c)) c.

End ttlcache.

(** *** Observable actions *)

(** Every call on a collaborator is recorded, with the context it is given. *)
Inductive event : Type :=
| EvGetCryptoKey (ctx : context) (name : string)
| EvGetCryptoKeyVersion (ctx : context) (name : string)
| EvListCryptoKeyVersions (ctx : context) (req : ListCryptoKeyVersionsRequest)
| EvGetPublicKey (ctx : context) (name : string)
| EvAsymmetricSign (ctx : context) (req : AsymmetricSignRequest)
| EvCreateCryptoKey (ctx : context) (req : CreateCryptoKeyRequest)
| EvGetKeyRing (ctx : context) (name : string)
| EvCreateKeyRing (ctx : context) (req : CreateKeyRingRequest)
| EvCacheGet (key : string)
| EvCacheRemove (key : string)
| EvLoader (key : string)
| EvVerifySignature (sv : SignerVerifier).

(** The context a remote call was made with; local actions have none. *)
Definition event_ctx (e : event) : option context :=
  match e with
  | EvGetCryptoKey c _ | EvGetCryptoKeyVersion c _ | EvListCryptoKeyVersions c _
  | EvGetPublicKey c _ | EvAsymmetricSign c _ | EvCreateCryptoKey c _
  | EvGetKeyRing c _ | EvCreateKeyRing c _ => Some c
  | EvCacheGet _ | EvCacheRemove _ | EvLoader _ | EvVerifySignature _ => None
  end.

Definition is_remote (e : event) : bool :=
  match event_ctx e with Some _ => true | None => false end.

Definition is_loader (e : event) : bool :=
  match e with EvLoader _ => true | _ => false end.

Definition is_verify (e : event) : bool :=
  match e with EvVerifySignature _ => true | _ => false end.

Definition is_sign_call (e : event) : bool :=
  match e with EvAsymmetricSign _ _ => true | _ => false end.

Definition is_create_key (e : event) : bool :=
  match e with EvCreateCryptoKey _ _ => true | _ => false end.

Section Client.

Context {S R : Type}.
Variable kms : KMS S.
Variable crypto : Crypto R.

(** The world the client acts on: the remote service, the client's cache,
    the wall clock (in nanoseconds) and the record of actions so far. *)
Record World : Type := mkWorld {
  svc : S;
  kvCache : ttlcache.Cache;
  now : Z;
  trace : list event
}.

Definition M (A : Type) : Type := World -> outcome A * World.

Definition ret {A} (a : A) : M A := fun w => (Ok a, w).
Definition throw {A} (e : error) : M A := fun w => (Err e, w).
Definition panic {A} (msg : string) : M A := fun w => (Panic msg, w).

(** Sequencing: an error or a panic ends the function. *)
Definition bind {A B} (m : M A) (k : A -> M B) : M B :=
  fun w =>
    match m w with
    | (Ok a, w') => k a w'
    | (Err e, w') => (Err e, w')
    | (Panic msg, w') => (Panic msg, w')
    end.

(** [errors.Wrap(err, msg)] on the error path. *)
Definition wrap {A} (msg : string) (m : M A) : M A :=
  fun w =>
    match m w with
    | (Err e, w') => (Err (errors_Wrap e msg), w')
    | r => r
    end.

Definition log (ev : event) (w : World) : World :=
  mkWorld (svc w) (kvCache w) (now w) (trace w ++ [ev]).

Definition set_cache (c : ttlcache.Cache) (w : World) : World :=
  mkWorld (svc w) c (now w) (trace w).

(** Time passing while the client is idle. *)
Definition idle (d : Z) (w : World) : World :=
  mkWorld (svc w) (kvCache w) (now w + d) (trace w).

(** A remote call. *)
Definition call {A} (ev : event) (op : S -> result A * S) : M A :=
  fun w =>
    let '(r, s') := op (svc w) in
    let w' := mkWorld s' (kvCache w) (now w) (trace w ++ [ev]) in
    match r with
    | ok a => (Ok a, w')
    | err e => (Err e, w')
    end.

Definition lift {A} (r : result A) : M A :=
  match r with
  | ok a => ret a
  | err e => throw e
  end.

Notation "'let*' x ':=' m 'in' k" := (bind m (fun x => k))
  (at level 10, x pattern, m at level 100, k at level 200).

Definition keyPath (g : gcpClient) : string :=
  "projects/" +:+ projectID g +:+ "/locations/" +:+ locationID g
    +:+ "/keyRings/" +:+ keyRing g +:+ "/cryptoKeys/" +:+ keyName g.

Definition keyRingPath (g : gcpClient) : string :=
  "projects/" +:+ projectID g +:+ "/locations/" +:+ locationID g
    +:+ "/keyRings/" +:+ keyRing g.

Definition locationPath (g : gcpClient) : string :=
  "projects/" +:+ projectID g +:+ "/locations/" +:+ locationID g.

Definition pinned (g : gcpClient) : bool :=
  negb (String.eqb (version g) "").

Definition fetchPublicKey (g : gcpClient) (ctx : context) (name : string)
    : M crypto_PublicKey :=
  let* pk := wrap "public key" (call (EvGetPublicKey ctx name) (GetPublicKey kms ctx name)) in
  lift (UnmarshalPEMToPublicKey crypto (pk_Pem pk)).

(** The first switch of [keyVersionName]: the private-key shells built
    from the fetched public key.  A case of a Go switch does not fall
    through, and a failed type assertion panics. *)
Definition privateKeysFor (alg : CryptoKeyVersionAlgorithm) (pubKey : crypto_PublicKey)
    : outcome (option ecdsa_PrivateKey * option rsa_PrivateKey) :=
  match alg with
  | EC_SIGN_P256_SHA256 => Ok (None, None)
  | EC_SIGN_P384_SHA384 =>
      match pubKey with
      | PubECDSA ecPub =>
          Ok (Some {| ecdsa_PublicKey_of := ecPub; ecdsa_D := None |}, None)
      | _ => Panic "interface conversion: crypto.PublicKey is not *ecdsa.PublicKey"
      end
  | RSA_SIGN_PKCS1_2048_SHA256 | RSA_SIGN_PKCS1_3072_SHA256
  | RSA_SIGN_PKCS1_4096_SHA256 | RSA_SIGN_PKCS1_4096_SHA512
  | RSA_SIGN_PSS_2048_SHA256 | RSA_SIGN_PSS_3072_SHA256
  | RSA_SIGN_PSS_4096_SHA256 | RSA_SIGN_PSS_4096_SHA512 =>
      match pubKey with
      | PubRSA rsaPub =>
          Ok (None, Some {| rsa_PublicKey_of := rsaPub; rsa_D := None |})
      | _ => Panic "interface conversion: crypto.PublicKey is not *rsa.PublicKey"
      end
  | _ => Err (errors_New "unknown algorithm specified by KMS")
  end.

(** The second switch: the verifier loaded and the hash function recorded
    for each algorithm; [None] is the default case. *)
Definition signerVerifierFor (alg : CryptoKeyVersionAlgorithm)
    (ecPriv : option ecdsa_PrivateKey) (rsaPriv : option rsa_PrivateKey)
    : option (result SignerVerifier * crypto_Hash) :=
  match alg with
  | EC_SIGN_P256_SHA256 => Some (LoadECDSASignerVerifier ecPriv SHA256, SHA256)
  | EC_SIGN_P384_SHA384 => Some (LoadECDSASignerVerifier ecPriv SHA384, SHA384)
  | RSA_SIGN_PKCS1_2048_SHA256 | RSA_SIGN_PKCS1_3072_SHA256
  | RSA_SIGN_PKCS1_4096_SHA256 =>
      Some (LoadRSAPKCS1v15SignerVerifier rsaPriv SHA256, SHA256)
  | RSA_SIGN_PKCS1_4096_SHA512 =>
      Some (LoadRSAPKCS1v15SignerVerifier rsaPriv SHA512, SHA512)
  | RSA_SIGN_PSS_2048_SHA256 | RSA_SIGN_PSS_3072_SHA256
  | RSA_SIGN_PSS_4096_SHA256 =>
      Some (LoadRSAPSSSignerVerifier rsaPriv SHA256, SHA256)
  | RSA_SIGN_PSS_4096_SHA512 =>
      Some (LoadRSAPSSSignerVerifier rsaPriv SHA512, SHA512)
  | _ => None
  end.

(** What follows the public-key fetch in [keyVersionName]. *)
Definition buildCryptoKeyVersion (kv : kmspb_CryptoKeyVersion) (pubKey : crypto_PublicKey)
    : outcome cryptoKeyVersion :=
  match privateKeysFor (kv_Algorithm kv) pubKey with
  | Panic msg => Panic msg
  | Err e => Err e
  | Ok (ecPriv, rsaPriv) =>
      match signerVerifierFor (kv_Algorithm kv) ecPriv rsaPriv with
      | None => Err (errors_New "unknown algorithm specified by KMS")
      | Some (err e, _) => Err (errors_Wrap e "initializing internal verifier")
      | Some (ok sv, h) =>
          Ok {| CryptoKeyVersion := kv; ckv_SignerVerifier := sv; HashFunc := h |}
      end
  end.

Definition keyVersionName (g : gcpClient) (ctx : context) : M cryptoKeyVersion :=
  let parent := keyPath g in
  let* key := call (EvGetCryptoKey ctx parent) (GetCryptoKey kms ctx parent) in
  match ck_Purpose key with
  | ASYMMETRIC_SIGN =>
      let* kv :=
        if pinned g then
          let name := parent +:+ "/cryptoKeyVersions/" +:+ version g in
          call (EvGetCryptoKeyVersion ctx name) (GetCryptoKeyVersion kms ctx name)
        else
          let req := {| list_Parent := parent; list_Filter := "state=ENABLED";
                        list_OrderBy := "name desc" |} in
          wrap "unable to find an enabled key version in GCP KMS"
            (call (EvListCryptoKeyVersions ctx req) (ListCryptoKeyVersions_Next kms ctx req)) in
      let* pubKey :=
        wrap "unable to fetch public key while creating signer"
          (fetchPublicKey g ctx (kv_Name kv)) in
      fun w => (buildCryptoKeyVersion kv pubKey, w)
  | _ => throw (errors_New "specified key cannot be used to sign")
  end.

Definition kvCacheLoaderFunction (g : gcpClient) (key : string)
    : M (cryptoKeyVersion * Z) :=
  let ttl := if pinned g then Second * 0 else Second * 300 in
  let* data := keyVersionName g ctxBackground in
  ret (data, ttl).

(** [cache.Get(key)] with the loader function registered on the cache. *)
Definition cache_Get (loader : string -> M (cryptoKeyVersion * Z)) (key : string)
    : M cryptoKeyVersion :=
  fun w =>
    let w1 := log (EvCacheGet key) w in
    match ttlcache.getItem (kvCache w1) (now w1) key with
    | (Some it, c') => (Ok (ttlcache.data it), set_cache c' w1)
    | (None, _) =>
        match loader key (log (EvLoader key) w1) with
        | (Ok (d, t), w2) =>
            (Ok d, set_cache (ttlcache.SetWithTTL (kvCache w2) (now w2) key d t) w2)
        | (Err e, w2) => (Err e, w2)
        | (Panic msg, w2) => (Panic msg, w2)
        end
    end.

Definition cache_Remove (key : string) (w : World) : World :=
  set_cache (ttlcache.Remove (kvCache w) key) (log (EvCacheRemove key) w).

Definition getCKV (g : gcpClient) : M cryptoKeyVersion :=
  cache_Get (kvCacheLoaderFunction g) CacheKey.

Definition getHashFunc (g : gcpClient) : M crypto_Hash :=
  let* ckv := getCKV g in
  ret (HashFunc ckv).

(** The request [sign] builds for the version named [name]; [None] is
    the default case of the switch on the hash function. *)
Definition signRequest (name : string) (digest : list byte) (alg : crypto_Hash)
    (crc : Z) : option AsymmetricSignRequest :=
  let crcField := if negb (crc =? 0) then Some crc else None in
  let request (d : kmspb_Digest) :=
    {| req_Name := name; req_Digest := d; req_DigestCrc32C := crcField |} in
  match alg with
  | SHA256 => Some (request (Digest_Sha256 digest))
  | SHA384 => Some (request (Digest_Sha384 digest))
  | SHA512 => Some (request (Digest_Sha512 digest))
  | _ => None
  end.

Definition RequestCorrupted : error :=
  fmt_Errorf "AsymmetricSign: request corrupted in-transit".
Definition ResponseCorrupted : error :=
  fmt_Errorf "AsymmetricSign: response corrupted in-transit".

(** The integrity checks on a response.  [resp.SignatureCrc32C.Value]
    reads through the pointer without a nil check. *)
Definition checkResponse (crc : Z) (resp : AsymmetricSignResponse)
    : outcome (list byte) :=
  if negb (crc =? 0) && negb (resp_VerifiedDigestCrc32C resp) then
    Err RequestCorrupted
  else
    match resp_SignatureCrc32C resp with
    | None => Panic "invalid memory address or nil pointer dereference"
    | Some claimed =>
        if negb (crc32.Checksum (resp_Signature resp) (crc32.MakeTable crc32.Castagnoli)
                 =? claimed)
        then Err ResponseCorrupted
        else Ok (resp_Signature resp)
    end.

(** [crc] is a [uint32]. *)
Definition sign (g : gcpClient) (ctx : context) (digest : list byte)
    (alg : crypto_Hash) (crc : Z) : M (list byte) :=
  let* ckv := getCKV g in
  match signRequest (kv_Name (CryptoKeyVersion ckv)) digest alg crc with
  | None => throw (errors_New "unsupported hash function")
  | Some gcpSignReq =>
      let* resp :=
        wrap "calling GCP AsymmetricSign"
          (call (EvAsymmetricSign ctx gcpSignReq) (AsymmetricSign kms ctx gcpSignReq)) in
      fun w => (checkResponse crc resp, w)
  end.

Definition public (g : gcpClient) (ctx : context) : M crypto_PublicKey :=
  let* crv := wrap "transient error getting info from KMS" (getCKV g) in
  ret (SignerVerifier_PublicKey (ckv_SignerVerifier crv)).

(** One call of [crv.SignerVerifier.VerifySignature(sig, message, opts...)]
    on the readers as they stand. *)
Definition verifySignature (crv : cryptoKeyVersion) (sig message : R)
    (opts : list VerifyOption) (w : World) : option error * (R * R) * World :=
  (VerifySignature crypto (ckv_SignerVerifier crv) sig message opts,
   log (EvVerifySignature (ckv_SignerVerifier crv)) w).

(** [verify] returns an error or nil ([Ok tt]); the readers are returned
    as [verify] leaves them. *)
Definition verify (g : gcpClient) (sig message : R) (opts : list VerifyOption)
    (w : World) : outcome unit * (R * R) * World :=
  match wrap "transient error getting info from KMS" (getCKV g) w with
  | (Err e, w1) => (Err e, (sig, message), w1)
  | (Panic msg, w1) => (Panic msg, (sig, message), w1)
  | (Ok crv, w1) =>
      match verifySignature crv sig message opts w1 with
      | (None, rs, w2) => (Ok tt, rs, w2)
      | (Some e, (sig', message'), w2) =>
          if String.eqb (version g) "" then
            let w3 := cache_Remove CacheKey w2 in
            match wrap "transient error getting info from KMS" (getCKV g) w3 with
            | (Err e', w4) => (Err e', (sig', message'), w4)
            | (Panic msg, w4) => (Panic msg, (sig', message'), w4)
            | (Ok crv', w4) =>
                match verifySignature crv' sig' message' opts w4 with
                | (None, rs, w5) => (Ok tt, rs, w5)
                | (Some e2, rs, w5) => (Err e2, rs, w5)
                end
            end
          else
            (Err (errors_Wrap e "failed to verify for fixed version"),
             (sig', message'), w2)
      end
  end.

Definition createKeyRing (g : gcpClient) (ctx : context) : M unit :=
  fun w =>
    let name := keyRingPath g in
    match call (EvGetKeyRing ctx name) (GetKeyRing kms ctx name) w with
    | (Ok _, w1) => (Ok tt, w1)
    | (Panic msg, w1) => (Panic msg, w1)
    | (Err _, w1) =>
        let req := {| ckr_Parent := locationPath g; ckr_KeyRingId := keyRing g |} in
        match call (EvCreateKeyRing ctx req) (CreateKeyRing kms ctx req) w1 with
        | (Ok _, w2) => (Ok tt, w2)
        | (Err e, w2) => (Err e, w2)
        | (Panic msg, w2) => (Panic msg, w2)
        end
    end.

Definition algorithmMap : gmap string CryptoKeyVersionAlgorithm :=
  <[Algorithm_ECDSA_P256_SHA256 := EC_SIGN_P256_SHA256]>
  (<[Algorithm_ECDSA_P384_SHA384 := EC_SIGN_P384_SHA384]>
  (<[Algorithm_RSA_PKCS1v15_2048_SHA256 := RSA_SIGN_PKCS1_2048_SHA256]>
  (<[Algorithm_RSA_PKCS1v15_3072_SHA256 := RSA_SIGN_PKCS1_3072_SHA256]>
  (<[Algorithm_RSA_PKCS1v15_4096_SHA256 := RSA_SIGN_PKCS1_4096_SHA256]>
  (<[Algorithm_RSA_PKCS1v15_4096_SHA512 := RSA_SIGN_PKCS1_4096_SHA512]>
  (<[Algorithm_RSA_PSS_2048_SHA256 := RSA_SIGN_PSS_2048_SHA256]>
  (<[Algorithm_RSA_PSS_3072_SHA256 := RSA_SIGN_PSS_3072_SHA256]>
  (<[Algorithm_RSA_PSS_4096_SHA256 := RSA_SIGN_PSS_4096_SHA256]>
  (<[Algorithm_RSA_PSS_4096_SHA512 := RSA_SIGN_PSS_4096_SHA512]> ∅))))))))).

Definition UnsupportedAlgorithm_requested : error :=
  errors_New "unknown algorithm requested".

Definition createKey (g : gcpClient) (ctx : context) (algorithm : string)
    : M crypto_PublicKey :=
  let* _ := wrap "creating key ring" (createKeyRing g ctx) in
  fun w =>
    let name := keyPath g in
    match call (EvGetCryptoKey ctx name) (GetCryptoKey kms ctx name) w with
    | (Ok _, w1) => public g ctx w1
    | (Panic msg, w1) => (Panic msg, w1)
    | (Err _, w1) =>
        match algorithmMap !! algorithm with
        | None => (Err UnsupportedAlgorithm_requested, w1)
        | Some native =>
            let createKeyRequest :=
              {| cck_Parent := keyRingPath g; cck_CryptoKeyId := keyName g;
                 cck_Purpose := ASYMMETRIC_SIGN; cck_Algorithm := native |} in
            (let* _ :=
               wrap "creating crypto key"
                 (call (EvCreateCryptoKey ctx createKeyRequest)
                    (CreateCryptoKey kms ctx createKeyRequest)) in
             public g ctx) w1
        end
    end.

Definition newGCPClient (ctx : option context) (refStr : string) : M gcpClient :=
  match ValidReference refStr with
  | Some e => throw e
  | None =>
      let ctx := match ctx with Some c => c | None => ctxBackground end in
      let p := parseReference refStr in
      let g := {| defaultCtx := ctx; refString := refStr;
                  projectID := p_projectID p; locationID := p_locationID p;
                  keyRing := p_keyRing p; keyName := p_keyName p;
                  version := p_version p |} in
      match p_err p with
      | Some e => throw e
      | None =>
          match NewKeyManagementClient kms ctx with
          | Some e => throw (errors_Wrap e "new gcp kms client")
          | None =>
              fun w =>
                let w0 :=
                  set_cache (ttlcache.SkipTTLExtensionOnHit true ttlcache.NewCache) w in
                match getCKV g w0 with
                | (Ok _, w1) => (Ok g, w1)
                | (Err e, w1) =>
                    (Err (errors_Wrap e "initializing key version from GCP KMS"), w1)
                | (Panic msg, w1) => (Panic msg, w1)
                end
          end
      end
  end.

End Client.

Arguments World S : clear implicits.
Arguments mkWorld {S} _ _ _ _.
Arguments svc {S} _.
Arguments kvCache {S} _.
Arguments now {S} _.
Arguments trace {S} _.

Arguments ret {S A} _ _.
Arguments throw {S A} _ _.
Arguments M S A : clear implicits.

(** The hash function the second switch of [keyVersionName] records for a
    native algorithm. *)
Definition hashFor (alg : CryptoKeyVersionAlgorithm) : option crypto_Hash :=
  snd <$> signerVerifierFor alg None None.


(** The ten supported signing algorithms. *)
Definition supported (alg : CryptoKeyVersionAlgorithm) : bool :=
  match alg with
  | EC_SIGN_P256_SHA256 | EC_SIGN_P384_SHA384
  | RSA_SIGN_PKCS1_2048_SHA256 | RSA_SIGN_PKCS1_3072_SHA256
  | RSA_SIGN_PKCS1_4096_SHA256 | RSA_SIGN_PKCS1_4096_SHA512
  | RSA_SIGN_PSS_2048_SHA256 | RSA_SIGN_PSS_3072_SHA256
  | RSA_SIGN_PSS_4096_SHA256 | RSA_SIGN_PSS_4096_SHA512 => true
  | _ => false
  end.

(** The expected grammar, as the error of [ValidReference] spells it. *)
Definition grammar_text : string :=
  "gcpkms://projects/[PROJECT_ID]/locations/[LOCATION]/keyRings/[KEY_RING]/cryptoKeys/[KEY]/versions/[VERSION]".

Fixpoint mentions (needle hay : string) : bool :=
  match strip_prefix needle hay with
  | Some _ => true
  | None =>
      match hay with
      | String _ hay' => mentions needle hay'
      | EmptyString => false
      end
  end.

(** A sequence of cache reads, each after an idle period. *)
Fixpoint reads {S R} (kms : KMS S) (crypto : Crypto R) (g : gcpClient)
    (ds : list Z) (w : World S) : list (outcome cryptoKeyVersion) * World S :=
  match ds with
  | [] => ([], w)
  | d :: ds' =>
      let '(r, w1) := getCKV kms crypto g (idle d w) in
      let '(rs, w2) := reads kms crypto g ds' w1 in
      (r :: rs, w2)
  end.

(** The version a resolution selects: the pinned one, or the first of the
    enabled versions in descending order of name. *)
Definition selectVersion {S} (kms : KMS S) (g : gcpClient) (ctx : context) (s : S)
    : result kmspb_CryptoKeyVersion * S :=
  if pinned g then
    GetCryptoKeyVersion kms ctx (keyPath g +:+ "/cryptoKeyVersions/" +:+ version g) s
  else
    ListCryptoKeyVersions_Next kms ctx
      {| list_Parent := keyPath g; list_Filter := "state=ENABLED";
         list_OrderBy := "name desc" |} s.

(** The time-to-live the loader function hands to the cache. *)
Definition loader_ttl (g : gcpClient) : Z :=
  if pinned g then Second * 0 else Second * 300.

(** The total of a list of durations. *)
Definition Zsum (ds : list Z) : Z := fold_right Z.add 0 ds.

(** The resolved version the cache holds, expired or not. *)
Definition cached {S} (w : World S) : option cryptoKeyVersion :=
  ttlcache.data <$> (ttlcache.items (kvCache w) !! CacheKey).

(** The expiry instant of the entry the cache holds. *)
Definition cached_expiry {S} (w : World S) : option Z :=
  ttlcache.expireAt <$> (ttlcache.items (kvCache w) !! CacheKey).

(** The cache of a constructed client holds the entry [it]. *)
Definition holds (c : ttlcache.Cache) (it : ttlcache.item) : Prop :=
  ttlcache.items c !! CacheKey = Some it /\
  ttlcache.cache_ttl c = 0 /\ ttlcache.skipTTLExtension c = true.

(** The remote calls of a resolution made with the context [ctx]. *)
Definition resolver_call (ctx : context) (e : event) : Prop :=
  match e with
  | EvGetCryptoKey c _ | EvGetCryptoKeyVersion c _ | EvListCryptoKeyVersions c _
  | EvGetPublicKey c _ => c = ctx
  | _ => False
  end.

(** What a read of the cache may do: the read itself, the loader, and the
    remote calls of the resolution the loader runs. *)
Definition refresh_event (e : event) : Prop :=
  e = EvCacheGet CacheKey \/ e = EvLoader CacheKey \/ resolver_call ctxBackground e.



(* ===================================================================== *)
(** ** A substitute service, for concrete runs *)
(* ===================================================================== *)

Module Mock.

Record state : Type := {
  m_ring : bool;
  m_key : option CryptoKeyPurpose;
  m_versions : list kmspb_CryptoKeyVersion;
  m_pem : string;
  m_resp : AsymmetricSignResponse
}.

Definition NotFound : error := errors_New "rpc error: code = NotFound".
Definition Done : error := errors_New "no more items in iterator".

Definition with_key (p : CryptoKeyPurpose) (vs : list kmspb_CryptoKeyVersion)
    (s : state) : state :=
  {| m_ring := m_ring s; m_key := Some p; m_versions := vs; m_pem := m_pem s;
     m_resp := m_resp s |}.

Definition with_ring (s : state) : state :=
  {| m_ring := true; m_key := m_key s; m_versions := m_versions s;
     m_pem := m_pem s; m_resp := m_resp s |}.

Definition kms : KMS state := {|
  NewKeyManagementClient := fun _ => None;
  GetCryptoKey := fun _ name s =>
    (match m_key s with
     | Some p => ok {| ck_Name := name; ck_Purpose := p |}
     | None => err NotFound
     end, s);
  GetCryptoKeyVersion := fun _ name s =>
    (match List.find (fun v => String.eqb (kv_Name v) name) (m_versions s) with
     | Some v => ok v
     | None => err NotFound
     end, s);
  ListCryptoKeyVersions_Next := fun _ _ s =>
    (match m_versions s with
     | v :: _ => ok v
     | [] => err Done
     end, s);
  GetPublicKey := fun _ _ s => (ok {| pk_Pem := m_pem s |}, s);
  AsymmetricSign := fun _ _ s => (ok (m_resp s), s);
  CreateCryptoKey := fun _ req s =>
    let name := cck_Parent req +:+ "/cryptoKeys/" +:+ cck_CryptoKeyId req in
    (ok {| ck_Name := name; ck_Purpose := cck_Purpose req |},
     with_key (cck_Purpose req)
       [ {| kv_Name := name +:+ "/cryptoKeyVersions/1"; kv_State := ENABLED;
            kv_Algorithm := cck_Algorithm req |} ] s);
  GetKeyRing := fun _ name s =>
    (if m_ring s then ok {| kr_Name := name |} else err NotFound, s);
  CreateKeyRing := fun _ req s =>
    (ok {| kr_Name := ckr_Parent req +:+ "/keyRings/" +:+ ckr_KeyRingId req |},
     with_ring s)
|}.

Definition ecKey : ecdsa_PublicKey := {| ec_Curve := "P-384"; ec_X := 11; ec_Y := 13 |}.
Definition rsaKey : rsa_PublicKey := {| rsa_N := 3233; rsa_E := 17 |}.

Fixpoint bytes_eqb (a b : list byte) : bool :=
  match a, b with
  | [], [] => true
  | x :: a', y :: b' => Byte.eqb x y && bytes_eqb a' b'
  | _, _ => false
  end.

(** Readers are the bytes left to read; verifying reads both to the end.
    A signature is taken to be valid when it repeats the message. *)
Definition crypto : Crypto (list byte) := {|
  UnmarshalPEMToPublicKey := fun pem =>
    if String.eqb pem "EC" then ok (PubECDSA ecKey)
    else if String.eqb pem "RSA" then ok (PubRSA rsaKey)
    else err (errors_New "PEM decoding failed");
  VerifySignature := fun _ sig message _ =>
    (match message with
     | [] => Some (errors_New "invalid signature")
     | _ => if bytes_eqb sig message then None
            else Some (errors_New "invalid signature")
     end, ([], []))
|}.

Definition unpinnedRef : string :=
  "gcpkms://projects/p/locations/l/keyRings/r/cryptoKeys/k".
Definition pinnedRef : string :=
  "gcpkms://projects/p/locations/l/keyRings/r/cryptoKeys/k/versions/1".

Definition versionName (n : string) : string :=
  "projects/p/locations/l/keyRings/r/cryptoKeys/k/cryptoKeyVersions/" +:+ n.

Definition enabled (n : string) (alg : CryptoKeyVersionAlgorithm)
    : kmspb_CryptoKeyVersion :=
  {| kv_Name := versionName n; kv_State := ENABLED; kv_Algorithm := alg |}.

Definition sig0 : list byte := [x01; x02; x03].

Definition goodResp : AsymmetricSignResponse :=
  {| resp_Signature := sig0;
     resp_SignatureCrc32C :=
       Some (crc32.Checksum sig0 (crc32.MakeTable crc32.Castagnoli));
     resp_VerifiedDigestCrc32C := true |}.

(** A service holding one signing key with one enabled version. *)
Definition service (alg : CryptoKeyVersionAlgorithm) (pem : string)
    (resp : AsymmetricSignResponse) : state :=
  {| m_ring := true; m_key := Some ASYMMETRIC_SIGN;
     m_versions := [enabled "1" alg]; m_pem := pem; m_resp := resp |}.

(** A service with the key ring but no key yet. *)
Definition emptyRing : state :=
  {| m_ring := true; m_key := None; m_versions := []; m_pem := "EC";
     m_resp := goodResp |}.

Definition world (s : state) : World state :=
  mkWorld s ttlcache.NewCache 0 [].

Definition client (v : string) : gcpClient :=
  {| defaultCtx := ctxBackground;
     refString := if String.eqb v "" then unpinnedRef else pinnedRef;
     projectID := "p"; locationID := "l"; keyRing := "r"; keyName := "k";
     version := v |}.

(** The world a construction leaves behind ([w] itself if it fails). *)
Definition primed (ref : string) (s : state) : World state :=
  snd (newGCPClient kms crypto None ref (world s)).

(** The remote service changing while the client is idle. *)
Definition remote_change (s : state) (w : World state) : World state :=
  mkWorld s (kvCache w) (now w) (trace w).

End Mock.

(* ===================================================================== *)
(** ** Further notions, for the properties of the remaining code *)
(* ===================================================================== *)

(** The hash function a verifier was loaded with. *)
Definition SignerVerifier_hashFunc (sv : SignerVerifier) : crypto_Hash :=
  match sv with
  | ECDSASignerVerifier _ h => h
  | RSAPKCS1v15SignerVerifier _ h => h
  | RSAPSSSignerVerifier _ h => h
  end.

(** The private part of the key a verifier was loaded with; [None] is nil. *)
Definition SignerVerifier_private (sv : SignerVerifier) : option Z :=
  match sv with
  | ECDSASignerVerifier p _ => ecdsa_D p
  | RSAPKCS1v15SignerVerifier p _ => rsa_D p
  | RSAPSSSignerVerifier p _ => rsa_D p
  end.

(** The dynamic type the type assertion of [keyVersionName] expects of the
    public key, for the algorithms whose case has a body. *)
Definition key_matches (alg : CryptoKeyVersionAlgorithm) (pk : crypto_PublicKey) : bool :=
  match alg, pk with
  | EC_SIGN_P384_SHA384, PubECDSA _ => true
  | (RSA_SIGN_PKCS1_2048_SHA256 | RSA_SIGN_PKCS1_3072_SHA256
     | RSA_SIGN_PKCS1_4096_SHA256 | RSA_SIGN_PKCS1_4096_SHA512
     | RSA_SIGN_PSS_2048_SHA256 | RSA_SIGN_PSS_3072_SHA256
     | RSA_SIGN_PSS_4096_SHA256 | RSA_SIGN_PSS_4096_SHA512), PubRSA _ => true
  | _, _ => false
  end.

Definition is_remove (e : event) : bool :=
  match e with EvCacheRemove _ => true | _ => false end.

(** The digest field [sign] fills for a hash function it supports. *)
Definition digestFor (alg : crypto_Hash) (digest : list byte) : kmspb_Digest :=
  match alg with
  | SHA256 => Digest_Sha256 digest
  | SHA384 => Digest_Sha384 digest
  | SHA512 => Digest_Sha512 digest
  | _ => Digest_unset
  end.

Definition supported_hash (alg : crypto_Hash) : bool :=
  match alg with
  | SHA256 | SHA384 | SHA512 => true
  | _ => false
  end.

(** The substitute service behind a client constructor that cannot connect. *)
Definition unreachable_kms : KMS Mock.state := {|
  NewKeyManagementClient := fun _ => Some (errors_New "dial: connection refused");
  GetCryptoKey := GetCryptoKey Mock.kms;
  GetCryptoKeyVersion := GetCryptoKeyVersion Mock.kms;
  ListCryptoKeyVersions_Next := ListCryptoKeyVersions_Next Mock.kms;
  GetPublicKey := GetPublicKey Mock.kms;
  AsymmetricSign := AsymmetricSign Mock.kms;
  CreateCryptoKey := CreateCryptoKey Mock.kms;
  GetKeyRing := GetKeyRing Mock.kms;
  CreateKeyRing := CreateKeyRing Mock.kms
|}.

(** The client [newGCPClient] builds from a reference, before it connects
    and primes the cache. *)
Definition clientOf (ctx : option context) (refStr : string) : gcpClient :=
  {| defaultCtx := match ctx with Some c => c | None => ctxBackground end;
     refString := refStr;
     projectID := p_projectID (parseReference refStr);
     locationID := p_locationID (parseReference refStr);
     keyRing := p_keyRing (parseReference refStr);
     keyName := p_keyName (parseReference refStr);
     version := p_version (parseReference refStr) |}.

(** The world in which the loader runs when a read of the cache misses. *)
Definition loading {S} (w : World S) : World S :=
  log (EvLoader CacheKey) (log (EvCacheGet CacheKey) w).

(** The world in which construction primes the cache. *)
Definition priming {S} (w : World S) : World S :=
  loading (set_cache (ttlcache.SkipTTLExtensionOnHit true ttlcache.NewCache) w).

(** The cache as [newGCPClient] configures it: no cache-wide time-to-live,
    and no extension of an entry's life when it is read. *)
Definition cache_flags (c : ttlcache.Cache) : Prop :=
  ttlcache.cache_ttl c = 0 /\ ttlcache.skipTTLExtension c = true.

(** A read of the cache at the present instant finds nothing to return:
    there is no entry, or the entry has expired. *)
Definition misses {S} (w : World S) : Prop :=
  fst (ttlcache.getItem (kvCache w) (now w) CacheKey) = None.

(** The entry of a version loaded for [g] at the instant [t0], with the
    time-to-live [kvCacheLoaderFunction] hands to the cache. *)
Definition loaded_entry (g : gcpClient) (ckv : cryptoKeyVersion) (t0 : Z)
    : ttlcache.item :=
  {| ttlcache.data := ckv; ttlcache.ttl := loader_ttl g;
     ttlcache.expireAt := if pinned g then 0 else t0 + 300 * Second |}.

(** Every entry the cache holds was loaded for [g] at some past instant. *)
Definition cache_inv {S} (g : gcpClient) (w : World S) : Prop :=
  cache_flags (kvCache w) /\
  forall it, ttlcache.items (kvCache w) !! CacheKey = Some it ->
    exists t0, t0 <= now w /\ it = loaded_entry g (ttlcache.data it) t0.

(** The call by which [keyVersionName] selects the version. *)
Definition selection_call (g : gcpClient) (ctx : context) : event :=
  if pinned g then
    EvGetCryptoKeyVersion ctx (keyPath g +:+ "/cryptoKeyVersions/" +:+ version g)
  else
    EvListCryptoKeyVersions ctx
      {| list_Parent := keyPath g; list_Filter := "state=ENABLED";
         list_OrderBy := "name desc" |}.

(** The substitute service behind an account that may not create key rings. *)
Definition readonly_kms : KMS Mock.state := {|
  NewKeyManagementClient := NewKeyManagementClient Mock.kms;
  GetCryptoKey := GetCryptoKey Mock.kms;
  GetCryptoKeyVersion := GetCryptoKeyVersion Mock.kms;
  ListCryptoKeyVersions_Next := ListCryptoKeyVersions_Next Mock.kms;
  GetPublicKey := GetPublicKey Mock.kms;
  AsymmetricSign := AsymmetricSign Mock.kms;
  CreateCryptoKey := fun _ _ s =>
    (err (errors_New "rpc error: code = PermissionDenied"), s);
  GetKeyRing := GetKeyRing Mock.kms;
  CreateKeyRing := fun _ _ s =>
    (err (errors_New "rpc error: code = PermissionDenied"), s)
|}.

(** A service without the key ring and without the key. *)
Definition noRing : Mock.state :=
  {| Mock.m_ring := false; Mock.m_key := None; Mock.m_versions := [];
     Mock.m_pem := "EC"; Mock.m_resp := Mock.goodResp |}.

(* ===================================================================== *)
(** * Theorems *)
(* ===================================================================== *)

Example parse_pinned :
  parseReference "gcpkms://projects/p/locations/l/keyRings/r/cryptoKeys/k/versions/7"
  = mkParsed "p" "l" "r" "k" "7" None.
Proof. vm_compute. reflexivity. Qed.

Example parse_unpinned :
  parseReference "gcpkms://projects/p/locations/l/keyRings/r/cryptoKeys/k"
  = mkParsed "p" "l" "r" "k" "" None.
Proof. vm_compute. reflexivity. Qed.

Example parse_bad :
  p_err (parseReference "gcpkms://projects/p/locations/l/keyRings/r/cryptoKeys/k/") <> None.
Proof. vm_compute. discriminate. Qed.

Section RegexpFacts.
Import Regexp.

Lemma strip_prefix_app l s : strip_prefix l (l +:+ s) = Some s.
Proof.
  induction l as [|a l IH]; simpl; [reflexivity|].
  rewrite Ascii.eqb_refl. exact IH.
Qed.

Lemma strip_prefix_Some l : forall s s', strip_prefix l s = Some s' -> s = l +:+ s'.
Proof.
  induction l as [|a l IH]; simpl; intros s s' H.
  - congruence.
  - destruct s as [|b s]; [discriminate|].
    destruct (Ascii.eqb a b) eqn:E; [|discriminate].
    apply Ascii.eqb_eq in E. subst b. f_equal. apply IH. exact H.
Qed.

Lemma strip_prefix_length l : forall s s',
  strip_prefix l s = Some s' ->
  String.length s = (String.length l + String.length s')%nat.
Proof.
  induction l as [|a l IH]; simpl; intros s s' H.
  - congruence.
  - destruct s as [|b s]; [discriminate|].
    destruct (Ascii.eqb a b); [|discriminate].
    simpl. f_equal. apply IH. exact H.
Qed.

Lemma span_split c s : s = span_tok c s +:+ span_rest c s.
Proof.
  induction s as [|a s IH]; simpl; [reflexivity|].
  destruct (Ascii.eqb a c); simpl; [reflexivity|]. f_equal. exact IH.
Qed.

Lemma span_tok_free s : slash_free (span_tok slash s) = true.
Proof.
  induction s as [|a s IH]; simpl; [reflexivity|].
  destruct (Ascii.eqb a slash) eqn:E; simpl; [reflexivity|].
  rewrite E. exact IH.
Qed.

Lemma span_rest_head c s :
  span_rest c s = "" \/ exists r, span_rest c s = String c r.
Proof.
  induction s as [|a s IH]; simpl; [left; reflexivity|].
  destruct (Ascii.eqb a c) eqn:E; [|exact IH].
  apply Ascii.eqb_eq in E. subst a. right. eexists. reflexivity.
Qed.

Lemma take_span c s : take (String.length (span_tok c s)) s = span_tok c s.
Proof.
  induction s as [|a s IH]; simpl; [reflexivity|].
  destruct (Ascii.eqb a c); simpl; [reflexivity|]. f_equal. exact IH.
Qed.

Lemma take_app t s : take (String.length t) (t +:+ s) = t.
Proof. induction t as [|a t IH]; simpl; [destruct s; reflexivity|]. f_equal. exact IH. Qed.

(** A token followed by the end of the input or by a slash is read whole. *)
Lemma span_tok_app t r :
  slash_free t = true -> (r = "" \/ exists r', r = String slash r') ->
  span_tok slash (t +:+ r) = t /\ span_rest slash (t +:+ r) = r.
Proof.
  intros Hf Hr. induction t as [|a t IH]; simpl in *.
  - destruct Hr as [->|[r' ->]]; simpl; split; reflexivity.
  - apply andb_true_iff in Hf as [Ha Ht].
    apply negb_true_iff in Ha. rewrite Ha.
    destruct (IH Ht) as [-> ->]. split; reflexivity.
Qed.

Lemma rstar_picky c k : picky c k ->
  forall s pos caps,
    rstar c pos s caps k
    = k (pos + String.length (span_tok c s))%nat (span_rest c s) caps.
Proof.
  intros Hk. induction s as [|a s IH]; intros pos caps; simpl.
  - rewrite Nat.add_0_r. reflexivity.
  - destruct (Ascii.eqb a c) eqn:E.
    + simpl. rewrite Nat.add_0_r. reflexivity.
    + rewrite IH. simpl. rewrite <- plus_n_Sm. simpl.
      destruct (k _ _ _) eqn:Ek; [reflexivity|].
      apply Hk. apply Ascii.eqb_neq. exact E.
Qed.

Lemma rmatch_group_token i k : picky slash k ->
  forall pos s caps,
    rmatch (RGroup i (RNotPlus slash)) pos s caps k
    = match read_token s with
      | Some (t, rest) => k (pos + String.length t)%nat rest (<[i := t]> caps)
      | None => None
      end.
Proof.
  intros Hk pos s caps. unfold read_token. destruct s as [|a s]; simpl; [reflexivity|].
  destruct (Ascii.eqb a slash) eqn:E; [reflexivity|].
  rewrite rstar_picky.
  - replace (S pos + String.length (span_tok slash s) - pos)%nat
      with (S (String.length (span_tok slash s))) by lia.
    cbn [take String.length]. rewrite take_span. f_equal. lia.
  - intros p b r cs Hb. apply Hk. exact Hb.
Qed.

Lemma eqb_slash_ne a : a <> slash -> Ascii.eqb "/"%char a = false.
Proof. intros H. apply Ascii.eqb_neq. intros E. apply H. symmetry. exact E. Qed.

Lemma read_token_Some s t r :
  read_token s = Some (t, r) ->
  s = t +:+ r /\ token t /\ (r = "" \/ exists r', r = String slash r') /\
  String.length s = (String.length t + String.length r)%nat.
Proof.
  unfold read_token. intros H.
  assert (t = span_tok slash s /\ r = span_rest slash s /\ t <> "") as (-> & -> & Hne).
  { destruct (span_tok slash s); [discriminate|]. inversion H; subst. repeat split. discriminate. }
  split; [apply span_split|]. split; [split; [exact Hne | apply span_tok_free]|].
  split; [apply span_rest_head|].
  rewrite (span_split slash s) at 1. clear. 
  induction (span_tok slash s); simpl; [reflexivity | f_equal; assumption].
Qed.

Lemma read_token_app t r :
  token t -> (r = "" \/ exists r', r = String slash r') ->
  read_token (t +:+ r) = Some (t, r).
Proof.
  intros [Hne Hf] Hr. unfold read_token.
  destruct (span_tok_app t r Hf Hr) as [-> ->].
  destruct t; [contradiction|reflexivity].
Qed.

Lemma append_empty_r s : s +:+ "" = s.
Proof. induction s as [|a s IH]; simpl; [reflexivity | f_equal; exact IH]. Qed.

Lemma take_all s : take (String.length s) s = s.
Proof. induction s as [|a s IH]; simpl; [reflexivity | f_equal; exact IH]. Qed.

Ltac picky_tac :=
  let H := fresh in
  intros ? ? ? ? H; cbn [rmatch strip_prefix];
  rewrite ?(eqb_slash_ne _ H); reflexivity.

Lemma rmatch_seq r1 r2 pos s caps k :
  rmatch (RSeq r1 r2) pos s caps k
  = rmatch r1 pos s caps (fun pos' s' caps' => rmatch r2 pos' s' caps' k).
Proof. reflexivity. Qed.

Lemma rmatch_lit l pos s caps k :
  rmatch (RLit l) pos s caps k
  = match strip_prefix l s with
    | Some s' => k (pos + String.length l)%nat s' caps
    | None => None
    end.
Proof. reflexivity. Qed.

Lemma rmatch_group i r pos s caps k :
  rmatch (RGroup i r) pos s caps k
  = rmatch r pos s caps
      (fun pos' s' caps' => k pos' s' (<[i := take (pos' - pos) s]> caps')).
Proof. reflexivity. Qed.

Lemma rmatch_opt r pos s caps k :
  rmatch (ROpt r) pos s caps k
  = match rmatch r pos s caps k with Some c => Some c | None => k pos s caps end.
Proof. reflexivity. Qed.

Lemma rmatch_end pos s caps k :
  rmatch REnd pos s caps k
  = match s with EmptyString => k pos s caps | String _ _ => None end.
Proof. reflexivity. Qed.

Lemma rmatch_begin pos s caps k :
  rmatch RBegin pos s caps k = if Nat.eqb pos 0 then k pos s caps else None.
Proof. reflexivity. Qed.

Ltac step_lit E :=
  cbv beta; rewrite rmatch_seq, rmatch_lit;
  match goal with
  | |- context [strip_prefix ?l ?x] =>
      let s' := fresh "s" in
      destruct (strip_prefix l x) as [s'|] eqn:E; [|reflexivity]
  end.

Ltac step_token E :=
  cbv beta; rewrite rmatch_seq; rewrite rmatch_group_token by picky_tac;
  match goal with
  | |- context [read_token ?x] =>
      let t := fresh "t" in
      let s' := fresh "s" in
      destruct (read_token x) as [[t s']|] eqn:E; [|reflexivity]
  end.

(** At offset 0 the matcher on [re] is the deterministic reader. *)
Lemma rmatch_re s :
  rmatch (RGroup 0 re) 0 s ∅ (fun _ _ c => Some c)
  = captures_of s <$> parse_direct s.
Proof.
  unfold re, parse_direct. rewrite rmatch_group, rmatch_seq, rmatch_begin.
  cbn [Nat.eqb].
  step_lit E1. cbn [mbind option_bind]. step_token T1. cbn [mbind option_bind].
  step_lit E2. cbn [mbind option_bind]. step_token T2. cbn [mbind option_bind].
  step_lit E3. cbn [mbind option_bind]. step_token T3. cbn [mbind option_bind].
  step_lit E4. cbn [mbind option_bind]. step_token T4. cbn [mbind option_bind].
  cbv beta. rewrite rmatch_seq, rmatch_opt, rmatch_seq, rmatch_lit.
  pose proof (strip_prefix_length _ _ _ E1) as L1.
  pose proof (strip_prefix_length _ _ _ E2) as L2.
  pose proof (strip_prefix_length _ _ _ E3) as L3.
  pose proof (strip_prefix_length _ _ _ E4) as L4.
  apply read_token_Some in T1 as (_ & _ & _ & M1).
  apply read_token_Some in T2 as (_ & _ & _ & M2).
  apply read_token_Some in T3 as (_ & _ & _ & M3).
  apply read_token_Some in T4 as (_ & _ & _ & M4).
  destruct (strip_prefix "/versions/" s7) as [s8|] eqn:E5.
  - pose proof (strip_prefix_length _ _ _ E5) as L5.
    rewrite rmatch_group_token by (intros ? ? ? ? ?; reflexivity).
    destruct (read_token s8) as [[V s9]|] eqn:T5.
    + apply read_token_Some in T5 as (_ & _ & _ & M5).
      rewrite !rmatch_end. destruct s9 as [|b s9].
      * simpl in M5. unfold captures_of, fmap, option_fmap, option_map.
        do 2 f_equal. rewrite <- (take_all s) at 2. f_equal. lia.
      * destruct s7; [discriminate E5 | reflexivity].
    + rewrite rmatch_end. destruct s7; [discriminate E5 | reflexivity].
  - rewrite rmatch_end. destruct s7 as [|b s7]; [|reflexivity].
    simpl in M4. unfold captures_of, fmap, option_fmap, option_map.
    do 2 f_equal. rewrite <- (take_all s) at 2. f_equal. lia.
Qed.

Lemma rmatch_re_later s pos k :
  pos <> 0%nat -> rmatch (RGroup 0 re) pos s ∅ k = None.
Proof.
  intros H. unfold re. rewrite rmatch_group, rmatch_seq, rmatch_begin.
  destruct pos; [contradiction | reflexivity].
Qed.

Lemma search_re_later s : forall pos,
  pos <> 0%nat -> search (RGroup 0 re) pos s = None.
Proof.
  induction s as [|a s IH]; intros pos H; cbn [search];
    rewrite (rmatch_re_later _ _ _ H); [reflexivity|].
  apply IH. discriminate.
Qed.

(** [re] is anchored: the search succeeds at offset 0 or not at all. *)
Lemma search_re s : search (RGroup 0 re) 0 s = captures_of s <$> parse_direct s.
Proof.
  destruct s as [|a s]; cbn [search]; rewrite rmatch_re.
  - destruct (parse_direct ""); reflexivity.
  - destruct (parse_direct (String a s)); [reflexivity|].
    apply search_re_later. discriminate.
Qed.

(** The deterministic reader accepts exactly the grammar. *)
Lemma parse_direct_complete P L R K V :
  token P -> token L -> token R -> token K ->
  match V with Some v => token v | None => True end ->
  parse_direct (reference_text P L R K V) = Some (P, L, R, K, V).
Proof.
  intros HP HL HR HK HV. unfold parse_direct, reference_text.
  rewrite strip_prefix_app. cbn [mbind option_bind].
  rewrite (read_token_app P) by (auto; right; eexists; reflexivity).
  cbn [mbind option_bind]. rewrite strip_prefix_app. cbn [mbind option_bind].
  rewrite (read_token_app L) by (auto; right; eexists; reflexivity).
  cbn [mbind option_bind]. rewrite strip_prefix_app. cbn [mbind option_bind].
  rewrite (read_token_app R) by (auto; right; eexists; reflexivity).
  cbn [mbind option_bind]. rewrite strip_prefix_app. cbn [mbind option_bind].
  destruct V as [v|].
  - rewrite (read_token_app K) by (auto; right; eexists; reflexivity).
    cbn [mbind option_bind]. rewrite strip_prefix_app.
    rewrite <- (append_empty_r v) at 1.
    rewrite (read_token_app v) by auto. reflexivity.
  - rewrite (read_token_app K) by auto. reflexivity.
Qed.

Lemma parse_direct_sound s P L R K V :
  parse_direct s = Some (P, L, R, K, V) ->
  token P /\ token L /\ token R /\ token K /\
  match V with Some v => token v | None => True end /\
  s = reference_text P L R K V.
Proof.
  unfold parse_direct, reference_text. intros H.
  destruct (strip_prefix "gcpkms://projects/" s) as [s1|] eqn:E1; [|discriminate].
  cbn [mbind option_bind] in H.
  destruct (read_token s1) as [[p s2]|] eqn:T1; [|discriminate].
  cbn [mbind option_bind] in H.
  destruct (strip_prefix "/locations/" s2) as [s3|] eqn:E2; [|discriminate].
  cbn [mbind option_bind] in H.
  destruct (read_token s3) as [[l s4]|] eqn:T2; [|discriminate].
  cbn [mbind option_bind] in H.
  destruct (strip_prefix "/keyRings/" s4) as [s5|] eqn:E3; [|discriminate].
  cbn [mbind option_bind] in H.
  destruct (read_token s5) as [[r s6]|] eqn:T3; [|discriminate].
  cbn [mbind option_bind] in H.
  destruct (strip_prefix "/cryptoKeys/" s6) as [s7|] eqn:E4; [|discriminate].
  cbn [mbind option_bind] in H.
  destruct (read_token s7) as [[k s8]|] eqn:T4; [|discriminate].
  cbn [mbind option_bind] in H.
  apply strip_prefix_Some in E1, E2, E3, E4.
  apply read_token_Some in T1 as (D1 & K1 & _ & _).
  apply read_token_Some in T2 as (D2 & K2 & _ & _).
  apply read_token_Some in T3 as (D3 & K3 & _ & _).
  apply read_token_Some in T4 as (D4 & K4 & _ & _).
  destruct (strip_prefix "/versions/" s8) as [s9|] eqn:E5.
  - destruct (read_token s9) as [[v s10]|] eqn:T5; [|discriminate].
    destruct s10; [|discriminate]. inversion H; subst P L R K V.
    apply strip_prefix_Some in E5.
    apply read_token_Some in T5 as (D5 & K5 & _ & _).
    refine (conj K1 (conj K2 (conj K3 (conj K4 (conj K5 _))))).
    subst. rewrite append_empty_r. reflexivity.
  - destruct s8; [|discriminate]. inversion H; subst P L R K V.
    refine (conj K1 (conj K2 (conj K3 (conj K4 (conj I _))))).
    subst. reflexivity.
Qed.


End RegexpFacts.

(* ===================================================================== *)
(** ** What each function of the client adds to the record *)
(* ===================================================================== *)

Ltac inv_pair :=
  repeat match goal with
  | H : (_, _) = (_, _) |- _ => inversion H; subst; clear H
  end.

Ltac split_run H :=
  repeat (inv_pair;
    match type of H with
    | context [match ?x with _ => _ end] =>
        let E := fresh "E" in destruct x eqn:E; simpl in H
    end);
  inv_pair.

Ltac ext_tac :=
  simpl; rewrite <- ?app_assoc; simpl; reflexivity.

Section Frames.

Context {S R : Type}.
Variable kms : KMS S.
Variable crypto : Crypto R.

Lemma keyVersionName_frame g ctx w r w' :
  keyVersionName kms crypto g ctx w = (r, w') ->
  kvCache w' = kvCache w /\ now w' = now w /\
  exists n ext, trace w' = trace w ++ EvGetCryptoKey ctx n :: ext /\
                Forall (resolver_call ctx) ext.
Proof.
  unfold keyVersionName, fetchPublicKey, bind, wrap, call, lift, ret, throw.
  intros H.
  destruct (GetCryptoKey kms ctx (keyPath g) (svc w)) as [[key|e] s1] eqn:E1;
    simpl in H.
  2: { inv_pair. simpl. repeat split. exists (keyPath g), (@nil event). split; [ext_tac|constructor]. }
  destruct (ck_Purpose key); simpl in H;
    try (inv_pair; simpl; repeat split; exists (keyPath g), (@nil event);
         split; [ext_tac|constructor]).
  destruct (pinned g); simpl in H.
  - destruct (GetCryptoKeyVersion kms ctx _ s1) as [[kv|e] s2] eqn:E2; simpl in H.
    2: { inv_pair. simpl. repeat split. eexists _, _. split; [ext_tac|].
         repeat constructor. }
    destruct (GetPublicKey kms ctx (kv_Name kv) s2) as [[pk|e] s3] eqn:E3; simpl in H.
    2: { inv_pair. simpl. repeat split. eexists _, _. split; [ext_tac|].
         repeat constructor. }
    destruct (UnmarshalPEMToPublicKey crypto (pk_Pem pk)); simpl in H;
      inv_pair; simpl; repeat split; eexists _, _; (split; [ext_tac|]);
      repeat constructor.
  - destruct (ListCryptoKeyVersions_Next kms ctx _ s1) as [[kv|e] s2] eqn:E2; simpl in H.
    2: { inv_pair. simpl. repeat split. eexists _, _. split; [ext_tac|].
         repeat constructor. }
    destruct (GetPublicKey kms ctx (kv_Name kv) s2) as [[pk|e] s3] eqn:E3; simpl in H.
    2: { inv_pair. simpl. repeat split. eexists _, _. split; [ext_tac|].
         repeat constructor. }
    destruct (UnmarshalPEMToPublicKey crypto (pk_Pem pk)); simpl in H;
      inv_pair; simpl; repeat split; eexists _, _; (split; [ext_tac|]);
      repeat constructor.
Qed.

Lemma getCKV_unfold g w :
  getCKV kms crypto g w
  = match ttlcache.getItem (kvCache w) (now w) CacheKey with
    | (Some it, c') =>
        (Ok (ttlcache.data it), set_cache c' (log (EvCacheGet CacheKey) w))
    | (None, _) =>
        match keyVersionName kms crypto g ctxBackground
                (log (EvLoader CacheKey) (log (EvCacheGet CacheKey) w)) with
        | (Ok d, w2) =>
            (Ok d,
             set_cache (ttlcache.SetWithTTL (kvCache w2) (now w2) CacheKey d
                          (loader_ttl g)) w2)
        | (Err e, w2) => (Err e, w2)
        | (Panic msg, w2) => (Panic msg, w2)
        end
    end.
Proof.
  unfold getCKV, cache_Get, kvCacheLoaderFunction, bind, ret, loader_ttl. simpl.
  destruct (ttlcache.getItem (kvCache w) (now w) CacheKey) as [[it|] c']; [reflexivity|].
  destruct (keyVersionName kms crypto g ctxBackground _) as [[d|e|m] w2]; reflexivity.
Qed.

(** A read of the cache either hits, adding only the read to the record,
    or runs the loader once, whose resolution uses the background
    context. *)
Lemma getCKV_frame g w r w' :
  getCKV kms crypto g w = (r, w') ->
  now w' = now w /\
  ((exists it c', ttlcache.getItem (kvCache w) (now w) CacheKey = (Some it, c') /\
      r = Ok (ttlcache.data it) /\ svc w' = svc w /\ kvCache w' = c' /\
      trace w' = trace w ++ [EvCacheGet CacheKey])
   \/
   (exists c' n ext, ttlcache.getItem (kvCache w) (now w) CacheKey = (None, c') /\
      trace w' = trace w ++ EvCacheGet CacheKey :: EvLoader CacheKey
                   :: EvGetCryptoKey ctxBackground n :: ext /\
      Forall (resolver_call ctxBackground) ext)).
Proof.
  rewrite getCKV_unfold. intros H.
  destruct (ttlcache.getItem (kvCache w) (now w) CacheKey) as [[it|] c'] eqn:EI.
  - inv_pair. simpl. split; [reflexivity|]. left. exists it, c'. auto.
  - destruct (keyVersionName kms crypto g ctxBackground _) as [r2 w2] eqn:EK.
    apply keyVersionName_frame in EK as (Hc & Hn & n & ext & Ht & Hf).
    simpl in Hn, Ht.
    assert (now w' = now w /\ trace w' = trace w2) as [Hn' Ht'].
    { destruct r2; inv_pair; simpl; auto. }
    split; [congruence|]. right. exists c', n, ext. split; [reflexivity|].
    split; [|exact Hf]. rewrite Ht', Ht. rewrite <- !app_assoc. reflexivity.
Qed.

Lemma getCKV_events g w r w' :
  getCKV kms crypto g w = (r, w') ->
  exists ext, trace w' = trace w ++ ext /\ Forall refresh_event ext.
Proof.
  intros H. apply getCKV_frame in H as [_ [(it & c' & _ & _ & _ & _ & Ht)
                                          | (c' & n & ext & _ & Ht & Hf)]].
  - eexists. split; [exact Ht|]. repeat constructor.
  - eexists. split; [exact Ht|].
    constructor; [left; reflexivity|]. constructor; [right; left; reflexivity|].
    constructor; [right; right; reflexivity|].
    eapply Forall_impl; [exact Hf|]. intros e He. right; right. exact He.
Qed.

Lemma public_events g ctx w r w' :
  public kms crypto g ctx w = (r, w') ->
  exists ext, trace w' = trace w ++ ext /\ Forall refresh_event ext.
Proof.
  unfold public, bind, wrap, ret. intros H.
  destruct (getCKV kms crypto g w) as [r1 w1] eqn:E.
  apply getCKV_events in E as (ext & Ht & Hf).
  exists ext. split; [|exact Hf]. destruct r1; inv_pair; exact Ht.
Qed.

(** [sign] once the request has been answered: the checks of
    [checkResponse] decide, and exactly one remote signing call was made. *)
Lemma sign_after_dispatch g ctx digest alg crc w ckv w1 req resp s' :
  getCKV kms crypto g w = (Ok ckv, w1) ->
  signRequest (kv_Name (CryptoKeyVersion ckv)) digest alg crc = Some req ->
  AsymmetricSign kms ctx req (svc w1) = (ok resp, s') ->
  sign kms crypto g ctx digest alg crc w
  = (checkResponse crc resp,
     mkWorld s' (kvCache w1) (now w1) (trace w1 ++ [EvAsymmetricSign ctx req])).
Proof.
  intros Hc Hr Hs. unfold sign, bind, wrap, call. rewrite Hc, Hr, Hs. reflexivity.
Qed.

Lemma signRequest_crc name digest alg crc req :
  signRequest name digest alg crc = Some req ->
  req_Name req = name /\
  req_DigestCrc32C req = (if crc =? 0 then None else Some crc).
Proof.
  unfold signRequest. intros H.
  destruct alg; try discriminate; inversion H; simpl;
    destruct (crc =? 0); auto.
Qed.

(** Everything [sign] adds to the record: a read of the cache, then at
    most one signing call, made with the caller's context and carrying the
    checksum exactly when it is not zero. *)
Lemma sign_events g ctx digest alg crc w r w' :
  sign kms crypto g ctx digest alg crc w = (r, w') ->
  exists ext tail,
    trace w' = trace w ++ ext ++ tail /\ Forall refresh_event ext /\
    (tail = [] \/
     exists req, tail = [EvAsymmetricSign ctx req] /\
       req_DigestCrc32C req = (if crc =? 0 then None else Some crc)).
Proof.
  unfold sign, bind, wrap, call, throw. intros H.
  destruct (getCKV kms crypto g w) as [r1 w1] eqn:E.
  apply getCKV_events in E as (ext & Ht & Hf).
  exists ext.
  destruct r1 as [ckv|e|m];
    [| inv_pair; exists (@nil event); rewrite app_nil_r; auto
     | inv_pair; exists (@nil event); rewrite app_nil_r; auto].
  destruct (signRequest _ digest alg crc) as [req|] eqn:Er;
    [|inv_pair; exists (@nil event); rewrite app_nil_r; auto].
  apply signRequest_crc in Er as [_ Hcrc].
  destruct (AsymmetricSign kms ctx req (svc w1)) as [[resp|e] s'] eqn:Es;
    inv_pair; simpl; exists [EvAsymmetricSign ctx req];
    (split; [rewrite Ht, <- app_assoc; reflexivity|]);
    (split; [exact Hf|]); right; exists req; auto.
Qed.


End Frames.

(* ===================================================================== *)
(** ** The reference parser *)
(* ===================================================================== *)

Section ReferenceParser.

Lemma matches_grammar_iff s : matches_grammar s <-> parse_direct s <> None.
Proof.
  split.
  - intros (P & L & R & K & V & HP & HL & HR & HK & HV & ->).
    rewrite parse_direct_complete by assumption. discriminate.
  - destruct (parse_direct s) as [[[[[P L] R] K] V]|] eqn:E; [|congruence].
    intros _. apply parse_direct_sound in E as (HP & HL & HR & HK & HV & Hs).
    exists P, L, R, K, V.
    exact (conj HP (conj HL (conj HR (conj HK (conj HV Hs))))).
Qed.

Lemma ValidReference_spec s :
  ValidReference s
  = match parse_direct s with Some _ => None | None => Some ErrKMSReference end.
Proof.
  unfold ValidReference, Regexp.MatchString. rewrite search_re.
  destruct (parse_direct s); reflexivity.
Qed.

Lemma parseReference_spec s :
  parseReference s
  = match parse_direct s with
    | Some (P, L, R, K, V) => mkParsed P L R K (default "" V) None
    | None =>
        mkParsed "" "" "" "" "" (Some (errors_Errorf_q "invalid gcpkms format %q" s))
    end.
Proof.
  unfold parseReference, Regexp.FindStringSubmatch. rewrite search_re.
  destruct (parse_direct s) as [[[[[P L] R] K] [v|]]|]; reflexivity.
Qed.

(** The reference names a version exactly when the parsed version is not
    empty. *)
Lemma parsed_version_pinned P L R K V :
  token P -> token L -> token R -> token K ->
  match V with Some v => token v | None => True end ->
  (p_version (parseReference (reference_text P L R K V)) = "" <-> V = None).
Proof.
  intros HP HL HR HK HV. rewrite parseReference_spec, parse_direct_complete by assumption.
  simpl. destruct V as [v|]; simpl; [|tauto].
  destruct HV as [Hne _]. split; [contradiction | discriminate].
Qed.

End ReferenceParser.

(** C7 (as amended).  A string outside the reference grammar is refused by
    both functions: [ValidReference] returns [ErrKMSReference], whose text
    carries the expected grammar, and [parseReference] returns five empty
    identifiers with an error built from the format
    [invalid gcpkms format %q] and the string itself, which does not carry
    the grammar.  A string of the grammar is accepted by [ValidReference] and
    parsed into exactly its project, location, key ring, key and version (the
    empty string when no version is named), with no error. *)
Theorem reference_parser_grammar :
  (forall s, ~ matches_grammar s ->
     ValidReference s = Some ErrKMSReference /\
     mentions grammar_text (error_text ErrKMSReference) = true /\
     parseReference s
     = mkParsed "" "" "" "" "" (Some (errors_Errorf_q "invalid gcpkms format %q" s)) /\
     mentions grammar_text (error_text (errors_Errorf_q "invalid gcpkms format %q" s))
     = false) /\
  (forall P L R K V,
     token P -> token L -> token R -> token K ->
     match V with Some v => token v | None => True end ->
     ValidReference (reference_text P L R K V) = None /\
     parseReference (reference_text P L R K V) = mkParsed P L R K (default "" V) None).
Proof.
  split.
  - intros s Hs. rewrite ValidReference_spec, parseReference_spec.
    destruct (parse_direct s) eqn:E.
    + exfalso. apply Hs. apply matches_grammar_iff. congruence.
    + repeat split; vm_compute; reflexivity.
  - intros P L R K V HP HL HR HK HV.
    rewrite ValidReference_spec, parseReference_spec, parse_direct_complete by assumption.
    split; reflexivity.
Qed.

Lemma reference_parser_grammar_witness :
  (~ matches_grammar "gcpkms://projects/p" /\
   ValidReference "gcpkms://projects/p" = Some ErrKMSReference /\
   parseReference "gcpkms://projects/p"
   = mkParsed "" "" "" "" ""
       (Some (errors_Errorf_q "invalid gcpkms format %q" "gcpkms://projects/p"))) /\
  (token "p" /\ token "l" /\ token "r" /\ token "k" /\ token "7" /\
   parseReference (reference_text "p" "l" "r" "k" (Some "7"))
   = mkParsed "p" "l" "r" "k" "7" None).
Proof.
  assert (N : ~ matches_grammar "gcpkms://projects/p").
  { intros H. apply matches_grammar_iff in H. apply H. vm_compute. reflexivity. }
  assert (T : forall t, t <> "" -> slash_free t = true -> token t) by (intros; split; assumption).
  split.
  - split; [exact N|].
    destruct (proj1 reference_parser_grammar _ N) as (H1 & _ & H2 & _).
    split; assumption.
  - assert (Tp : token "p") by (apply T; [discriminate | reflexivity]).
    assert (Tl : token "l") by (apply T; [discriminate | reflexivity]).
    assert (Tr : token "r") by (apply T; [discriminate | reflexivity]).
    assert (Tk : token "k") by (apply T; [discriminate | reflexivity]).
    assert (Tv : token "7") by (apply T; [discriminate | reflexivity]).
    repeat (split; [assumption|]).
    exact (proj2 (proj2 reference_parser_grammar "p" "l" "r" "k" (Some "7") Tp Tl Tr Tk Tv)).
Defined.

(** C7, as stated, fails on [parseReference]: for a string outside the
    grammar its error does not carry the expected grammar. *)
Lemma parse_error_lacks_grammar :
  ~ matches_grammar "gcpkms://projects/p" /\
  p_err (parseReference "gcpkms://projects/p")
  = Some (errors_Errorf_q "invalid gcpkms format %q" "gcpkms://projects/p") /\
  mentions grammar_text
    (error_text (errors_Errorf_q "invalid gcpkms format %q" "gcpkms://projects/p"))
  = false /\
  mentions grammar_text (error_text ErrKMSReference) = true.
Proof.
  split.
  - intros H. apply matches_grammar_iff in H. apply H. vm_compute. reflexivity.
  - repeat split; vm_compute; reflexivity.
Qed.

(* ===================================================================== *)
(** ** The key version resolver and the algorithm mapping *)
(* ===================================================================== *)

Lemma buildCryptoKeyVersion_Ok kv pk ckv :
  buildCryptoKeyVersion kv pk = Ok ckv ->
  CryptoKeyVersion ckv = kv /\
  SignerVerifier_PublicKey (ckv_SignerVerifier ckv) = pk /\
  hashFor (kv_Algorithm kv) = Some (HashFunc ckv) /\
  supported (kv_Algorithm kv) = true /\
  kv_Algorithm kv <> EC_SIGN_P256_SHA256.
Proof.
  unfold buildCryptoKeyVersion. intros H.
  destruct (kv_Algorithm kv), pk; simpl in H; try discriminate;
    inversion H; subst; simpl; repeat split; discriminate.
Qed.



Section Resolver.

Context {S R : Type}.
Variable kms : KMS S.
Variable crypto : Crypto R.

(** A resolution that returns a version fetched the public key of that
    version and built the verifier over it. *)
Lemma keyVersionName_Ok g ctx w ckv w' :
  keyVersionName kms crypto g ctx w = (Ok ckv, w') ->
  exists s2 pkresp pk,
    GetPublicKey kms ctx (kv_Name (CryptoKeyVersion ckv)) s2 = (ok pkresp, svc w') /\
    UnmarshalPEMToPublicKey crypto (pk_Pem pkresp) = ok pk /\
    SignerVerifier_PublicKey (ckv_SignerVerifier ckv) = pk /\
    hashFor (kv_Algorithm (CryptoKeyVersion ckv)) = Some (HashFunc ckv) /\
    supported (kv_Algorithm (CryptoKeyVersion ckv)) = true.
Proof.
  unfold keyVersionName, fetchPublicKey, bind, wrap, call, lift, ret, throw.
  intros H.
  destruct (GetCryptoKey kms ctx (keyPath g) (svc w)) as [[key|e] s1]; simpl in H;
    [|discriminate].
  destruct (ck_Purpose key); simpl in H; try discriminate.
  destruct (pinned g); simpl in H.
  - destruct (GetCryptoKeyVersion kms ctx _ s1) as [[kv|e] s2]; simpl in H;
      [|discriminate].
    destruct (GetPublicKey kms ctx (kv_Name kv) s2) as [[pk|e] s3] eqn:E3; simpl in H;
      [|discriminate].
    destruct (UnmarshalPEMToPublicKey crypto (pk_Pem pk)) as [k|e] eqn:E4; simpl in H;
      [|discriminate].
    inversion H as [[Hb Hw]]. apply buildCryptoKeyVersion_Ok in Hb as (-> & Hk & Hh & Hs & _).
    exists s2, pk, k. simpl. auto.
  - destruct (ListCryptoKeyVersions_Next kms ctx _ s1) as [[kv|e] s2]; simpl in H;
      [|discriminate].
    destruct (GetPublicKey kms ctx (kv_Name kv) s2) as [[pk|e] s3] eqn:E3; simpl in H;
      [|discriminate].
    destruct (UnmarshalPEMToPublicKey crypto (pk_Pem pk)) as [k|e] eqn:E4; simpl in H;
      [|discriminate].
    inversion H as [[Hb Hw]]. apply buildCryptoKeyVersion_Ok in Hb as (-> & Hk & Hh & Hs & _).
    exists s2, pk, k. simpl. auto.
Qed.

(** A resolution whose remote calls all succeed ends in the two switches on
    the algorithm of the selected version. *)
Lemma keyVersionName_reaches_switch g ctx (w : World S) key s1 kv s2 pkr s3 pk :
  GetCryptoKey kms ctx (keyPath g) (svc w) = (ok key, s1) ->
  ck_Purpose key = ASYMMETRIC_SIGN ->
  selectVersion kms g ctx s1 = (ok kv, s2) ->
  GetPublicKey kms ctx (kv_Name kv) s2 = (ok pkr, s3) ->
  UnmarshalPEMToPublicKey crypto (pk_Pem pkr) = ok pk ->
  fst (keyVersionName kms crypto g ctx w) = buildCryptoKeyVersion kv pk.
Proof.
  unfold selectVersion, keyVersionName, fetchPublicKey, bind, wrap, call, lift, ret, throw.
  intros Hk Hp Hv Hpk Hu. cbv zeta. rewrite Hk. cbv beta iota. rewrite Hp.
  destruct (pinned g); cbv beta iota zeta; cbn [svc]; rewrite Hv;
    cbv beta iota zeta; cbn [svc]; rewrite Hpk; cbv beta iota; rewrite Hu; reflexivity.
Qed.


(** [createKey] with a name outside the table never asks the service to
    create a key. *)
End Resolver.

(** C1.  The resolver on a version of algorithm [EC_SIGN_P256_SHA256]: the
    first switch of [keyVersionName] has an empty case for it, so the public
    key fetched for the version is dropped, the loader is handed a nil key
    and resolution ends in the error [initializing internal verifier]
    instead of returning a verifier over the fetched key; construction of
    the client fails with it.  The sibling case [EC_SIGN_P384_SHA384]
    returns a verifier whose public key is the fetched one. *)
Theorem resolution_p256_drops_fetched_key :
  (forall pk, privateKeysFor EC_SIGN_P256_SHA256 pk = Ok (None, None)) /\
  (forall name st pk,
     buildCryptoKeyVersion
       {| kv_Name := name; kv_State := st; kv_Algorithm := EC_SIGN_P256_SHA256 |} pk
     = Err (errors_Wrap (errors_New "invalid ECDSA private key specified")
              "initializing internal verifier")) /\
  fst (keyVersionName Mock.kms Mock.crypto (Mock.client "") ctxBackground
         (Mock.world (Mock.service EC_SIGN_P256_SHA256 "EC" Mock.goodResp)))
  = Err (errors_Wrap (errors_New "invalid ECDSA private key specified")
           "initializing internal verifier") /\
  fst (newGCPClient Mock.kms Mock.crypto None Mock.unpinnedRef
         (Mock.world (Mock.service EC_SIGN_P256_SHA256 "EC" Mock.goodResp)))
  = Err (errors_Wrap
           (errors_Wrap (errors_New "invalid ECDSA private key specified")
              "initializing internal verifier")
           "initializing key version from GCP KMS") /\
  fst (keyVersionName Mock.kms Mock.crypto (Mock.client "") ctxBackground
         (Mock.world (Mock.service EC_SIGN_P384_SHA384 "EC" Mock.goodResp)))
  = Ok {| CryptoKeyVersion := Mock.enabled "1" EC_SIGN_P384_SHA384;
          ckv_SignerVerifier :=
            ECDSASignerVerifier
              {| ecdsa_PublicKey_of := Mock.ecKey; ecdsa_D := None |} SHA384;
          HashFunc := SHA384 |}.
Proof.
  split; [reflexivity|]. split; [reflexivity|].
  repeat split; vm_compute; reflexivity.
Qed.

(** C2 (as amended).  For every algorithm name outside the table,
    [createKey] never asks the service to create a key.  It first looks the
    key ring up by its path and, only when that lookup fails, asks for the
    ring to be created; when the creation fails it returns that error wrapped
    as [creating key ring] and has not looked the key up.  Otherwise it looks
    the key up by its path next: when the key is there it returns what
    [public] returns, and when the lookup fails it returns the error
    [unknown algorithm requested] without a further call. *)
Theorem createKey_unsupported_algorithm :
  forall {S R : Type} (kms : KMS S) (crypto : Crypto R) g ctx name (w : World S),
    algorithmMap !! name = None ->
    createKeyRing kms g ctx w
    = match GetKeyRing kms ctx (keyRingPath g) (svc w) with
      | (ok _, s1) =>
          (Ok tt,
           mkWorld s1 (kvCache w) (now w)
             (trace w ++ [EvGetKeyRing ctx (keyRingPath g)]))
      | (err _, s1) =>
          match CreateKeyRing kms ctx
                  {| ckr_Parent := locationPath g; ckr_KeyRingId := keyRing g |} s1 with
          | (ok _, s2) =>
              (Ok tt,
               mkWorld s2 (kvCache w) (now w)
                 (trace w ++ [EvGetKeyRing ctx (keyRingPath g);
                              EvCreateKeyRing ctx
                                {| ckr_Parent := locationPath g;
                                   ckr_KeyRingId := keyRing g |}]))
          | (err e, s2) =>
              (Err e,
               mkWorld s2 (kvCache w) (now w)
                 (trace w ++ [EvGetKeyRing ctx (keyRingPath g);
                              EvCreateKeyRing ctx
                                {| ckr_Parent := locationPath g;
                                   ckr_KeyRingId := keyRing g |}]))
          end
      end /\
    createKey kms crypto g ctx name w
    = match createKeyRing kms g ctx w with
      | (Ok _, w1) =>
          match GetCryptoKey kms ctx (keyPath g) (svc w1) with
          | (ok _, s2) =>
              public kms crypto g ctx
                (mkWorld s2 (kvCache w1) (now w1)
                   (trace w1 ++ [EvGetCryptoKey ctx (keyPath g)]))
          | (err _, s2) =>
              (Err UnsupportedAlgorithm_requested,
               mkWorld s2 (kvCache w1) (now w1)
                 (trace w1 ++ [EvGetCryptoKey ctx (keyPath g)]))
          end
      | (Err e, w1) => (Err (errors_Wrap e "creating key ring"), w1)
      | (Panic msg, w1) => (Panic msg, w1)
      end /\
    (exists ext,
       trace (snd (createKey kms crypto g ctx name w))
       = trace w ++ EvGetKeyRing ctx (keyRingPath g) :: ext /\
       Forall (fun ev => is_create_key ev = false) ext).
Proof.
  intros S R kms crypto g ctx name w Hn.
  assert (Hring : createKeyRing kms g ctx w
    = match GetKeyRing kms ctx (keyRingPath g) (svc w) with
      | (ok _, s1) =>
          (Ok tt,
           mkWorld s1 (kvCache w) (now w)
             (trace w ++ [EvGetKeyRing ctx (keyRingPath g)]))
      | (err _, s1) =>
          match CreateKeyRing kms ctx
                  {| ckr_Parent := locationPath g; ckr_KeyRingId := keyRing g |} s1 with
          | (ok _, s2) =>
              (Ok tt,
               mkWorld s2 (kvCache w) (now w)
                 (trace w ++ [EvGetKeyRing ctx (keyRingPath g);
                              EvCreateKeyRing ctx
                                {| ckr_Parent := locationPath g;
                                   ckr_KeyRingId := keyRing g |}]))
          | (err e, s2) =>
              (Err e,
               mkWorld s2 (kvCache w) (now w)
                 (trace w ++ [EvGetKeyRing ctx (keyRingPath g);
                              EvCreateKeyRing ctx
                                {| ckr_Parent := locationPath g;
                                   ckr_KeyRingId := keyRing g |}]))
          end
      end).
  { unfold createKeyRing, call.
    destruct (GetKeyRing kms ctx (keyRingPath g) (svc w)) as [[k|e] s1]; simpl;
      [reflexivity|].
    destruct (CreateKeyRing kms ctx _ s1) as [[k|e2] s2]; simpl;
      rewrite <- app_assoc; reflexivity. }
  assert (Hkey : createKey kms crypto g ctx name w
    = match createKeyRing kms g ctx w with
      | (Ok _, w1) =>
          match GetCryptoKey kms ctx (keyPath g) (svc w1) with
          | (ok _, s2) =>
              public kms crypto g ctx
                (mkWorld s2 (kvCache w1) (now w1)
                   (trace w1 ++ [EvGetCryptoKey ctx (keyPath g)]))
          | (err _, s2) =>
              (Err UnsupportedAlgorithm_requested,
               mkWorld s2 (kvCache w1) (now w1)
                 (trace w1 ++ [EvGetCryptoKey ctx (keyPath g)]))
          end
      | (Err e, w1) => (Err (errors_Wrap e "creating key ring"), w1)
      | (Panic msg, w1) => (Panic msg, w1)
      end).
  { unfold createKey, bind, wrap.
    destruct (createKeyRing kms g ctx w) as [[[]|e|m] w1]; try reflexivity.
    unfold call.
    destruct (GetCryptoKey kms ctx (keyPath g) (svc w1)) as [[k|e] s2]; cbv beta iota;
      [reflexivity|]. rewrite Hn. reflexivity. }
  split; [exact Hring|]. split; [exact Hkey|].
  rewrite Hkey, Hring.
  assert (Hlook : forall s t,
            exists ext,
              trace (snd (match GetCryptoKey kms ctx (keyPath g) s with
                          | (ok _, s2) =>
                              public kms crypto g ctx
                                (mkWorld s2 (kvCache w) (now w)
                                   (t ++ [EvGetCryptoKey ctx (keyPath g)]))
                          | (err _, s2) =>
                              (Err UnsupportedAlgorithm_requested,
                               mkWorld s2 (kvCache w) (now w)
                                 (t ++ [EvGetCryptoKey ctx (keyPath g)]))
                          end))
              = t ++ ext /\
              Forall (fun ev => is_create_key ev = false) ext).
  { intros s t.
    destruct (GetCryptoKey kms ctx (keyPath g) s) as [[k|e] s2].
    - destruct (public kms crypto g ctx _) as [r w'] eqn:E.
      apply public_events in E as (ext2 & Ht2 & F2). simpl in Ht2.
      exists (EvGetCryptoKey ctx (keyPath g) :: ext2). split.
      + simpl. rewrite Ht2, <- app_assoc. reflexivity.
      + constructor; [reflexivity|].
        eapply Forall_impl; [exact F2|]. intros ev [-> | [-> | Hc]]; try reflexivity.
        destruct ev; simpl in Hc; try contradiction; reflexivity.
    - exists [EvGetCryptoKey ctx (keyPath g)]. split; [reflexivity|].
      constructor; [reflexivity | constructor]. }
  destruct (GetKeyRing kms ctx (keyRingPath g) (svc w)) as [[k|e] s1].
  - cbv beta iota. cbn [svc kvCache now trace].
    destruct (Hlook s1 (trace w ++ [EvGetKeyRing ctx (keyRingPath g)])) as (ext & Ht & Hf).
    exists ext. split; [|exact Hf]. rewrite Ht, <- app_assoc. reflexivity.
  - destruct (CreateKeyRing kms ctx _ s1) as [[k|e2] s2].
    + cbv beta iota. cbn [svc kvCache now trace].
      destruct (Hlook s2 (trace w ++ [EvGetKeyRing ctx (keyRingPath g);
                                      EvCreateKeyRing ctx
                                        {| ckr_Parent := locationPath g;
                                           ckr_KeyRingId := keyRing g |}]))
        as (ext & Ht & Hf).
      eexists. split; [rewrite Ht, <- app_assoc; reflexivity|].
      constructor; [reflexivity | exact Hf].
    + eexists. split; [reflexivity|]. constructor; [reflexivity | constructor].
Qed.

Lemma createKey_unsupported_algorithm_witness :
  algorithmMap !! "bogus" = None /\
  createKey Mock.kms Mock.crypto (Mock.client "") (ctxCaller 1) "bogus"
    (Mock.world Mock.emptyRing)
  = (Err UnsupportedAlgorithm_requested,
     mkWorld Mock.emptyRing ttlcache.NewCache 0
       [EvGetKeyRing (ctxCaller 1) "projects/p/locations/l/keyRings/r";
        EvGetCryptoKey (ctxCaller 1) "projects/p/locations/l/keyRings/r/cryptoKeys/k"]) /\
  createKey readonly_kms Mock.crypto (Mock.client "") (ctxCaller 1) "bogus"
    (Mock.world noRing)
  = (Err (errors_Wrap (errors_New "rpc error: code = PermissionDenied")
            "creating key ring"),
     mkWorld noRing ttlcache.NewCache 0
       [EvGetKeyRing (ctxCaller 1) "projects/p/locations/l/keyRings/r";
        EvCreateKeyRing (ctxCaller 1)
          {| ckr_Parent := "projects/p/locations/l"; ckr_KeyRingId := "r" |}]) /\
  fst (createKey Mock.kms Mock.crypto (Mock.client "") (ctxCaller 1) "bogus"
         (Mock.world (Mock.service EC_SIGN_P384_SHA384 "EC" Mock.goodResp)))
  = Ok (PubECDSA Mock.ecKey).
Proof.
  assert (Hn : algorithmMap !! "bogus" = None) by (vm_compute; reflexivity).
  split; [exact Hn|]. split; [|split].
  - destruct (createKey_unsupported_algorithm Mock.kms Mock.crypto (Mock.client "")
                (ctxCaller 1) "bogus" (Mock.world Mock.emptyRing) Hn) as (Hr & Hk & _).
    rewrite Hk, Hr. vm_compute. reflexivity.
  - destruct (createKey_unsupported_algorithm readonly_kms Mock.crypto (Mock.client "")
                (ctxCaller 1) "bogus" (Mock.world noRing) Hn) as (Hr & Hk & _).
    rewrite Hk, Hr. vm_compute. reflexivity.
  - destruct (createKey_unsupported_algorithm Mock.kms Mock.crypto (Mock.client "")
                (ctxCaller 1) "bogus"
                (Mock.world (Mock.service EC_SIGN_P384_SHA384 "EC" Mock.goodResp)) Hn)
      as (Hr & Hk & _).
    rewrite Hk, Hr. vm_compute. reflexivity.
Defined.

(** C2, as stated, fails: with a name outside the table [createKey] has
    looked up the key ring and the key before it reports the unsupported
    algorithm, and where the key ring is missing it has created it. *)
Lemma createKey_calls_before_algorithm_check :
  algorithmMap !! "bogus" = None /\
  createKey Mock.kms Mock.crypto (Mock.client "") (ctxCaller 1) "bogus"
    (Mock.world Mock.emptyRing)
  = (Err UnsupportedAlgorithm_requested,
     mkWorld Mock.emptyRing ttlcache.NewCache 0
       [EvGetKeyRing (ctxCaller 1) "projects/p/locations/l/keyRings/r";
        EvGetCryptoKey (ctxCaller 1) "projects/p/locations/l/keyRings/r/cryptoKeys/k"]) /\
  createKey Mock.kms Mock.crypto (Mock.client "") (ctxCaller 1) "bogus"
    (Mock.world {| Mock.m_ring := false; Mock.m_key := None; Mock.m_versions := [];
                   Mock.m_pem := "EC"; Mock.m_resp := Mock.goodResp |})
  = (Err UnsupportedAlgorithm_requested,
     mkWorld Mock.emptyRing ttlcache.NewCache 0
       [EvGetKeyRing (ctxCaller 1) "projects/p/locations/l/keyRings/r";
        EvCreateKeyRing (ctxCaller 1)
          {| ckr_Parent := "projects/p/locations/l"; ckr_KeyRingId := "r" |};
        EvGetCryptoKey (ctxCaller 1) "projects/p/locations/l/keyRings/r/cryptoKeys/k"]).
Proof. repeat split; vm_compute; reflexivity. Qed.




(* ===================================================================== *)
(** ** Signing and the integrity checks *)
(* ===================================================================== *)

(** The check value of CRC-32C: the checksum of the ASCII digits 1 to 9. *)
Example crc32c_check_value :
  crc32.Checksum [x31; x32; x33; x34; x35; x36; x37; x38; x39]
    (crc32.MakeTable crc32.Castagnoli)
  = 0xe3069283.
Proof. vm_compute. reflexivity. Qed.

Lemma checkResponse_request_ok crc resp :
  crc = 0 \/ resp_VerifiedDigestCrc32C resp = true ->
  checkResponse crc resp
  = match resp_SignatureCrc32C resp with
    | None => Panic "invalid memory address or nil pointer dereference"
    | Some claimed =>
        if crc32.Checksum (resp_Signature resp) (crc32.MakeTable crc32.Castagnoli)
           =? claimed
        then Ok (resp_Signature resp)
        else Err ResponseCorrupted
    end.
Proof.
  unfold checkResponse. intros [-> | ->]; simpl.
  - destruct (resp_SignatureCrc32C resp); [|reflexivity].
    destruct (_ =? _); reflexivity.
  - rewrite andb_false_r. destruct (resp_SignatureCrc32C resp); [|reflexivity].
    destruct (_ =? _); reflexivity.
Qed.

Lemma checkResponse_request_corrupted crc resp :
  crc <> 0 -> resp_VerifiedDigestCrc32C resp = false ->
  checkResponse crc resp = Err RequestCorrupted.
Proof.
  unfold checkResponse. intros Hc ->. apply Z.eqb_neq in Hc. rewrite Hc. reflexivity.
Qed.

(** C4 (as amended).  For every [sign] call whose remote dispatch succeeds,
    whose request check does not fail (the caller's checksum is zero, or the
    service reports the digest checksum verified) and whose response carries
    a signature checksum: [sign] recomputes the CRC-32C of the returned
    signature and fails with [ResponseCorrupted] exactly when it differs from
    the claimed one, whether or not a request checksum was supplied;
    otherwise it returns the signature bytes unmodified. *)
Theorem sign_response_integrity :
  forall {S R : Type} (kms : KMS S) (crypto : Crypto R) g ctx digest alg crc
         (w : World S) ckv w1 req resp s' claimed,
    getCKV kms crypto g w = (Ok ckv, w1) ->
    signRequest (kv_Name (CryptoKeyVersion ckv)) digest alg crc = Some req ->
    AsymmetricSign kms ctx req (svc w1) = (ok resp, s') ->
    crc = 0 \/ resp_VerifiedDigestCrc32C resp = true ->
    resp_SignatureCrc32C resp = Some claimed ->
    (crc32.Checksum (resp_Signature resp) (crc32.MakeTable crc32.Castagnoli) <> claimed
     <-> fst (sign kms crypto g ctx digest alg crc w) = Err ResponseCorrupted) /\
    (crc32.Checksum (resp_Signature resp) (crc32.MakeTable crc32.Castagnoli) = claimed
     -> fst (sign kms crypto g ctx digest alg crc w) = Ok (resp_Signature resp)).
Proof.
  intros S R kms crypto g ctx digest alg crc w ckv w1 req resp s' claimed
         Hc Hr Hs Hq Hsum.
  rewrite (sign_after_dispatch kms crypto g ctx digest alg crc w ckv w1 req resp s' Hc Hr Hs).
  simpl. rewrite (checkResponse_request_ok crc resp Hq), Hsum.
  destruct (Z.eqb_spec (crc32.Checksum (resp_Signature resp)
                          (crc32.MakeTable crc32.Castagnoli)) claimed) as [E|E].
  - split; [|reflexivity]. split; [contradiction | discriminate].
  - split; [|contradiction]. split; [intros _; reflexivity | intros _; exact E].
Qed.

Lemma sign_response_integrity_witness :
  fst (getCKV Mock.kms Mock.crypto (Mock.client "")
         (Mock.primed Mock.unpinnedRef
            (Mock.service EC_SIGN_P384_SHA384 "EC" Mock.goodResp)))
  = Ok {| CryptoKeyVersion := Mock.enabled "1" EC_SIGN_P384_SHA384;
          ckv_SignerVerifier :=
            ECDSASignerVerifier
              {| ecdsa_PublicKey_of := Mock.ecKey; ecdsa_D := None |} SHA384;
          HashFunc := SHA384 |} /\
  fst (sign Mock.kms Mock.crypto (Mock.client "") (ctxCaller 1) [] SHA256 0
         (Mock.primed Mock.unpinnedRef
            (Mock.service EC_SIGN_P384_SHA384 "EC" Mock.goodResp)))
  = Ok Mock.sig0.
Proof.
  split; [vm_compute; reflexivity|].
  refine (proj2 (sign_response_integrity Mock.kms Mock.crypto (Mock.client "")
            (ctxCaller 1) [] SHA256 0
            (Mock.primed Mock.unpinnedRef
               (Mock.service EC_SIGN_P384_SHA384 "EC" Mock.goodResp))
            {| CryptoKeyVersion := Mock.enabled "1" EC_SIGN_P384_SHA384;
               ckv_SignerVerifier :=
                 ECDSASignerVerifier
                   {| ecdsa_PublicKey_of := Mock.ecKey; ecdsa_D := None |} SHA384;
               HashFunc := SHA384 |}
            (snd (getCKV Mock.kms Mock.crypto (Mock.client "")
                    (Mock.primed Mock.unpinnedRef
                       (Mock.service EC_SIGN_P384_SHA384 "EC" Mock.goodResp))))
            {| req_Name := Mock.versionName "1"; req_Digest := Digest_Sha256 [];
               req_DigestCrc32C := None |}
            Mock.goodResp
            (Mock.service EC_SIGN_P384_SHA384 "EC" Mock.goodResp)
            (crc32.Checksum Mock.sig0 (crc32.MakeTable crc32.Castagnoli))
            _ _ _ _ _) _).
  - vm_compute; reflexivity.
  - vm_compute; reflexivity.
  - vm_compute; reflexivity.
  - left; reflexivity.
  - reflexivity.
  - reflexivity.
Defined.

(** C4, as stated, fails: with a checksum supplied that the service does
    not report verified, [sign] returns [RequestCorrupted] although the
    checksum claimed for the signature differs from the recomputed one. *)
Lemma sign_request_check_comes_first :
  crc32.Checksum Mock.sig0 (crc32.MakeTable crc32.Castagnoli) <> 0 /\
  fst (sign Mock.kms Mock.crypto (Mock.client "") (ctxCaller 1) [] SHA256 7
         (Mock.primed Mock.unpinnedRef
            (Mock.service EC_SIGN_P384_SHA384 "EC"
               {| resp_Signature := Mock.sig0; resp_SignatureCrc32C := Some 0;
                  resp_VerifiedDigestCrc32C := false |})))
  = Err RequestCorrupted /\
  RequestCorrupted <> ResponseCorrupted.
Proof.
  split; [vm_compute; discriminate|]. split; [vm_compute; reflexivity | discriminate].
Qed.

(** C5.  A [sign] call makes at most one remote signing call, with the
    caller's context, and the request carries the checksum exactly when the
    checksum is not zero.  When the checksum is not zero and the service
    answers that the digest checksum did not verify, [sign] returns
    [RequestCorrupted] after that single call.  When the checksum is zero the
    flag is not looked at: the outcome is that of the response check alone. *)
Theorem sign_request_checksum :
  forall {S R : Type} (kms : KMS S) (crypto : Crypto R) g ctx digest alg crc
         (w : World S),
    (exists ext tail,
       trace (snd (sign kms crypto g ctx digest alg crc w)) = trace w ++ ext ++ tail /\
       Forall refresh_event ext /\
       (tail = [] \/
        exists req, tail = [EvAsymmetricSign ctx req] /\
          req_DigestCrc32C req = (if crc =? 0 then None else Some crc))) /\
    (forall ckv w1 req resp s',
       getCKV kms crypto g w = (Ok ckv, w1) ->
       signRequest (kv_Name (CryptoKeyVersion ckv)) digest alg crc = Some req ->
       AsymmetricSign kms ctx req (svc w1) = (ok resp, s') ->
       (crc <> 0 -> req_DigestCrc32C req = Some crc) /\
       (crc <> 0 -> resp_VerifiedDigestCrc32C resp = false ->
        sign kms crypto g ctx digest alg crc w
        = (Err RequestCorrupted,
           mkWorld s' (kvCache w1) (now w1) (trace w1 ++ [EvAsymmetricSign ctx req]))) /\
       (crc = 0 ->
        req_DigestCrc32C req = None /\
        fst (sign kms crypto g ctx digest alg crc w)
        = match resp_SignatureCrc32C resp with
          | None => Panic "invalid memory address or nil pointer dereference"
          | Some claimed =>
              if crc32.Checksum (resp_Signature resp) (crc32.MakeTable crc32.Castagnoli)
                 =? claimed
              then Ok (resp_Signature resp)
              else Err ResponseCorrupted
          end)).
Proof.
  intros S R kms crypto g ctx digest alg crc w. split.
  - destruct (sign kms crypto g ctx digest alg crc w) as [r w'] eqn:E.
    exact (sign_events kms crypto g ctx digest alg crc w r w' E).
  - intros ckv w1 req resp s' Hc Hr Hs.
    rewrite (sign_after_dispatch kms crypto g ctx digest alg crc w ckv w1 req resp s' Hc Hr Hs).
    apply signRequest_crc in Hr as [_ Hcrc].
    split; [|split].
    + intros Hne. apply Z.eqb_neq in Hne. rewrite Hcrc, Hne. reflexivity.
    + intros Hne Hv. rewrite (checkResponse_request_corrupted crc resp Hne Hv). reflexivity.
    + intros ->. split; [exact Hcrc|]. simpl.
      apply checkResponse_request_ok. left; reflexivity.
Qed.

Lemma sign_request_checksum_witness :
  (7 <> 0 /\
   fst (sign Mock.kms Mock.crypto (Mock.client "") (ctxCaller 1) [] SHA256 7
          (Mock.primed Mock.unpinnedRef
             (Mock.service EC_SIGN_P384_SHA384 "EC"
                {| resp_Signature := Mock.sig0; resp_SignatureCrc32C := Some 0;
                   resp_VerifiedDigestCrc32C := false |})))
   = Err RequestCorrupted) /\
  fst (sign Mock.kms Mock.crypto (Mock.client "") (ctxCaller 1) [] SHA256 0
         (Mock.primed Mock.unpinnedRef
            (Mock.service EC_SIGN_P384_SHA384 "EC"
               {| resp_Signature := Mock.sig0; resp_SignatureCrc32C := Some 0;
                  resp_VerifiedDigestCrc32C := false |})))
  = Err ResponseCorrupted.
Proof.
  pose (bad := {| resp_Signature := Mock.sig0; resp_SignatureCrc32C := Some 0;
                  resp_VerifiedDigestCrc32C := false |}).
  pose (st := Mock.service EC_SIGN_P384_SHA384 "EC" bad).
  pose (w := Mock.primed Mock.unpinnedRef st).
  pose (ckv := {| CryptoKeyVersion := Mock.enabled "1" EC_SIGN_P384_SHA384;
                  ckv_SignerVerifier :=
                    ECDSASignerVerifier
                      {| ecdsa_PublicKey_of := Mock.ecKey; ecdsa_D := None |} SHA384;
                  HashFunc := SHA384 |}).
  assert (Hc : getCKV Mock.kms Mock.crypto (Mock.client "") w
               = (Ok ckv, snd (getCKV Mock.kms Mock.crypto (Mock.client "") w)))
    by (vm_compute; reflexivity).
  split.
  - split; [discriminate|].
    destruct (proj2 (sign_request_checksum Mock.kms Mock.crypto (Mock.client "")
                       (ctxCaller 1) [] SHA256 7 w)
                ckv _ {| req_Name := Mock.versionName "1"; req_Digest := Digest_Sha256 [];
                         req_DigestCrc32C := Some 7 |} bad st Hc eq_refl eq_refl)
      as (_ & H & _).
    change (fst (sign Mock.kms Mock.crypto (Mock.client "") (ctxCaller 1) [] SHA256 7 w)
            = Err RequestCorrupted).
    rewrite H; [reflexivity | discriminate | reflexivity].
  - destruct (proj2 (sign_request_checksum Mock.kms Mock.crypto (Mock.client "")
                       (ctxCaller 1) [] SHA256 0 w)
                ckv _ {| req_Name := Mock.versionName "1"; req_Digest := Digest_Sha256 [];
                         req_DigestCrc32C := None |} bad st Hc eq_refl eq_refl)
      as (_ & _ & H).
    destruct (H eq_refl) as [_ H']. exact H'.
Defined.

(** C10.  [sign] reads the signature checksum of the response through its
    pointer without a nil check.  For a dispatch that succeeds with a
    response carrying no signature checksum, [sign] panics as soon as the
    request check does not fail, and the only error it can return is the
    request check's: no error reports the absent checksum.  With a checksum
    present [sign] does not panic. *)
Theorem sign_nil_checksum :
  forall {S R : Type} (kms : KMS S) (crypto : Crypto R) g ctx digest alg crc
         (w : World S) ckv w1 req resp s',
    getCKV kms crypto g w = (Ok ckv, w1) ->
    signRequest (kv_Name (CryptoKeyVersion ckv)) digest alg crc = Some req ->
    AsymmetricSign kms ctx req (svc w1) = (ok resp, s') ->
    (resp_SignatureCrc32C resp = None ->
     (crc = 0 \/ resp_VerifiedDigestCrc32C resp = true ->
      fst (sign kms crypto g ctx digest alg crc w)
      = Panic "invalid memory address or nil pointer dereference") /\
     (forall e, fst (sign kms crypto g ctx digest alg crc w) = Err e ->
                e = RequestCorrupted) /\
     (forall sig, fst (sign kms crypto g ctx digest alg crc w) <> Ok sig)) /\
    (forall claimed, resp_SignatureCrc32C resp = Some claimed ->
     forall msg, fst (sign kms crypto g ctx digest alg crc w) <> Panic msg).
Proof.
  intros S R kms crypto g ctx digest alg crc w ckv w1 req resp s' Hc Hr Hs.
  rewrite (sign_after_dispatch kms crypto g ctx digest alg crc w ckv w1 req resp s' Hc Hr Hs).
  simpl. unfold checkResponse. split.
  - intros ->. split; [|split].
    + intros [-> | ->]; simpl; [reflexivity|]. rewrite andb_false_r. reflexivity.
    + intros e. destruct (negb (crc =? 0) && negb (resp_VerifiedDigestCrc32C resp));
        intros H; [congruence | discriminate].
    + intros sig. destruct (negb (crc =? 0) && negb (resp_VerifiedDigestCrc32C resp));
        discriminate.
  - intros claimed -> msg.
    destruct (negb (crc =? 0) && negb (resp_VerifiedDigestCrc32C resp)); [discriminate|].
    destruct (negb _); discriminate.
Qed.

Lemma sign_nil_checksum_witness :
  resp_SignatureCrc32C
    {| resp_Signature := Mock.sig0; resp_SignatureCrc32C := None;
       resp_VerifiedDigestCrc32C := true |} = None /\
  fst (sign Mock.kms Mock.crypto (Mock.client "") (ctxCaller 1) [] SHA256 0
         (Mock.primed Mock.unpinnedRef
            (Mock.service EC_SIGN_P384_SHA384 "EC"
               {| resp_Signature := Mock.sig0; resp_SignatureCrc32C := None;
                  resp_VerifiedDigestCrc32C := true |})))
  = Panic "invalid memory address or nil pointer dereference".
Proof.
  pose (nochk := {| resp_Signature := Mock.sig0; resp_SignatureCrc32C := None;
                    resp_VerifiedDigestCrc32C := true |}).
  pose (st := Mock.service EC_SIGN_P384_SHA384 "EC" nochk).
  pose (w := Mock.primed Mock.unpinnedRef st).
  pose (ckv := {| CryptoKeyVersion := Mock.enabled "1" EC_SIGN_P384_SHA384;
                  ckv_SignerVerifier :=
                    ECDSASignerVerifier
                      {| ecdsa_PublicKey_of := Mock.ecKey; ecdsa_D := None |} SHA384;
                  HashFunc := SHA384 |}).
  assert (Hc : getCKV Mock.kms Mock.crypto (Mock.client "") w
               = (Ok ckv, snd (getCKV Mock.kms Mock.crypto (Mock.client "") w)))
    by (vm_compute; reflexivity).
  split; [reflexivity|].
  destruct (sign_nil_checksum Mock.kms Mock.crypto (Mock.client "") (ctxCaller 1) []
              SHA256 0 w ckv _
              {| req_Name := Mock.versionName "1"; req_Digest := Digest_Sha256 [];
                 req_DigestCrc32C := None |} nochk st Hc eq_refl eq_refl) as [H _].
  destruct (H eq_refl) as [H' _]. apply H'. left; reflexivity.
Defined.

(* ===================================================================== *)
(** ** The resolution cache *)
(* ===================================================================== *)

Lemma set_items_id c it :
  ttlcache.items c !! CacheKey = Some it ->
  ttlcache.set_items (<[CacheKey := it]> (ttlcache.items c)) c = c.
Proof.
  intros H. unfold ttlcache.set_items. rewrite (insert_id _ _ _ H).
  destruct c; reflexivity.
Qed.

(** A read of an entry that has not expired returns it and leaves the
    cache as it was: the expiry instant is not moved. *)
Lemma getItem_hit c it t :
  holds c it -> ttlcache.expired t it = false ->
  ttlcache.getItem c t CacheKey = (Some it, c).
Proof.
  intros (Hi & Ht & Hs) He. unfold ttlcache.getItem. rewrite Hi, He, Ht, Hs. simpl.
  rewrite orb_false_r.
  destruct ((0 <=? ttlcache.ttl it) && (0 <? ttlcache.ttl it));
    rewrite (set_items_id c it Hi); reflexivity.
Qed.

Lemma getItem_expired c it t :
  ttlcache.items c !! CacheKey = Some it -> ttlcache.expired t it = true ->
  ttlcache.getItem c t CacheKey = (None, c).
Proof. intros Hi He. unfold ttlcache.getItem. rewrite Hi, He. reflexivity. Qed.

(** The entry a fresh cache stores for a value loaded at time [t0]. *)
Lemma SetWithTTL_fresh t0 d g :
  let c := ttlcache.SetWithTTL (ttlcache.SkipTTLExtensionOnHit true ttlcache.NewCache)
             t0 CacheKey d (loader_ttl g) in
  holds c {| ttlcache.data := d; ttlcache.ttl := loader_ttl g;
             ttlcache.expireAt := if pinned g then 0 else t0 + 300 * Second |}.
Proof.
  unfold holds, loader_ttl. destruct (pinned g); simpl.
  - repeat split.
  - repeat split.
Qed.

Section Cache.

Context {S R : Type}.
Variable kms : KMS S.
Variable crypto : Crypto R.

Lemma getCKV_hit g (w : World S) it :
  holds (kvCache w) it -> ttlcache.expired (now w) it = false ->
  getCKV kms crypto g w
  = (Ok (ttlcache.data it),
     mkWorld (svc w) (kvCache w) (now w) (trace w ++ [EvCacheGet CacheKey])).
Proof.
  intros Hh He. rewrite getCKV_unfold, (getItem_hit _ _ _ Hh He). reflexivity.
Qed.

(** Reads of an entry that stays unexpired all return it, resolve nothing
    and leave the cache untouched. *)
Lemma reads_hit g c it :
  holds c it ->
  forall ds (w : World S),
    kvCache w = c ->
    (ttlcache.ttl it <= 0 \/
     (Forall (fun d => 0 <= d) ds /\ now w + Zsum ds <= ttlcache.expireAt it)) ->
    reads kms crypto g ds w
    = (repeat (Ok (ttlcache.data it)) (length ds),
       mkWorld (svc w) c (now w + Zsum ds)
         (trace w ++ repeat (EvCacheGet CacheKey) (length ds))).
Proof.
  intros Hh. induction ds as [|d ds IH]; intros w Hc Hlive; simpl.
  - rewrite Z.add_0_r, app_nil_r. subst c. destruct w; reflexivity.
  - assert (He : ttlcache.expired (now (idle d w)) it = false).
    { unfold ttlcache.expired. simpl. destruct (Z.leb_spec (ttlcache.ttl it) 0); [reflexivity|].
      destruct Hlive as [Hl|[Hf Hs]]; [lia|].
      apply Z.ltb_ge. inversion Hf as [|? ? Hd Hds]; subst.
      assert (0 <= Zsum ds).
      { clear -Hds. induction Hds; simpl; lia. }
      simpl in Hs. lia. }
    rewrite (getCKV_hit g (idle d w) it); [|simpl; rewrite Hc; exact Hh | exact He].
    simpl. rewrite IH; simpl.
    + rewrite <- app_assoc, Z.add_assoc. reflexivity.
    + exact Hc.
    + destruct Hlive as [Hl|[Hf Hs]]; [left; exact Hl|right].
      inversion Hf; subst. split; [assumption|]. simpl in Hs. lia.
Qed.

(** What a successful construction leaves in the world: the version
    resolved with the background context, stored in a fresh cache. *)
Lemma newGCPClient_Ok ctx ref (w0 : World S) g w1 :
  newGCPClient kms crypto ctx ref w0 = (Ok g, w1) ->
  exists ckv,
    holds (kvCache w1)
      {| ttlcache.data := ckv; ttlcache.ttl := loader_ttl g;
         ttlcache.expireAt := if pinned g then 0 else now w1 + 300 * Second |} /\
    now w1 = now w0.
Proof.
  unfold newGCPClient. intros H.
  destruct (ValidReference ref); [discriminate|].
  destruct (p_err (parseReference ref)); [discriminate|].
  destruct (NewKeyManagementClient kms _); [discriminate|].
  rewrite getCKV_unfold in H. cbn [kvCache now set_cache] in H.
  change (ttlcache.getItem (ttlcache.SkipTTLExtensionOnHit true ttlcache.NewCache)
            (now w0) CacheKey)
    with (@None ttlcache.item, ttlcache.SkipTTLExtensionOnHit true ttlcache.NewCache) in H.
  cbv iota beta in H.
  match type of H with
  | context [keyVersionName kms crypto ?g0 ctxBackground ?w] =>
      destruct (keyVersionName kms crypto g0 ctxBackground w) as [r w'] eqn:E
  end.
  apply keyVersionName_frame in E as (Hc & Hn & _). simpl in Hc, Hn.
  destruct r as [ckv|e|m]; [|discriminate|discriminate].
  inversion H; subst g w1; clear H. exists ckv. simpl. rewrite Hc, Hn.
  split; [|reflexivity]. apply SetWithTTL_fresh.
Qed.

End Cache.

Lemma getItem_None c t k c1 :
  ttlcache.getItem c t k = (None, c1) -> c1 = c.
Proof.
  unfold ttlcache.getItem. destruct (ttlcache.items c !! k) as [it|]; [|congruence].
  destruct (ttlcache.expired t it); [congruence | discriminate].
Qed.

(** The entry the cache stores for a value loaded at time [t], when the
    read before the load found nothing to return. *)
Lemma SetWithTTL_miss c t d g :
  cache_flags c ->
  fst (ttlcache.getItem c t CacheKey) = None ->
  holds (ttlcache.SetWithTTL c t CacheKey d (loader_ttl g)) (loaded_entry g d t).
Proof.
  intros [Ht Hs] Hm. unfold ttlcache.SetWithTTL.
  destruct (ttlcache.getItem c t CacheKey) as [o c1] eqn:E. simpl in Hm. subst o.
  apply getItem_None in E. subst c1.
  unfold holds, loaded_entry, loader_ttl.
  destruct (pinned g); cbn; rewrite ?Ht; cbn; rewrite lookup_insert_eq; auto.
Qed.

Section CacheRuns.

Context {S R : Type}.
Variable kms : KMS S.
Variable crypto : Crypto R.

(** A read that finds nothing to return and whose resolution succeeds
    stores the version with the loader's time-to-live, counted from the
    instant of the load. *)
Lemma getCKV_load g (w : World S) ckv w1 :
  cache_flags (kvCache w) -> misses w ->
  getCKV kms crypto g w = (Ok ckv, w1) ->
  now w1 = now w /\ holds (kvCache w1) (loaded_entry g ckv (now w)).
Proof.
  intros Hf Hm. rewrite getCKV_unfold.
  assert (Hm' := Hm). unfold misses in Hm'.
  destruct (ttlcache.getItem (kvCache w) (now w) CacheKey) as [o c'] eqn:EI.
  simpl in Hm'. subst o.
  destruct (keyVersionName kms crypto g ctxBackground _) as [r2 w2] eqn:EK.
  apply keyVersionName_frame in EK as (Hc & Hn & _). simpl in Hc, Hn.
  destruct r2 as [d|e|m]; intros H; inversion H; subst. simpl.
  rewrite Hc, Hn. split; [reflexivity|].
  apply SetWithTTL_miss; [exact Hf | exact Hm].
Qed.

Lemma getCKV_inv g (w : World S) r w1 :
  cache_inv g w -> getCKV kms crypto g w = (r, w1) -> cache_inv g w1.
Proof.
  intros [Hf Hi] H.
  destruct (ttlcache.getItem (kvCache w) (now w) CacheKey) as [[it|] c'] eqn:EI.
  - assert (Hc : c' = kvCache w).
    { destruct (ttlcache.items (kvCache w) !! CacheKey) as [it0|] eqn:E0.
      - destruct (ttlcache.expired (now w) it0) eqn:Ex.
        + rewrite (getItem_expired _ _ _ E0 Ex) in EI. discriminate EI.
        + rewrite (getItem_hit (kvCache w) it0 (now w) (conj E0 Hf) Ex) in EI.
          congruence.
      - unfold ttlcache.getItem in EI. rewrite E0 in EI. discriminate EI. }
    rewrite getCKV_unfold, EI in H. inversion H; subst. split; [exact Hf | exact Hi].
  - destruct r as [ckv|e|m].
    + assert (Hm : misses w) by (unfold misses; rewrite EI; reflexivity).
      destruct (getCKV_load g w ckv w1 Hf Hm H) as [Hn (Hl & Hfl)].
      split; [exact Hfl|]. intros it Hit. rewrite Hl in Hit. inversion Hit; subst it.
      exists (now w). split; [lia | reflexivity].
    + rewrite getCKV_unfold, EI in H.
      destruct (keyVersionName kms crypto g ctxBackground _) as [r2 w2] eqn:EK.
      apply keyVersionName_frame in EK as (Hc & Hn & _). simpl in Hc, Hn.
      destruct r2; inversion H; subst.
      split; [rewrite Hc; exact Hf|]. rewrite Hc, Hn. exact Hi.
    + rewrite getCKV_unfold, EI in H.
      destruct (keyVersionName kms crypto g ctxBackground _) as [r2 w2] eqn:EK.
      apply keyVersionName_frame in EK as (Hc & Hn & _). simpl in Hc, Hn.
      destruct r2; inversion H; subst.
      split; [rewrite Hc; exact Hf|]. rewrite Hc, Hn. exact Hi.
Qed.

Lemma reads_inv g ds :
  Forall (fun d => 0 <= d) ds ->
  forall w : World S, cache_inv g w -> cache_inv g (snd (reads kms crypto g ds w)).
Proof.
  induction 1 as [|d ds Hd _ IH]; intros w Hi; [exact Hi|]. simpl.
  destruct (getCKV kms crypto g (idle d w)) as [r w1] eqn:E.
  assert (Hi1 : cache_inv g w1).
  { apply (getCKV_inv g (idle d w) r w1); [|exact E].
    destruct Hi as [Hf Hi]. split; [exact Hf|]. intros it Hit.
    destruct (Hi it Hit) as (t0 & Ht0 & Heq). exists t0. simpl. split; [lia | exact Heq]. }
  specialize (IH w1 Hi1).
  destruct (reads kms crypto g ds w1) as [rs w2]. exact IH.
Qed.

End CacheRuns.

(** C6.  Every entry the cache holds, whether loaded by the constructor, by
    a read that followed an expiry or by a read that followed an
    invalidation, is stored with the time-to-live of the client's mode,
    counted from the instant of its load.  With a pinned reference every
    sequence of reads, whatever the idle time between them, returns the
    version the entry holds, resolves nothing and leaves the cache as it was.
    With an unpinned reference the entry expires five minutes after it was
    loaded: reads up to then return the cached version without resolving and
    leave the entry, hence its expiry instant, unchanged, and the first read
    after that instant finds nothing to return and runs the loader again,
    however recent the last read was. *)
Theorem cache_expiry_policy :
  forall {S R : Type} (kms : KMS S) (crypto : Crypto R) g,
    (forall ctx ref (w0 w1 : World S),
       newGCPClient kms crypto ctx ref w0 = (Ok g, w1) ->
       cache_inv g w1 /\
       exists ckv, holds (kvCache w1) (loaded_entry g ckv (now w1))) /\
    (forall (w : World S) ckv w1,
       cache_flags (kvCache w) -> misses w ->
       getCKV kms crypto g w = (Ok ckv, w1) ->
       now w1 = now w /\ holds (kvCache w1) (loaded_entry g ckv (now w))) /\
    (forall (w : World S) ckv t0,
       holds (kvCache w) (loaded_entry g ckv t0) ->
       cached w = Some ckv /\
       (pinned g = true ->
        forall ds,
          reads kms crypto g ds w
          = (repeat (Ok ckv) (length ds),
             mkWorld (svc w) (kvCache w) (now w + Zsum ds)
               (trace w ++ repeat (EvCacheGet CacheKey) (length ds)))) /\
       (pinned g = false ->
        cached_expiry w = Some (t0 + 300 * Second) /\
        (forall ds,
           Forall (fun d => 0 <= d) ds -> now w + Zsum ds <= t0 + 300 * Second ->
           reads kms crypto g ds w
           = (repeat (Ok ckv) (length ds),
              mkWorld (svc w) (kvCache w) (now w + Zsum ds)
                (trace w ++ repeat (EvCacheGet CacheKey) (length ds)))) /\
        (forall ds d,
           Forall (fun d => 0 <= d) ds -> now w + Zsum ds <= t0 + 300 * Second ->
           t0 + 300 * Second < now w + Zsum ds + d ->
           misses (idle d (snd (reads kms crypto g ds w))) /\
           exists n ext,
             trace (snd (getCKV kms crypto g (idle d (snd (reads kms crypto g ds w)))))
             = (trace w ++ repeat (EvCacheGet CacheKey) (length ds))
               ++ EvCacheGet CacheKey :: EvLoader CacheKey
                  :: EvGetCryptoKey ctxBackground n :: ext))) /\
    (forall (w : World S),
       (cache_flags (kvCache w) ->
        cache_flags (kvCache (cache_Remove CacheKey w)) /\
        misses (cache_Remove CacheKey w)) /\
       (cache_inv g w -> cache_inv g (cache_Remove CacheKey w))) /\
    (forall ds (w : World S),
       Forall (fun d => 0 <= d) ds ->
       cache_inv g w -> cache_inv g (snd (reads kms crypto g ds w))).
Proof.
  intros S R kms crypto g. split; [|split; [|split; [|split]]].
  - intros ctx ref w0 w1 Hnew.
    destruct (newGCPClient_Ok kms crypto ctx ref w0 g w1 Hnew) as (ckv & Hh & _).
    split; [|exists ckv; exact Hh].
    destruct Hh as (Hi & Hfl). split; [exact Hfl|].
    intros it Hit. rewrite Hi in Hit. inversion Hit; subst it.
    exists (now w1). split; [lia | reflexivity].
  - intros w ckv w1 Hf Hm H. exact (getCKV_load kms crypto g w ckv w1 Hf Hm H).
  - intros w ckv t0 Hh. split; [|split].
    + unfold cached. destruct Hh as (-> & _). reflexivity.
    + intros Hp ds.
      rewrite (reads_hit kms crypto g (kvCache w) _ Hh ds w eq_refl); [reflexivity|].
      left. unfold loaded_entry, loader_ttl. rewrite Hp. simpl. lia.
    + intros Hp.
      assert (Hread : forall ds,
                Forall (fun d => 0 <= d) ds -> now w + Zsum ds <= t0 + 300 * Second ->
                reads kms crypto g ds w
                = (repeat (Ok ckv) (length ds),
                   mkWorld (svc w) (kvCache w) (now w + Zsum ds)
                     (trace w ++ repeat (EvCacheGet CacheKey) (length ds)))).
      { intros ds Hf Hs.
        rewrite (reads_hit kms crypto g (kvCache w) _ Hh ds w eq_refl); [reflexivity|].
        right. split; [exact Hf|]. unfold loaded_entry. rewrite Hp. simpl. exact Hs. }
      split; [|split].
      * unfold cached_expiry. destruct Hh as (-> & _). unfold loaded_entry.
        rewrite Hp. reflexivity.
      * exact Hread.
      * intros ds d Hf Hs Hd. rewrite (Hread ds Hf Hs). cbn [snd].
        assert (Hm : misses (idle d (mkWorld (svc w) (kvCache w) (now w + Zsum ds)
                                       (trace w ++ repeat (EvCacheGet CacheKey) (length ds))))).
        { unfold misses. simpl. destruct Hh as (Hi & _).
          rewrite (getItem_expired _ _ _ Hi); [reflexivity|].
          unfold ttlcache.expired, loaded_entry, loader_ttl. rewrite Hp. simpl.
          apply Z.ltb_lt. lia. }
        split; [exact Hm|].
        destruct (getCKV kms crypto g _) as [r w'] eqn:E.
        apply getCKV_frame in E as [_ [(it & c' & Hg & _) | (c' & n & ext & _ & Ht & _)]].
        -- exfalso. unfold misses in Hm. rewrite Hg in Hm. discriminate Hm.
        -- exists n, ext. exact Ht.
  - intros w. split.
    + intros Hf. split; [exact Hf|].
      unfold misses, ttlcache.getItem. simpl. rewrite lookup_delete_eq. reflexivity.
    + intros [Hf Hi]. split; [exact Hf|]. intros it Hit. simpl in Hit.
      rewrite lookup_delete_eq in Hit. discriminate Hit.
  - intros ds w Hf Hi. exact (reads_inv kms crypto g ds Hf w Hi).
Qed.

Lemma cache_expiry_policy_witness :
  newGCPClient Mock.kms Mock.crypto None Mock.unpinnedRef
    (Mock.world (Mock.service EC_SIGN_P384_SHA384 "EC" Mock.goodResp))
  = (Ok (Mock.client ""),
     Mock.primed Mock.unpinnedRef (Mock.service EC_SIGN_P384_SHA384 "EC" Mock.goodResp)) /\
  pinned (Mock.client "") = false /\
  cached_expiry
    (Mock.primed Mock.unpinnedRef (Mock.service EC_SIGN_P384_SHA384 "EC" Mock.goodResp))
  = Some (0 + 300 * Second) /\
  misses
    (idle (301 * Second)
       (Mock.primed Mock.unpinnedRef
          (Mock.service EC_SIGN_P384_SHA384 "EC" Mock.goodResp))) /\
  cached_expiry
    (snd (getCKV Mock.kms Mock.crypto (Mock.client "")
            (idle (301 * Second)
               (Mock.primed Mock.unpinnedRef
                  (Mock.service EC_SIGN_P384_SHA384 "EC" Mock.goodResp)))))
  = Some (301 * Second + 300 * Second) /\
  fst (reads Mock.kms Mock.crypto (Mock.client "") [100 * Second; 200 * Second]
         (snd (getCKV Mock.kms Mock.crypto (Mock.client "")
                 (idle (301 * Second)
                    (Mock.primed Mock.unpinnedRef
                       (Mock.service EC_SIGN_P384_SHA384 "EC" Mock.goodResp))))))
  = repeat
      (Ok {| CryptoKeyVersion := Mock.enabled "1" EC_SIGN_P384_SHA384;
             ckv_SignerVerifier :=
               ECDSASignerVerifier
                 {| ecdsa_PublicKey_of := Mock.ecKey; ecdsa_D := None |} SHA384;
             HashFunc := SHA384 |}) 2 /\
  pinned (Mock.client "1") = true /\
  fst (reads Mock.kms Mock.crypto (Mock.client "1") [1000000 * Second; 5]
         (Mock.primed Mock.pinnedRef
            (Mock.service EC_SIGN_P384_SHA384 "EC" Mock.goodResp)))
  = repeat
      (Ok {| CryptoKeyVersion := Mock.enabled "1" EC_SIGN_P384_SHA384;
             ckv_SignerVerifier :=
               ECDSASignerVerifier
                 {| ecdsa_PublicKey_of := Mock.ecKey; ecdsa_D := None |} SHA384;
             HashFunc := SHA384 |}) 2.
Proof.
  assert (Hnew : newGCPClient Mock.kms Mock.crypto None Mock.unpinnedRef
                   (Mock.world (Mock.service EC_SIGN_P384_SHA384 "EC" Mock.goodResp))
                 = (Ok (Mock.client ""),
                    Mock.primed Mock.unpinnedRef
                      (Mock.service EC_SIGN_P384_SHA384 "EC" Mock.goodResp)))
    by (vm_compute; reflexivity).
  assert (Hnew' : newGCPClient Mock.kms Mock.crypto None Mock.pinnedRef
                    (Mock.world (Mock.service EC_SIGN_P384_SHA384 "EC" Mock.goodResp))
                  = (Ok (Mock.client "1"),
                     Mock.primed Mock.pinnedRef
                       (Mock.service EC_SIGN_P384_SHA384 "EC" Mock.goodResp)))
    by (vm_compute; reflexivity).
  assert (Hget : getCKV Mock.kms Mock.crypto (Mock.client "")
                   (idle (301 * Second)
                      (Mock.primed Mock.unpinnedRef
                         (Mock.service EC_SIGN_P384_SHA384 "EC" Mock.goodResp)))
                 = (Ok {| CryptoKeyVersion := Mock.enabled "1" EC_SIGN_P384_SHA384;
                          ckv_SignerVerifier :=
                            ECDSASignerVerifier
                              {| ecdsa_PublicKey_of := Mock.ecKey; ecdsa_D := None |}
                              SHA384;
                          HashFunc := SHA384 |},
                    snd (getCKV Mock.kms Mock.crypto (Mock.client "")
                           (idle (301 * Second)
                              (Mock.primed Mock.unpinnedRef
                                 (Mock.service EC_SIGN_P384_SHA384 "EC"
                                    Mock.goodResp))))))
    by (vm_compute; reflexivity).
  assert (Hf : Forall (fun d => 0 <= d) [100 * Second; 200 * Second])
    by (repeat constructor; vm_compute; discriminate).
  destruct (cache_expiry_policy Mock.kms Mock.crypto (Mock.client ""))
    as (Hc & Hl & Hlife & _).
  destruct (Hc None Mock.unpinnedRef _ _ Hnew) as ([Hfl _] & ckv & Hh).
  destruct (Hlife _ _ _ Hh) as (_ & _ & Hu).
  destruct (Hu eq_refl) as (He & _ & Hx).
  assert (Hm : misses
                 (idle (301 * Second)
                    (Mock.primed Mock.unpinnedRef
                       (Mock.service EC_SIGN_P384_SHA384 "EC" Mock.goodResp)))).
  { apply (Hx [] (301 * Second)).
    - constructor.
    - vm_compute; discriminate.
    - vm_compute; reflexivity. }
  destruct (Hl (idle (301 * Second)
                  (Mock.primed Mock.unpinnedRef
                     (Mock.service EC_SIGN_P384_SHA384 "EC" Mock.goodResp)))
              _ _ Hfl Hm Hget) as (_ & Hh2).
  destruct (Hlife _ _ _ Hh2) as (_ & _ & Hu2).
  destruct (Hu2 eq_refl) as (He2 & Hr2 & _).
  split; [exact Hnew|]. split; [reflexivity|]. split; [exact He|].
  split; [exact Hm|]. split; [exact He2|]. split.
  { rewrite (Hr2 _ Hf); [reflexivity|]. vm_compute; discriminate. }
  split; [reflexivity|].
  destruct (cache_expiry_policy Mock.kms Mock.crypto (Mock.client "1"))
    as (Hc1 & _ & Hlife1 & _).
  destruct (Hc1 None Mock.pinnedRef _ _ Hnew') as (_ & ckv1 & Hh1).
  destruct (Hlife1 _ _ _ Hh1) as (Hcd & Hp & _).
  rewrite (Hp eq_refl [1000000 * Second; 5]). simpl.
  vm_compute in Hcd. inversion Hcd. reflexivity.
Defined.

(* ===================================================================== *)
(** ** Verification and the rotation retry *)
(* ===================================================================== *)

(** C3 (as amended).  For every [verify] call whose first verification
    attempt fails.  With a pinned reference [verify] returns that failure,
    wrapped as [failed to verify for fixed version], from the world the first
    attempt left: the cache is not invalidated, nothing is resolved and no
    second attempt is made.  With an unpinned reference [verify] removes the
    cached entry and reads the cache again, which runs the loader once, on
    the emptied cache and with remote calls only; when that resolution
    succeeds, [verify] makes one second attempt, with the freshly resolved
    verifier, and returns its result; when it fails, [verify] returns the
    resolution error, wrapped as a transient error, without a second
    attempt. *)
Theorem verify_retry_policy :
  forall {S R : Type} (kms : KMS S) (crypto : Crypto R) g sig message opts
         (w : World S) crv w1 e sig' message',
    getCKV kms crypto g w = (Ok crv, w1) ->
    VerifySignature crypto (ckv_SignerVerifier crv) sig message opts
    = (Some e, (sig', message')) ->
    (pinned g = true ->
     verify kms crypto g sig message opts w
     = (Err (errors_Wrap e "failed to verify for fixed version"), (sig', message'),
        log (EvVerifySignature (ckv_SignerVerifier crv)) w1)) /\
    (pinned g = false ->
     let w3 :=
       log (EvLoader CacheKey)
         (log (EvCacheGet CacheKey)
            (cache_Remove CacheKey
               (log (EvVerifySignature (ckv_SignerVerifier crv)) w1))) in
     ttlcache.items (kvCache w3) !! CacheKey = None /\
     (exists ext,
        trace (snd (keyVersionName kms crypto g ctxBackground w3))
        = trace w1
          ++ [EvVerifySignature (ckv_SignerVerifier crv); EvCacheRemove CacheKey;
              EvCacheGet CacheKey; EvLoader CacheKey] ++ ext /\
        Forall (resolver_call ctxBackground) ext) /\
     match keyVersionName kms crypto g ctxBackground w3 with
     | (Ok crv', w4) =>
         verify kms crypto g sig message opts w
         = (match fst (VerifySignature crypto (ckv_SignerVerifier crv') sig' message' opts)
            with
            | None => Ok tt
            | Some e2 => Err e2
            end,
            snd (VerifySignature crypto (ckv_SignerVerifier crv') sig' message' opts),
            log (EvVerifySignature (ckv_SignerVerifier crv'))
              (set_cache
                 (ttlcache.SetWithTTL (kvCache w4) (now w4) CacheKey crv' (loader_ttl g))
                 w4))
     | (Err e', w4) =>
         verify kms crypto g sig message opts w
         = (Err (errors_Wrap e' "transient error getting info from KMS"),
            (sig', message'), w4)
     | (Panic msg, w4) =>
         verify kms crypto g sig message opts w = (Panic msg, (sig', message'), w4)
     end).
Proof.
  intros S R kms crypto g sig message opts w crv w1 e sig' message' Hc Hv.
  unfold pinned. split; intros Hp.
  - apply negb_true_iff in Hp.
    unfold verify, wrap, verifySignature. rewrite Hc, Hv, Hp. reflexivity.
  - apply negb_false_iff in Hp.
    set (w3 := log (EvLoader CacheKey) _).
    assert (Hnone : ttlcache.items (kvCache w3) !! CacheKey = None).
    { subst w3. simpl. apply lookup_delete_eq. }
    split; [exact Hnone|]. split.
    + destruct (keyVersionName kms crypto g ctxBackground w3) as [r w4] eqn:E.
      apply keyVersionName_frame in E as (_ & _ & n & ext & Ht & Hf).
      exists (EvGetCryptoKey ctxBackground n :: ext). split.
      * simpl. rewrite Ht. subst w3. simpl. rewrite <- !app_assoc. reflexivity.
      * constructor; [reflexivity | exact Hf].
    + unfold verify, wrap, verifySignature. rewrite Hc, Hv, Hp.
      rewrite getCKV_unfold.
      assert (Hg : ttlcache.getItem
                     (kvCache (cache_Remove CacheKey
                                 (log (EvVerifySignature (ckv_SignerVerifier crv)) w1)))
                     (now (cache_Remove CacheKey
                             (log (EvVerifySignature (ckv_SignerVerifier crv)) w1)))
                     CacheKey
                   = (None,
                      kvCache (cache_Remove CacheKey
                                 (log (EvVerifySignature (ckv_SignerVerifier crv)) w1)))).
      { unfold ttlcache.getItem. simpl. rewrite lookup_delete_eq. reflexivity. }
      rewrite Hg. fold w3.
      destruct (keyVersionName kms crypto g ctxBackground w3) as [[crv'|e'|msg] w4];
        try reflexivity.
      destruct (VerifySignature crypto (ckv_SignerVerifier crv') sig' message' opts)
        as [[e2|] rs]; reflexivity.
Qed.

Lemma verify_retry_policy_witness :
  (pinned (Mock.client "1") = true /\
   fst (fst (verify Mock.kms Mock.crypto (Mock.client "1") [x01] [x02] []
               (Mock.primed Mock.pinnedRef
                  (Mock.service EC_SIGN_P384_SHA384 "EC" Mock.goodResp))))
   = Err (errors_Wrap (errors_New "invalid signature")
            "failed to verify for fixed version")) /\
  (pinned (Mock.client "") = false /\
   fst (fst (verify Mock.kms Mock.crypto (Mock.client "") [x01] [x02] []
               (Mock.primed Mock.unpinnedRef
                  (Mock.service EC_SIGN_P384_SHA384 "EC" Mock.goodResp))))
   = Err (errors_New "invalid signature")).
Proof.
  pose (st := Mock.service EC_SIGN_P384_SHA384 "EC" Mock.goodResp).
  pose (sv := ECDSASignerVerifier
                {| ecdsa_PublicKey_of := Mock.ecKey; ecdsa_D := None |} SHA384).
  pose (ckv := {| CryptoKeyVersion := Mock.enabled "1" EC_SIGN_P384_SHA384;
                  ckv_SignerVerifier := sv; HashFunc := SHA384 |}).
  assert (Hv : VerifySignature Mock.crypto sv [x01] [x02] []
               = (Some (errors_New "invalid signature"), ([], [])))
    by reflexivity.
  split.
  - split; [reflexivity|].
    pose (w := Mock.primed Mock.pinnedRef st).
    assert (Hc : getCKV Mock.kms Mock.crypto (Mock.client "1") w
                 = (Ok ckv, snd (getCKV Mock.kms Mock.crypto (Mock.client "1") w)))
      by (vm_compute; reflexivity).
    destruct (verify_retry_policy Mock.kms Mock.crypto (Mock.client "1") [x01] [x02] []
                w ckv _ _ [] [] Hc Hv) as [H _].
    change (fst (fst (verify Mock.kms Mock.crypto (Mock.client "1") [x01] [x02] [] w))
            = Err (errors_Wrap (errors_New "invalid signature")
                     "failed to verify for fixed version")).
    rewrite (H eq_refl). reflexivity.
  - split; [reflexivity|].
    pose (w := Mock.primed Mock.unpinnedRef st).
    assert (Hc : getCKV Mock.kms Mock.crypto (Mock.client "") w
                 = (Ok ckv, snd (getCKV Mock.kms Mock.crypto (Mock.client "") w)))
      by (vm_compute; reflexivity).
    destruct (verify_retry_policy Mock.kms Mock.crypto (Mock.client "") [x01] [x02] []
                w ckv _ _ [] [] Hc Hv) as [_ H].
    specialize (H eq_refl). cbv zeta in H. destruct H as (_ & _ & H).
    match type of H with
    | match ?k with _ => _ end =>
        assert (Hk : k = (Ok ckv, snd k)) by (vm_compute; reflexivity);
        rewrite Hk in H
    end.
    change (fst (fst (verify Mock.kms Mock.crypto (Mock.client "") [x01] [x02] [] w))
            = Err (errors_New "invalid signature")).
    rewrite H. reflexivity.
Defined.

(** C3, as stated, fails: with an unpinned reference, when the resolution
    after the invalidation fails, [verify] returns that resolution error and
    makes no second verification attempt. *)
Lemma verify_no_second_attempt_when_resolution_fails :
  pinned (Mock.client "") = false /\
  fst (fst (verify Mock.kms Mock.crypto (Mock.client "") [x01] [x02] []
              (Mock.remote_change
                 (Mock.with_key ASYMMETRIC_SIGN []
                    (Mock.service EC_SIGN_P384_SHA384 "EC" Mock.goodResp))
                 (Mock.primed Mock.unpinnedRef
                    (Mock.service EC_SIGN_P384_SHA384 "EC" Mock.goodResp)))))
  = Err (errors_Wrap
           (errors_Wrap Mock.Done "unable to find an enabled key version in GCP KMS")
           "transient error getting info from KMS") /\
  List.filter is_verify
    (trace (snd (verify Mock.kms Mock.crypto (Mock.client "") [x01] [x02] []
                   (Mock.remote_change
                      (Mock.with_key ASYMMETRIC_SIGN []
                         (Mock.service EC_SIGN_P384_SHA384 "EC" Mock.goodResp))
                      (Mock.primed Mock.unpinnedRef
                         (Mock.service EC_SIGN_P384_SHA384 "EC" Mock.goodResp))))))
  = [EvVerifySignature
       (ECDSASignerVerifier
          {| ecdsa_PublicKey_of := Mock.ecKey; ecdsa_D := None |} SHA384)].
Proof. repeat split; vm_compute; reflexivity. Qed.

(* ===================================================================== *)
(** ** The context of the remote calls *)
(* ===================================================================== *)

Section Contexts.

Context {S R : Type}.
Variable kms : KMS S.
Variable crypto : Crypto R.





End Contexts.



(* ===================================================================== *)
(** * Further properties of the client *)
(* ===================================================================== *)

(** ** References and construction *)

(** X1.  A reference that [parseReference] accepts is rebuilt from the five
    identifiers it returns: project, location, key ring and key are
    non-empty and free of slashes, the version is empty or such a token, and
    printing them in the reference grammar gives the string back. *)
Theorem parseReference_round_trip :
  forall s,
    p_err (parseReference s) = None ->
    token (p_projectID (parseReference s)) /\
    token (p_locationID (parseReference s)) /\
    token (p_keyRing (parseReference s)) /\
    token (p_keyName (parseReference s)) /\
    (p_version (parseReference s) = "" \/ token (p_version (parseReference s))) /\
    s = reference_text (p_projectID (parseReference s)) (p_locationID (parseReference s))
          (p_keyRing (parseReference s)) (p_keyName (parseReference s))
          (if String.eqb (p_version (parseReference s)) "" then None
           else Some (p_version (parseReference s))).
Proof.
  intros s. rewrite parseReference_spec.
  destruct (parse_direct s) as [[[[[P L] R] K] V]|] eqn:E; [|discriminate].
  intros _. apply parse_direct_sound in E as (HP & HL & HR & HK & HV & Hs).
  simpl. refine (conj HP (conj HL (conj HR (conj HK _)))).
  destruct V as [v|]; simpl.
  - split; [right; exact HV|].
    destruct HV as [Hne _]. apply String.eqb_neq in Hne. rewrite Hne. exact Hs.
  - split; [left; reflexivity | exact Hs].
Qed.

Lemma parseReference_round_trip_witness :
  p_err (parseReference Mock.pinnedRef) = None /\
  Mock.pinnedRef
  = reference_text (p_projectID (parseReference Mock.pinnedRef))
      (p_locationID (parseReference Mock.pinnedRef))
      (p_keyRing (parseReference Mock.pinnedRef))
      (p_keyName (parseReference Mock.pinnedRef))
      (if String.eqb (p_version (parseReference Mock.pinnedRef)) "" then None
       else Some (p_version (parseReference Mock.pinnedRef))).
Proof.
  assert (H : p_err (parseReference Mock.pinnedRef) = None) by (vm_compute; reflexivity).
  split; [exact H|].
  exact (proj2 (proj2 (proj2 (proj2 (proj2
           (parseReference_round_trip Mock.pinnedRef H)))))).
Defined.

Lemma parseReference_err_spec s :
  p_err (parseReference s)
  = match ValidReference s with
    | None => None
    | Some _ => Some (errors_Errorf_q "invalid gcpkms format %q" s)
    end.
Proof.
  rewrite parseReference_spec, ValidReference_spec.
  destruct (parse_direct s) as [[[[[P L] R] K] V]|]; reflexivity.
Qed.

(** X2.  [parseReference] fails exactly on the strings [ValidReference]
    refuses, so the constructor, which validates first, never returns the
    error of [parseReference]. *)
Theorem validation_covers_parsing :
  (forall s,
     p_err (parseReference s)
     = match ValidReference s with
       | None => None
       | Some _ => Some (errors_Errorf_q "invalid gcpkms format %q" s)
       end) /\
  (forall {S R : Type} (kms : KMS S) (crypto : Crypto R) ctx ref (w : World S) f a,
     fst (newGCPClient kms crypto ctx ref w) <> Err (errors_Errorf_q f a)).
Proof.
  split; [exact parseReference_err_spec|].
  intros S R kms crypto ctx ref w f a. unfold newGCPClient.
  pose proof (parseReference_err_spec ref) as Href. rewrite ValidReference_spec in *.
  destruct (parse_direct ref).
  - rewrite Href.
    destruct (NewKeyManagementClient kms _); [discriminate|].
    destruct (getCKV kms crypto _ _) as [[c|e|m] w1]; discriminate.
  - discriminate.
Qed.

(** X3.  Construction from a string outside the reference grammar fails
    with [ErrKMSReference] and leaves the world as it was: no client is
    connected, no remote call is made and the cache is not touched. *)
Theorem newGCPClient_malformed_reference :
  forall {S R : Type} (kms : KMS S) (crypto : Crypto R) ctx ref (w : World S),
    ~ matches_grammar ref ->
    newGCPClient kms crypto ctx ref w = (Err ErrKMSReference, w).
Proof.
  intros S R kms crypto ctx ref w H. unfold newGCPClient.
  rewrite ValidReference_spec.
  destruct (parse_direct ref) eqn:E; [|reflexivity].
  exfalso. apply H. apply matches_grammar_iff. congruence.
Qed.

Lemma newGCPClient_malformed_reference_witness :
  ~ matches_grammar "gcpkms://projects/p/locations//keyRings/r/cryptoKeys/k" /\
  newGCPClient Mock.kms Mock.crypto None
    "gcpkms://projects/p/locations//keyRings/r/cryptoKeys/k"
    (Mock.world (Mock.service EC_SIGN_P384_SHA384 "EC" Mock.goodResp))
  = (Err ErrKMSReference,
     Mock.world (Mock.service EC_SIGN_P384_SHA384 "EC" Mock.goodResp)).
Proof.
  assert (N : ~ matches_grammar "gcpkms://projects/p/locations//keyRings/r/cryptoKeys/k").
  { intros H. apply matches_grammar_iff in H. apply H. vm_compute. reflexivity. }
  split; [exact N|].
  exact (newGCPClient_malformed_reference Mock.kms Mock.crypto None _ _ N).
Defined.

(** X4.  A client constructed from a reference of the grammar carries the
    identifiers of that reference, the reference itself and the context it
    was given (the background context for nil); it is pinned exactly when the
    reference names a version. *)
Theorem newGCPClient_fields :
  forall {S R : Type} (kms : KMS S) (crypto : Crypto R) ctx P L Rg K V
         (w : World S) g w1,
    token P -> token L -> token Rg -> token K ->
    match V with Some v => token v | None => True end ->
    newGCPClient kms crypto ctx (reference_text P L Rg K V) w = (Ok g, w1) ->
    g = {| defaultCtx := match ctx with Some c => c | None => ctxBackground end;
           refString := reference_text P L Rg K V;
           projectID := P; locationID := L; keyRing := Rg; keyName := K;
           version := default "" V |} /\
    pinned g = match V with Some _ => true | None => false end.
Proof.
  intros S R kms crypto ctx P L Rg K V w g w1 HP HL HR HK HV.
  unfold newGCPClient.
  rewrite ValidReference_spec, parseReference_spec, parse_direct_complete by assumption.
  cbn [p_err p_projectID p_locationID p_keyRing p_keyName p_version].
  destruct (NewKeyManagementClient kms _); [discriminate|].
  destruct (getCKV kms crypto _ _) as [[c|e|m] w'] eqn:E; try discriminate.
  intros H. inversion H; subst g w1. split; [reflexivity|].
  unfold pinned. cbn [version]. destruct V as [v|]; simpl; [|reflexivity].
  destruct HV as [Hne _]. apply String.eqb_neq in Hne. rewrite Hne. reflexivity.
Qed.

Lemma newGCPClient_fields_witness :
  reference_text "p" "l" "r" "k" (Some "1") = Mock.pinnedRef /\
  fst (newGCPClient Mock.kms Mock.crypto (Some (ctxCaller 3)) Mock.pinnedRef
         (Mock.world (Mock.service EC_SIGN_P384_SHA384 "EC" Mock.goodResp)))
  = Ok {| defaultCtx := ctxCaller 3; refString := Mock.pinnedRef;
          projectID := "p"; locationID := "l"; keyRing := "r"; keyName := "k";
          version := "1" |}.
Proof.
  split; [reflexivity|].
  assert (T : forall t, t <> "" -> slash_free t = true -> token t)
    by (intros; split; assumption).
  assert (Tp : token "p") by (apply T; [discriminate | reflexivity]).
  assert (Tl : token "l") by (apply T; [discriminate | reflexivity]).
  assert (Tr : token "r") by (apply T; [discriminate | reflexivity]).
  assert (Tk : token "k") by (apply T; [discriminate | reflexivity]).
  assert (Tv : token "1") by (apply T; [discriminate | reflexivity]).
  destruct (newGCPClient Mock.kms Mock.crypto (Some (ctxCaller 3)) Mock.pinnedRef
              (Mock.world (Mock.service EC_SIGN_P384_SHA384 "EC" Mock.goodResp)))
    as [r w1] eqn:E.
  assert (Hr : exists g, r = Ok g).
  { revert E. vm_compute. intros E. inversion E. eexists. reflexivity. }
  destruct Hr as [g ->].
  destruct (newGCPClient_fields Mock.kms Mock.crypto (Some (ctxCaller 3))
              "p" "l" "r" "k" (Some "1") _ g w1 Tp Tl Tr Tk Tv E) as [Hg _].
  simpl. f_equal. exact Hg.
Defined.

(** X5.  After a reference has been validated, construction is decided by
    two steps and fails in two ways only.  When the remote client cannot be
    created, the error is wrapped as [new gcp kms client] and the world is
    left as it was.  Otherwise the cache is primed by one resolution, run
    with the background context whatever context the constructor was given:
    when it succeeds the client is returned with the resolved version stored
    in the cache, and when it fails its error is returned wrapped as
    [initializing key version from GCP KMS].  An error is returned in no
    other case. *)
Theorem newGCPClient_failures :
  forall {S R : Type} (kms : KMS S) (crypto : Crypto R) ctx ref (w : World S),
    ValidReference ref = None ->
    newGCPClient kms crypto ctx ref w
    = match NewKeyManagementClient kms
              (match ctx with Some c => c | None => ctxBackground end) with
      | Some e => (Err (errors_Wrap e "new gcp kms client"), w)
      | None =>
          match keyVersionName kms crypto (clientOf ctx ref) ctxBackground (priming w) with
          | (Ok ckv, w') =>
              (Ok (clientOf ctx ref),
               set_cache
                 (ttlcache.SetWithTTL (kvCache w') (now w') CacheKey ckv
                    (loader_ttl (clientOf ctx ref))) w')
          | (Err e, w') =>
              (Err (errors_Wrap e "initializing key version from GCP KMS"), w')
          | (Panic msg, w') => (Panic msg, w')
          end
      end /\
    (forall e w',
       newGCPClient kms crypto ctx ref w = (Err e, w') ->
       (exists e0,
          NewKeyManagementClient kms
            (match ctx with Some c => c | None => ctxBackground end) = Some e0 /\
          e = errors_Wrap e0 "new gcp kms client" /\ w' = w) \/
       (exists e0,
          NewKeyManagementClient kms
            (match ctx with Some c => c | None => ctxBackground end) = None /\
          keyVersionName kms crypto (clientOf ctx ref) ctxBackground (priming w)
          = (Err e0, w') /\
          e = errors_Wrap e0 "initializing key version from GCP KMS")).
Proof.
  intros S R kms crypto ctx ref w Hv.
  pose proof (parseReference_err_spec ref) as Hp. rewrite Hv in Hp.
  assert (Heq : newGCPClient kms crypto ctx ref w
    = match NewKeyManagementClient kms
              (match ctx with Some c => c | None => ctxBackground end) with
      | Some e => (Err (errors_Wrap e "new gcp kms client"), w)
      | None =>
          match keyVersionName kms crypto (clientOf ctx ref) ctxBackground (priming w) with
          | (Ok ckv, w') =>
              (Ok (clientOf ctx ref),
               set_cache
                 (ttlcache.SetWithTTL (kvCache w') (now w') CacheKey ckv
                    (loader_ttl (clientOf ctx ref))) w')
          | (Err e, w') =>
              (Err (errors_Wrap e "initializing key version from GCP KMS"), w')
          | (Panic msg, w') => (Panic msg, w')
          end
      end).
  { unfold newGCPClient. rewrite Hv, Hp.
    destruct (NewKeyManagementClient kms _) as [e|]; [reflexivity|].
    rewrite getCKV_unfold. cbn [kvCache now set_cache].
    change (ttlcache.getItem (ttlcache.SkipTTLExtensionOnHit true ttlcache.NewCache)
              (now w) CacheKey)
      with (@None ttlcache.item, ttlcache.SkipTTLExtensionOnHit true ttlcache.NewCache).
    cbv iota beta. unfold priming, loading, clientOf.
    destruct (keyVersionName kms crypto _ ctxBackground _) as [[ckv|e|m] w']; reflexivity. }
  split; [exact Heq|].
  intros e w'. rewrite Heq.
  destruct (NewKeyManagementClient kms _) as [e0|].
  - intros H. inversion H; subst. left. exists e0. auto.
  - destruct (keyVersionName kms crypto (clientOf ctx ref) ctxBackground (priming w))
      as [[ckv|e0|m] w2]; intros H; inversion H; subst.
    right. exists e0. auto.
Qed.

Lemma newGCPClient_failures_witness :
  ValidReference Mock.unpinnedRef = None /\
  newGCPClient unreachable_kms Mock.crypto None Mock.unpinnedRef (Mock.world Mock.emptyRing)
  = (Err (errors_Wrap (errors_New "dial: connection refused") "new gcp kms client"),
     Mock.world Mock.emptyRing) /\
  fst (newGCPClient Mock.kms Mock.crypto (Some (ctxCaller 2)) Mock.unpinnedRef
         (Mock.world Mock.emptyRing))
  = Err (errors_Wrap Mock.NotFound "initializing key version from GCP KMS") /\
  fst (newGCPClient Mock.kms Mock.crypto (Some (ctxCaller 2)) Mock.unpinnedRef
         (Mock.world (Mock.service EC_SIGN_P384_SHA384 "EC" Mock.goodResp)))
  = Ok (clientOf (Some (ctxCaller 2)) Mock.unpinnedRef).
Proof.
  assert (Hv : ValidReference Mock.unpinnedRef = None) by (vm_compute; reflexivity).
  split; [exact Hv|]. split; [|split].
  - rewrite (proj1 (newGCPClient_failures unreachable_kms Mock.crypto None Mock.unpinnedRef
                      (Mock.world Mock.emptyRing) Hv)).
    reflexivity.
  - rewrite (proj1 (newGCPClient_failures Mock.kms Mock.crypto (Some (ctxCaller 2))
                      Mock.unpinnedRef (Mock.world Mock.emptyRing) Hv)).
    vm_compute. reflexivity.
  - rewrite (proj1 (newGCPClient_failures Mock.kms Mock.crypto (Some (ctxCaller 2))
                      Mock.unpinnedRef
                      (Mock.world (Mock.service EC_SIGN_P384_SHA384 "EC" Mock.goodResp)) Hv)).
    vm_compute. reflexivity.
Defined.

(** ** Resolution *)

Lemma buildCryptoKeyVersion_verifier kv pk ckv :
  buildCryptoKeyVersion kv pk = Ok ckv ->
  SignerVerifier_hashFunc (ckv_SignerVerifier ckv) = HashFunc ckv /\
  SignerVerifier_private (ckv_SignerVerifier ckv) = None /\
  key_matches (kv_Algorithm kv) pk = true.
Proof.
  unfold buildCryptoKeyVersion. intros H.
  destruct (kv_Algorithm kv), pk; simpl in H; try discriminate;
    inversion H; subst; simpl; repeat split.
Qed.

Lemma buildCryptoKeyVersion_key_type kv pk :
  supported (kv_Algorithm kv) = true ->
  kv_Algorithm kv <> EC_SIGN_P256_SHA256 ->
  if key_matches (kv_Algorithm kv) pk
  then exists sv h,
         buildCryptoKeyVersion kv pk
         = Ok {| CryptoKeyVersion := kv; ckv_SignerVerifier := sv; HashFunc := h |} /\
         SignerVerifier_PublicKey sv = pk
  else exists msg, buildCryptoKeyVersion kv pk = Panic msg.
Proof.
  unfold buildCryptoKeyVersion. intros Hs Hn.
  destruct (kv_Algorithm kv); try discriminate; try congruence;
    destruct pk; simpl; eauto.
Qed.

(** X6.  A key whose purpose is not asymmetric signing ends the resolution
    with the error [specified key cannot be used to sign] after the single
    lookup of the key: no version is selected and no public key is
    fetched. *)
Theorem keyVersionName_not_signing_key :
  forall {S R : Type} (kms : KMS S) (crypto : Crypto R) g ctx (w : World S) key s1,
    GetCryptoKey kms ctx (keyPath g) (svc w) = (ok key, s1) ->
    ck_Purpose key <> ASYMMETRIC_SIGN ->
    keyVersionName kms crypto g ctx w
    = (Err (errors_New "specified key cannot be used to sign"),
       mkWorld s1 (kvCache w) (now w) (trace w ++ [EvGetCryptoKey ctx (keyPath g)])).
Proof.
  intros S R kms crypto g ctx w key s1 Hk Hp.
  unfold keyVersionName, bind, call, throw. cbv zeta. rewrite Hk. cbv beta iota.
  destruct (ck_Purpose key); try reflexivity. contradiction.
Qed.

Lemma keyVersionName_not_signing_key_witness :
  ENCRYPT_DECRYPT <> ASYMMETRIC_SIGN /\
  fst (keyVersionName Mock.kms Mock.crypto (Mock.client "") (ctxCaller 1)
         (Mock.world (Mock.with_key ENCRYPT_DECRYPT [] Mock.emptyRing)))
  = Err (errors_New "specified key cannot be used to sign").
Proof.
  split; [discriminate|].
  rewrite (keyVersionName_not_signing_key Mock.kms Mock.crypto (Mock.client "") (ctxCaller 1)
             (Mock.world (Mock.with_key ENCRYPT_DECRYPT [] Mock.emptyRing))
             {| ck_Name := keyPath (Mock.client ""); ck_Purpose := ENCRYPT_DECRYPT |}
             (Mock.with_key ENCRYPT_DECRYPT [] Mock.emptyRing) eq_refl);
    [reflexivity | discriminate].
Defined.

(** X7.  The remote calls of a resolution, in order, all with the context
    it is given.  The first is the lookup of the key by its path, and it is
    the only one when the lookup fails or the key is not a signing key.  The
    second selects the version: the lookup of the pinned version by name
    (never a listing) or, for an unpinned client, the listing of the enabled
    versions in descending order of name (never a lookup by name); it is the
    last one when it fails.  The third and last is the fetch of the public
    key of the version selected.  No call is made twice. *)
Theorem keyVersionName_remote_calls :
  forall {S R : Type} (kms : KMS S) (crypto : Crypto R) g ctx (w : World S),
    trace (snd (keyVersionName kms crypto g ctx w))
    = trace w
      ++ match GetCryptoKey kms ctx (keyPath g) (svc w) with
         | (err _, _) => [EvGetCryptoKey ctx (keyPath g)]
         | (ok key, s1) =>
             match ck_Purpose key with
             | ASYMMETRIC_SIGN =>
                 match selectVersion kms g ctx s1 with
                 | (err _, _) => [EvGetCryptoKey ctx (keyPath g); selection_call g ctx]
                 | (ok kv, _) =>
                     [EvGetCryptoKey ctx (keyPath g); selection_call g ctx;
                      EvGetPublicKey ctx (kv_Name kv)]
                 end
             | _ => [EvGetCryptoKey ctx (keyPath g)]
             end
         end.
Proof.
  intros S R kms crypto g ctx w.
  unfold keyVersionName, fetchPublicKey, bind, wrap, call, lift, ret, throw,
    selectVersion, selection_call. cbv zeta.
  destruct (GetCryptoKey kms ctx (keyPath g) (svc w)) as [[key|e] s1]; cbv beta iota;
    [|reflexivity].
  destruct (ck_Purpose key); cbv beta iota; try reflexivity.
  destruct (pinned g); cbv beta iota zeta; cbn [svc].
  - destruct (GetCryptoKeyVersion kms ctx _ s1) as [[kv|e] s2]; cbv beta iota; cbn [svc];
      [|ext_tac].
    destruct (GetPublicKey kms ctx (kv_Name kv) s2) as [[pk|e] s3]; cbv beta iota;
      [|ext_tac].
    destruct (UnmarshalPEMToPublicKey crypto (pk_Pem pk)); cbv beta iota; ext_tac.
  - destruct (ListCryptoKeyVersions_Next kms ctx _ s1) as [[kv|e] s2]; cbv beta iota;
      cbn [svc]; [|ext_tac].
    destruct (GetPublicKey kms ctx (kv_Name kv) s2) as [[pk|e] s3]; cbv beta iota;
      [|ext_tac].
    destruct (UnmarshalPEMToPublicKey crypto (pk_Pem pk)); cbv beta iota; ext_tac.
Qed.

(** X8.  Once the key has been found and is a signing key, the outcome of a
    resolution follows the remote answers in order.  A failed lookup of the
    pinned version is returned as it is, a failed listing is wrapped as
    [unable to find an enabled key version in GCP KMS]; a failed fetch of the
    public key is wrapped as [public key] and then as
    [unable to fetch public key while creating signer]; a PEM block that does
    not decode is wrapped with the latter only; otherwise the two switches on
    the algorithm decide. *)
Theorem keyVersionName_outcome :
  forall {S R : Type} (kms : KMS S) (crypto : Crypto R) g ctx (w : World S) key s1,
    GetCryptoKey kms ctx (keyPath g) (svc w) = (ok key, s1) ->
    ck_Purpose key = ASYMMETRIC_SIGN ->
    fst (keyVersionName kms crypto g ctx w)
    = match selectVersion kms g ctx s1 with
      | (err e, _) =>
          Err (if pinned g then e
               else errors_Wrap e "unable to find an enabled key version in GCP KMS")
      | (ok kv, s2) =>
          match GetPublicKey kms ctx (kv_Name kv) s2 with
          | (err e, _) =>
              Err (errors_Wrap (errors_Wrap e "public key")
                     "unable to fetch public key while creating signer")
          | (ok pkr, _) =>
              match UnmarshalPEMToPublicKey crypto (pk_Pem pkr) with
              | err e =>
                  Err (errors_Wrap e "unable to fetch public key while creating signer")
              | ok pk => buildCryptoKeyVersion kv pk
              end
          end
      end.
Proof.
  intros S R kms crypto g ctx w key s1 Hk Hp.
  unfold selectVersion, keyVersionName, fetchPublicKey, bind, wrap, call, lift, ret, throw.
  cbv zeta. rewrite Hk. cbv beta iota. rewrite Hp.
  destruct (pinned g); cbv beta iota zeta; cbn [svc].
  - destruct (GetCryptoKeyVersion kms ctx _ s1) as [[kv|e] s2]; cbv beta iota; cbn [svc];
      [|reflexivity].
    destruct (GetPublicKey kms ctx (kv_Name kv) s2) as [[pk|e] s3]; cbv beta iota;
      [|reflexivity].
    destruct (UnmarshalPEMToPublicKey crypto (pk_Pem pk)); reflexivity.
  - destruct (ListCryptoKeyVersions_Next kms ctx _ s1) as [[kv|e] s2]; cbv beta iota;
      cbn [svc]; [|reflexivity].
    destruct (GetPublicKey kms ctx (kv_Name kv) s2) as [[pk|e] s3]; cbv beta iota;
      [|reflexivity].
    destruct (UnmarshalPEMToPublicKey crypto (pk_Pem pk)); reflexivity.
Qed.

Lemma keyVersionName_outcome_witness :
  fst (keyVersionName Mock.kms Mock.crypto (Mock.client "") (ctxCaller 1)
         (Mock.world (Mock.with_key ASYMMETRIC_SIGN [] Mock.emptyRing)))
  = Err (errors_Wrap Mock.Done "unable to find an enabled key version in GCP KMS") /\
  fst (keyVersionName Mock.kms Mock.crypto (Mock.client "7") (ctxCaller 1)
         (Mock.world (Mock.with_key ASYMMETRIC_SIGN [] Mock.emptyRing)))
  = Err Mock.NotFound /\
  fst (keyVersionName Mock.kms Mock.crypto (Mock.client "") (ctxCaller 1)
         (Mock.world (Mock.service EC_SIGN_P384_SHA384 "junk" Mock.goodResp)))
  = Err (errors_Wrap (errors_New "PEM decoding failed")
           "unable to fetch public key while creating signer").
Proof.
  split; [|split].
  - rewrite (keyVersionName_outcome Mock.kms Mock.crypto (Mock.client "") (ctxCaller 1)
               (Mock.world (Mock.with_key ASYMMETRIC_SIGN [] Mock.emptyRing))
               {| ck_Name := keyPath (Mock.client ""); ck_Purpose := ASYMMETRIC_SIGN |}
               (Mock.with_key ASYMMETRIC_SIGN [] Mock.emptyRing) eq_refl eq_refl).
    reflexivity.
  - rewrite (keyVersionName_outcome Mock.kms Mock.crypto (Mock.client "7") (ctxCaller 1)
               (Mock.world (Mock.with_key ASYMMETRIC_SIGN [] Mock.emptyRing))
               {| ck_Name := keyPath (Mock.client "7"); ck_Purpose := ASYMMETRIC_SIGN |}
               (Mock.with_key ASYMMETRIC_SIGN [] Mock.emptyRing) eq_refl eq_refl).
    reflexivity.
  - rewrite (keyVersionName_outcome Mock.kms Mock.crypto (Mock.client "") (ctxCaller 1)
               (Mock.world (Mock.service EC_SIGN_P384_SHA384 "junk" Mock.goodResp))
               {| ck_Name := keyPath (Mock.client ""); ck_Purpose := ASYMMETRIC_SIGN |}
               (Mock.service EC_SIGN_P384_SHA384 "junk" Mock.goodResp) eq_refl eq_refl).
    reflexivity.
Defined.

(** X9.  For a version of a supported algorithm other than
    [EC_SIGN_P256_SHA256] whose public key has been fetched and decoded, the
    type assertion decides: a key of the type the algorithm calls for (ECDSA
    for the EC algorithm, RSA for the RSA ones) gives a resolved version for
    that very handle with a verifier over that key, and a key of another type
    makes the resolution panic instead of returning an error. *)
Theorem keyVersionName_key_type :
  forall {S R : Type} (kms : KMS S) (crypto : Crypto R) g ctx (w : World S)
         key s1 kv s2 pkr s3 pk,
    GetCryptoKey kms ctx (keyPath g) (svc w) = (ok key, s1) ->
    ck_Purpose key = ASYMMETRIC_SIGN ->
    selectVersion kms g ctx s1 = (ok kv, s2) ->
    GetPublicKey kms ctx (kv_Name kv) s2 = (ok pkr, s3) ->
    UnmarshalPEMToPublicKey crypto (pk_Pem pkr) = ok pk ->
    supported (kv_Algorithm kv) = true ->
    kv_Algorithm kv <> EC_SIGN_P256_SHA256 ->
    (key_matches (kv_Algorithm kv) pk = true ->
     exists sv h,
       fst (keyVersionName kms crypto g ctx w)
       = Ok {| CryptoKeyVersion := kv; ckv_SignerVerifier := sv; HashFunc := h |} /\
       SignerVerifier_PublicKey sv = pk) /\
    (key_matches (kv_Algorithm kv) pk = false ->
     exists msg, fst (keyVersionName kms crypto g ctx w) = Panic msg).
Proof.
  intros S R kms crypto g ctx w key s1 kv s2 pkr s3 pk Hk Hp Hv Hpk Hu Hs Hn.
  rewrite (keyVersionName_reaches_switch kms crypto g ctx w key s1 kv s2 pkr s3 pk
             Hk Hp Hv Hpk Hu).
  pose proof (buildCryptoKeyVersion_key_type kv pk Hs Hn) as H.
  split; intros Hm; rewrite Hm in H; exact H.
Qed.

Lemma keyVersionName_key_type_witness :
  key_matches EC_SIGN_P384_SHA384 (PubRSA Mock.rsaKey) = false /\
  fst (keyVersionName Mock.kms Mock.crypto (Mock.client "") ctxBackground
         (Mock.world (Mock.service EC_SIGN_P384_SHA384 "RSA" Mock.goodResp)))
  = Panic "interface conversion: crypto.PublicKey is not *ecdsa.PublicKey" /\
  key_matches RSA_SIGN_PSS_2048_SHA256 (PubRSA Mock.rsaKey) = true /\
  fst (keyVersionName Mock.kms Mock.crypto (Mock.client "") ctxBackground
         (Mock.world (Mock.service RSA_SIGN_PSS_2048_SHA256 "RSA" Mock.goodResp)))
  = Ok {| CryptoKeyVersion := Mock.enabled "1" RSA_SIGN_PSS_2048_SHA256;
          ckv_SignerVerifier :=
            RSAPSSSignerVerifier
              {| rsa_PublicKey_of := Mock.rsaKey; rsa_D := None |} SHA256;
          HashFunc := SHA256 |}.
Proof.
  split; [reflexivity|]. split; [|split; [reflexivity|]].
  - destruct (keyVersionName_key_type Mock.kms Mock.crypto (Mock.client "") ctxBackground
                (Mock.world (Mock.service EC_SIGN_P384_SHA384 "RSA" Mock.goodResp))
                {| ck_Name := keyPath (Mock.client ""); ck_Purpose := ASYMMETRIC_SIGN |}
                (Mock.service EC_SIGN_P384_SHA384 "RSA" Mock.goodResp)
                (Mock.enabled "1" EC_SIGN_P384_SHA384)
                (Mock.service EC_SIGN_P384_SHA384 "RSA" Mock.goodResp)
                {| pk_Pem := "RSA" |}
                (Mock.service EC_SIGN_P384_SHA384 "RSA" Mock.goodResp)
                (PubRSA Mock.rsaKey) eq_refl eq_refl eq_refl eq_refl eq_refl eq_refl)
      as [_ H]; [discriminate|].
    destruct (H eq_refl) as [msg Hm]. rewrite Hm. f_equal.
    revert Hm. vm_compute. intros Hm. inversion Hm. reflexivity.
  - destruct (keyVersionName_key_type Mock.kms Mock.crypto (Mock.client "") ctxBackground
                (Mock.world (Mock.service RSA_SIGN_PSS_2048_SHA256 "RSA" Mock.goodResp))
                {| ck_Name := keyPath (Mock.client ""); ck_Purpose := ASYMMETRIC_SIGN |}
                (Mock.service RSA_SIGN_PSS_2048_SHA256 "RSA" Mock.goodResp)
                (Mock.enabled "1" RSA_SIGN_PSS_2048_SHA256)
                (Mock.service RSA_SIGN_PSS_2048_SHA256 "RSA" Mock.goodResp)
                {| pk_Pem := "RSA" |}
                (Mock.service RSA_SIGN_PSS_2048_SHA256 "RSA" Mock.goodResp)
                (PubRSA Mock.rsaKey) eq_refl eq_refl eq_refl eq_refl eq_refl eq_refl)
      as [H _]; [discriminate|].
    destruct (H eq_refl) as (sv & h & Hm & _). rewrite Hm.
    revert Hm. vm_compute. intros Hm. inversion Hm. reflexivity.
Defined.

Lemma keyVersionName_Ok_build {S R : Type} (kms : KMS S) (crypto : Crypto R)
    g ctx (w : World S) ckv w' :
  keyVersionName kms crypto g ctx w = (Ok ckv, w') ->
  exists s2 pkr pk,
    GetPublicKey kms ctx (kv_Name (CryptoKeyVersion ckv)) s2 = (ok pkr, svc w') /\
    UnmarshalPEMToPublicKey crypto (pk_Pem pkr) = ok pk /\
    buildCryptoKeyVersion (CryptoKeyVersion ckv) pk = Ok ckv.
Proof.
  unfold keyVersionName, fetchPublicKey, bind, wrap, call, lift, ret, throw.
  intros H.
  destruct (GetCryptoKey kms ctx (keyPath g) (svc w)) as [[key|e] s1]; simpl in H;
    [|discriminate].
  destruct (ck_Purpose key); simpl in H; try discriminate.
  destruct (pinned g); simpl in H.
  - destruct (GetCryptoKeyVersion kms ctx _ s1) as [[kv|e] s2]; simpl in H;
      [|discriminate].
    destruct (GetPublicKey kms ctx (kv_Name kv) s2) as [[pk|e] s3] eqn:E3; simpl in H;
      [|discriminate].
    destruct (UnmarshalPEMToPublicKey crypto (pk_Pem pk)) as [k|e] eqn:E4; simpl in H;
      [|discriminate].
    inversion H as [[Hb Hw]].
    pose proof (buildCryptoKeyVersion_Ok _ _ _ Hb) as (Hkv & _).
    exists s2, pk, k. rewrite Hkv. simpl. auto.
  - destruct (ListCryptoKeyVersions_Next kms ctx _ s1) as [[kv|e] s2]; simpl in H;
      [|discriminate].
    destruct (GetPublicKey kms ctx (kv_Name kv) s2) as [[pk|e] s3] eqn:E3; simpl in H;
      [|discriminate].
    destruct (UnmarshalPEMToPublicKey crypto (pk_Pem pk)) as [k|e] eqn:E4; simpl in H;
      [|discriminate].
    inversion H as [[Hb Hw]].
    pose proof (buildCryptoKeyVersion_Ok _ _ _ Hb) as (Hkv & _).
    exists s2, pk, k. rewrite Hkv. simpl. auto.
Qed.

(** X10.  Whatever version a resolution returns, its verifier was loaded
    with the hash function recorded beside it, which is the one of the
    version's algorithm; the verifier holds no private key; and its public
    key is the key decoded from the PEM block fetched for that version's
    name, of the type the algorithm calls for. *)
Theorem resolved_version_invariant :
  forall {S R : Type} (kms : KMS S) (crypto : Crypto R) g ctx (w : World S) ckv w',
    keyVersionName kms crypto g ctx w = (Ok ckv, w') ->
    SignerVerifier_hashFunc (ckv_SignerVerifier ckv) = HashFunc ckv /\
    hashFor (kv_Algorithm (CryptoKeyVersion ckv)) = Some (HashFunc ckv) /\
    SignerVerifier_private (ckv_SignerVerifier ckv) = None /\
    key_matches (kv_Algorithm (CryptoKeyVersion ckv))
      (SignerVerifier_PublicKey (ckv_SignerVerifier ckv)) = true /\
    exists s2 pkr,
      GetPublicKey kms ctx (kv_Name (CryptoKeyVersion ckv)) s2 = (ok pkr, svc w') /\
      UnmarshalPEMToPublicKey crypto (pk_Pem pkr)
      = ok (SignerVerifier_PublicKey (ckv_SignerVerifier ckv)).
Proof.
  intros S R kms crypto g ctx w ckv w' H.
  apply keyVersionName_Ok_build in H as (s2 & pkr & pk & Hpk & Hu & Hb).
  pose proof (buildCryptoKeyVersion_Ok _ _ _ Hb) as (_ & Hkey & Hh & _).
  apply buildCryptoKeyVersion_verifier in Hb as (H1 & H2 & H3).
  rewrite Hkey. refine (conj H1 (conj Hh (conj H2 (conj H3 _)))).
  exists s2, pkr. split; [exact Hpk | exact Hu].
Qed.

Lemma resolved_version_invariant_witness :
  fst (keyVersionName Mock.kms Mock.crypto (Mock.client "1") ctxBackground
         (Mock.world (Mock.service RSA_SIGN_PKCS1_4096_SHA512 "RSA" Mock.goodResp)))
  = Ok {| CryptoKeyVersion := Mock.enabled "1" RSA_SIGN_PKCS1_4096_SHA512;
          ckv_SignerVerifier :=
            RSAPKCS1v15SignerVerifier
              {| rsa_PublicKey_of := Mock.rsaKey; rsa_D := None |} SHA512;
          HashFunc := SHA512 |} /\
  hashFor RSA_SIGN_PKCS1_4096_SHA512 = Some SHA512 /\
  UnmarshalPEMToPublicKey Mock.crypto "RSA" = ok (PubRSA Mock.rsaKey).
Proof.
  pose (w := Mock.world (Mock.service RSA_SIGN_PKCS1_4096_SHA512 "RSA" Mock.goodResp)).
  pose (ckv := {| CryptoKeyVersion := Mock.enabled "1" RSA_SIGN_PKCS1_4096_SHA512;
                  ckv_SignerVerifier :=
                    RSAPKCS1v15SignerVerifier
                      {| rsa_PublicKey_of := Mock.rsaKey; rsa_D := None |} SHA512;
                  HashFunc := SHA512 |}).
  assert (H : keyVersionName Mock.kms Mock.crypto (Mock.client "1") ctxBackground w
              = (Ok ckv, snd (keyVersionName Mock.kms Mock.crypto (Mock.client "1")
                                ctxBackground w)))
    by (vm_compute; reflexivity).
  split; [vm_compute; reflexivity|].
  destruct (resolved_version_invariant Mock.kms Mock.crypto (Mock.client "1")
              ctxBackground w ckv _ H) as (_ & Hh & _ & _ & _).
  split; [exact Hh | reflexivity].
Defined.

(** ** Signing *)

Lemma lxor_range32 a b :
  0 <= a < 2 ^ 32 -> 0 <= b < 2 ^ 32 -> 0 <= Z.lxor a b < 2 ^ 32.
Proof.
  intros [Ha Ha'] [Hb Hb'].
  assert (Hn : 0 <= Z.lxor a b) by (apply Z.lxor_nonneg; tauto).
  split; [exact Hn|].
  destruct (Z.eq_dec (Z.lxor a b) 0) as [E|E]; [rewrite E; reflexivity|].
  apply Z.log2_lt_pow2; [lia|].
  pose proof (Z.log2_lxor a b Ha Hb) as Hl.
  assert (La : Z.log2 a < 32).
  { destruct (Z.eq_dec a 0) as [->|]; [reflexivity|]. apply Z.log2_lt_pow2; lia. }
  assert (Lb : Z.log2 b < 32).
  { destruct (Z.eq_dec b 0) as [->|]; [reflexivity|]. apply Z.log2_lt_pow2; lia. }
  lia.
Qed.

Lemma shiftr_range32 a k :
  0 <= k -> 0 <= a < 2 ^ 32 -> 0 <= Z.shiftr a k < 2 ^ 32.
Proof.
  intros Hk [Ha Ha']. rewrite Z.shiftr_div_pow2 by exact Hk.
  assert (0 < 2 ^ k) by (apply Z.pow_pos_nonneg; lia).
  split; [apply Z.div_pos; lia|].
  apply Z.le_lt_trans with a; [|exact Ha'].
  apply Z.div_le_upper_bound; [lia|]. nia.
Qed.

Lemma table_loop_range poly j : 0 <= poly < 2 ^ 32 ->
  forall crc, 0 <= crc < 2 ^ 32 -> 0 <= crc32.table_loop poly j crc < 2 ^ 32.
Proof.
  intros Hp. induction j as [|j IH]; intros crc Hc; simpl; [exact Hc|].
  apply IH. match goal with |- context [if ?b then _ else _] => destruct b end.
  - apply lxor_range32; [apply shiftr_range32; [lia | exact Hc] | exact Hp].
  - apply shiftr_range32; [lia | exact Hc].
Qed.

Lemma byte_val_range v : 0 <= crc32.byte_val v < 256.
Proof.
  unfold crc32.byte_val. pose proof (Byte.to_N_bounded v). lia.
Qed.

Lemma not32_range x : 0 <= x < 2 ^ 32 -> 0 <= crc32.not32 x < 2 ^ 32.
Proof. intros H. unfold crc32.not32. apply lxor_range32; [exact H | lia]. Qed.

(** The checksum is a [uint32]. *)
Lemma Checksum_range data :
  0 <= crc32.Checksum data (crc32.MakeTable crc32.Castagnoli) < 2 ^ 32.
Proof.
  unfold crc32.Checksum, crc32.update. apply not32_range.
  assert (H0 : 0 <= crc32.not32 0 < 2 ^ 32) by (apply not32_range; lia).
  revert H0. generalize (crc32.not32 0).
  induction data as [|v data IH]; intros crc Hc; simpl; [exact Hc|].
  apply IH. apply lxor_range32; [|apply shiftr_range32; [lia | exact Hc]].
  unfold crc32.MakeTable. apply table_loop_range; [unfold crc32.Castagnoli; lia|].
  pose proof (byte_val_range v) as Hv.
  assert (Hl : 0 <= Z.land crc 255 < 256).
  { change 255 with (Z.ones 8). rewrite Z.land_ones by lia.
    apply Z.mod_pos_bound. reflexivity. }
  assert (Hx : 0 <= Z.lxor (Z.land crc 255) (crc32.byte_val v)) by (apply Z.lxor_nonneg; lia).
  split; [exact Hx|].
  destruct (Z.eq_dec (Z.lxor (Z.land crc 255) (crc32.byte_val v)) 0) as [E|E];
    [rewrite E; reflexivity|].
  apply Z.log2_lt_pow2; [lia|].
  pose proof (Z.log2_lxor (Z.land crc 255) (crc32.byte_val v)) as Hlx.
  assert (La : Z.log2 (Z.land crc 255) < 8).
  { destruct (Z.eq_dec (Z.land crc 255) 0) as [->|]; [reflexivity|].
    apply Z.log2_lt_pow2; lia. }
  assert (Lb : Z.log2 (crc32.byte_val v) < 8).
  { destruct (Z.eq_dec (crc32.byte_val v) 0) as [->|]; [reflexivity|].
    apply Z.log2_lt_pow2; lia. }
  lia.
Qed.

Lemma signRequest_spec name digest alg crc :
  signRequest name digest alg crc
  = if supported_hash alg
    then Some {| req_Name := name; req_Digest := digestFor alg digest;
                 req_DigestCrc32C := if crc =? 0 then None else Some crc |}
    else None.
Proof. unfold signRequest. destruct alg, (crc =? 0); reflexivity. Qed.

Lemma checkResponse_Ok crc resp sig :
  checkResponse crc resp = Ok sig ->
  sig = resp_Signature resp /\
  resp_SignatureCrc32C resp
  = Some (crc32.Checksum sig (crc32.MakeTable crc32.Castagnoli)) /\
  (crc <> 0 -> resp_VerifiedDigestCrc32C resp = true).
Proof.
  unfold checkResponse. intros H.
  destruct (crc =? 0) eqn:Ec, (resp_VerifiedDigestCrc32C resp) eqn:Ev; simpl in H;
    try discriminate;
    destruct (resp_SignatureCrc32C resp) as [c|]; try discriminate;
    destruct (Z.eqb_spec (crc32.Checksum (resp_Signature resp)
                            (crc32.MakeTable crc32.Castagnoli)) c) as [E|E];
    simpl in H; try discriminate; inversion H; subst;
    (split; [reflexivity|]); (split; [reflexivity|]); intros Hc; try reflexivity.
  - apply Z.eqb_eq in Ec. contradiction.
Qed.

Lemma checkResponse_Err crc resp e :
  checkResponse crc resp = Err e ->
  (e = RequestCorrupted /\ crc <> 0 /\ resp_VerifiedDigestCrc32C resp = false) \/
  (e = ResponseCorrupted /\
   exists c, resp_SignatureCrc32C resp = Some c /\
             crc32.Checksum (resp_Signature resp) (crc32.MakeTable crc32.Castagnoli) <> c).
Proof.
  unfold checkResponse. intros H.
  destruct (Z.eqb_spec crc 0) as [Ec|Ec], (resp_VerifiedDigestCrc32C resp) eqn:Ev;
    simpl in H;
    try (inversion H; left; auto; fail);
    destruct (resp_SignatureCrc32C resp) as [c|]; try discriminate;
    destruct (Z.eqb_spec (crc32.Checksum (resp_Signature resp)
                            (crc32.MakeTable crc32.Castagnoli)) c) as [E|E];
    simpl in H; try discriminate; inversion H; right; split; eauto.
Qed.

(** X11.  A signature that [sign] returns is the one the service answered
    with, for a request addressed to the cached version's name and carrying
    the digest under the hash function asked for; its CRC-32C is the checksum
    the service claimed, a value between 0 and 2^32; and when a request
    checksum was supplied, the service reported it verified. *)
Theorem sign_returns_checked_signature :
  forall {S R : Type} (kms : KMS S) (crypto : Crypto R) g ctx digest alg crc
         (w : World S) sig w',
    sign kms crypto g ctx digest alg crc w = (Ok sig, w') ->
    exists ckv w1 resp,
      getCKV kms crypto g w = (Ok ckv, w1) /\
      supported_hash alg = true /\
      AsymmetricSign kms ctx
        {| req_Name := kv_Name (CryptoKeyVersion ckv); req_Digest := digestFor alg digest;
           req_DigestCrc32C := if crc =? 0 then None else Some crc |} (svc w1)
      = (ok resp, svc w') /\
      sig = resp_Signature resp /\
      resp_SignatureCrc32C resp
      = Some (crc32.Checksum sig (crc32.MakeTable crc32.Castagnoli)) /\
      0 <= crc32.Checksum sig (crc32.MakeTable crc32.Castagnoli) < 2 ^ 32 /\
      (crc <> 0 -> resp_VerifiedDigestCrc32C resp = true).
Proof.
  intros S R kms crypto g ctx digest alg crc w sig w'.
  unfold sign, bind, wrap, call, throw.
  destruct (getCKV kms crypto g w) as [[ckv|e|m] w1] eqn:Ec;
    try (intros H; discriminate H).
  rewrite signRequest_spec.
  destruct (supported_hash alg) eqn:Eh; [|intros H; discriminate H].
  match goal with
  | |- context [AsymmetricSign kms ctx ?r (svc w1)] =>
      destruct (AsymmetricSign kms ctx r (svc w1)) as [[resp|e] s'] eqn:Es
  end; [|intros H; discriminate H].
  intros H. inversion H as [[Hr Hw]]; clear H.
  apply checkResponse_Ok in Hr as (Hs & Hsum & Hv).
  exists ckv, w1, resp. simpl.
  refine (conj eq_refl (conj eq_refl (conj Es (conj Hs (conj Hsum (conj _ Hv)))))).
  apply Checksum_range.
Qed.

Lemma sign_returns_checked_signature_witness :
  fst (sign Mock.kms Mock.crypto (Mock.client "") (ctxCaller 1) [x0a] SHA512 9
         (Mock.primed Mock.unpinnedRef
            (Mock.service EC_SIGN_P384_SHA384 "EC" Mock.goodResp)))
  = Ok Mock.sig0 /\
  0 <= crc32.Checksum Mock.sig0 (crc32.MakeTable crc32.Castagnoli) < 2 ^ 32.
Proof.
  pose (w := Mock.primed Mock.unpinnedRef
               (Mock.service EC_SIGN_P384_SHA384 "EC" Mock.goodResp)).
  assert (H : sign Mock.kms Mock.crypto (Mock.client "") (ctxCaller 1) [x0a] SHA512 9 w
              = (Ok Mock.sig0,
                 snd (sign Mock.kms Mock.crypto (Mock.client "") (ctxCaller 1) [x0a]
                        SHA512 9 w)))
    by (vm_compute; reflexivity).
  split; [vm_compute; reflexivity|].
  destruct (sign_returns_checked_signature Mock.kms Mock.crypto (Mock.client "")
              (ctxCaller 1) [x0a] SHA512 9 w Mock.sig0 _ H)
    as (ckv & w1 & resp & _ & _ & _ & _ & _ & Hr & _).
  exact Hr.
Defined.

(** X12.  Every error [sign] returns is one of five.  The error of the
    cache read, returned as it is, and [unsupported hash function] come
    before any signing call.  After the single signing call the error is the
    service's, wrapped as [calling GCP AsymmetricSign], or [RequestCorrupted]
    (only with a checksum supplied that the service did not report verified),
    or [ResponseCorrupted] (only with a claimed checksum that differs from
    the recomputed one). *)
Theorem sign_errors :
  forall {S R : Type} (kms : KMS S) (crypto : Crypto R) g ctx digest alg crc
         (w : World S) e w',
    sign kms crypto g ctx digest alg crc w = (Err e, w') ->
    getCKV kms crypto g w = (Err e, w') \/
    (exists ckv,
       getCKV kms crypto g w = (Ok ckv, w') /\ supported_hash alg = false /\
       e = errors_New "unsupported hash function") \/
    (exists ckv w1 req,
       getCKV kms crypto g w = (Ok ckv, w1) /\
       trace w' = trace w1 ++ [EvAsymmetricSign ctx req] /\
       ((exists e0 s', AsymmetricSign kms ctx req (svc w1) = (err e0, s') /\
                       e = errors_Wrap e0 "calling GCP AsymmetricSign") \/
        (exists resp s', AsymmetricSign kms ctx req (svc w1) = (ok resp, s') /\
           ((e = RequestCorrupted /\ crc <> 0 /\ resp_VerifiedDigestCrc32C resp = false) \/
            (e = ResponseCorrupted /\
             exists c, resp_SignatureCrc32C resp = Some c /\
               crc32.Checksum (resp_Signature resp) (crc32.MakeTable crc32.Castagnoli)
               <> c))))).
Proof.
  intros S R kms crypto g ctx digest alg crc w e w'.
  unfold sign, bind, wrap, call, throw.
  destruct (getCKV kms crypto g w) as [[ckv|e1|m] w1] eqn:Ec.
  3: { intros H; discriminate H. }
  2: { intros H. inversion H; subst. left. reflexivity. }
  rewrite signRequest_spec.
  destruct (supported_hash alg) eqn:Eh.
  2: { intros H. inversion H; subst. right; left. exists ckv. auto. }
  match goal with
  | |- context [AsymmetricSign kms ctx ?r (svc w1)] =>
      set (req := r);
      destruct (AsymmetricSign kms ctx req (svc w1)) as [[resp|e0] s'] eqn:Es
  end.
  - intros H. inversion H as [[Hr Hw]]; clear H.
    right; right. exists ckv, w1, req. split; [reflexivity|]. split; [reflexivity|].
    right. exists resp, s'. split; [exact Es|].
    apply checkResponse_Err. exact Hr.
  - intros H. inversion H; subst. right; right. exists ckv, w1, req.
    split; [reflexivity|]. split; [reflexivity|]. left. exists e0, s'.
    split; [exact Es | reflexivity].
Qed.

Lemma sign_errors_witness :
  fst (sign Mock.kms Mock.crypto (Mock.client "") (ctxCaller 1) [] SHA1 0
         (Mock.primed Mock.unpinnedRef
            (Mock.service EC_SIGN_P384_SHA384 "EC" Mock.goodResp)))
  = Err (errors_New "unsupported hash function") /\
  (getCKV Mock.kms Mock.crypto (Mock.client "")
     (Mock.primed Mock.unpinnedRef (Mock.service EC_SIGN_P384_SHA384 "EC" Mock.goodResp))
   = (Err (errors_New "unsupported hash function"),
      snd (sign Mock.kms Mock.crypto (Mock.client "") (ctxCaller 1) [] SHA1 0
             (Mock.primed Mock.unpinnedRef
                (Mock.service EC_SIGN_P384_SHA384 "EC" Mock.goodResp)))) \/
   supported_hash SHA1 = false).
Proof.
  pose (w := Mock.primed Mock.unpinnedRef
               (Mock.service EC_SIGN_P384_SHA384 "EC" Mock.goodResp)).
  assert (H : sign Mock.kms Mock.crypto (Mock.client "") (ctxCaller 1) [] SHA1 0 w
              = (Err (errors_New "unsupported hash function"),
                 snd (sign Mock.kms Mock.crypto (Mock.client "") (ctxCaller 1) []
                        SHA1 0 w)))
    by (vm_compute; reflexivity).
  split; [vm_compute; reflexivity|].
  destruct (sign_errors Mock.kms Mock.crypto (Mock.client "") (ctxCaller 1) [] SHA1 0 w
              _ _ H) as [H1|[(ckv & _ & H2 & _)|(ckv & w1 & req & _ & _ & _)]].
  - left. exact H1.
  - right. exact H2.
  - right. reflexivity.
Defined.

(** X13.  After a successful read of the cache, [sign] with SHA-256,
    SHA-384 or SHA-512 makes exactly one signing call, whatever follows: with
    the caller's context, addressed to the name of the cached version, with
    the digest bytes unchanged under the field of that hash function.  With
    any other hash function it returns [unsupported hash function] and makes
    no call at all. *)
Theorem sign_request :
  forall {S R : Type} (kms : KMS S) (crypto : Crypto R) g ctx digest alg crc
         (w : World S) ckv w1,
    getCKV kms crypto g w = (Ok ckv, w1) ->
    (supported_hash alg = true ->
     trace (snd (sign kms crypto g ctx digest alg crc w))
     = trace w1
       ++ [EvAsymmetricSign ctx
             {| req_Name := kv_Name (CryptoKeyVersion ckv);
                req_Digest := digestFor alg digest;
                req_DigestCrc32C := if crc =? 0 then None else Some crc |}]) /\
    (supported_hash alg = false ->
     sign kms crypto g ctx digest alg crc w
     = (Err (errors_New "unsupported hash function"), w1)).
Proof.
  intros S R kms crypto g ctx digest alg crc w ckv w1 Hc.
  unfold sign, bind, wrap, call, throw. rewrite Hc. rewrite signRequest_spec.
  split; intros ->; [|reflexivity].
  match goal with
  | |- context [AsymmetricSign kms ctx ?r (svc w1)] =>
      destruct (AsymmetricSign kms ctx r (svc w1)) as [[resp|e0] s']
  end; reflexivity.
Qed.

Lemma sign_request_witness :
  supported_hash SHA384 = true /\
  List.skipn 6
    (trace (snd (sign Mock.kms Mock.crypto (Mock.client "") (ctxCaller 1) [x0a; x0b]
                   SHA384 0
                   (Mock.primed Mock.unpinnedRef
                      (Mock.service EC_SIGN_P384_SHA384 "EC" Mock.goodResp)))))
  = [EvAsymmetricSign (ctxCaller 1)
       {| req_Name := Mock.versionName "1"; req_Digest := Digest_Sha384 [x0a; x0b];
          req_DigestCrc32C := None |}] /\
  supported_hash MD5 = false /\
  fst (sign Mock.kms Mock.crypto (Mock.client "") (ctxCaller 1) [x0a; x0b] MD5 0
         (Mock.primed Mock.unpinnedRef
            (Mock.service EC_SIGN_P384_SHA384 "EC" Mock.goodResp)))
  = Err (errors_New "unsupported hash function").
Proof.
  pose (w := Mock.primed Mock.unpinnedRef
               (Mock.service EC_SIGN_P384_SHA384 "EC" Mock.goodResp)).
  pose (ckv := {| CryptoKeyVersion := Mock.enabled "1" EC_SIGN_P384_SHA384;
                  ckv_SignerVerifier :=
                    ECDSASignerVerifier
                      {| ecdsa_PublicKey_of := Mock.ecKey; ecdsa_D := None |} SHA384;
                  HashFunc := SHA384 |}).
  assert (Hc : getCKV Mock.kms Mock.crypto (Mock.client "") w
               = (Ok ckv, snd (getCKV Mock.kms Mock.crypto (Mock.client "") w)))
    by (vm_compute; reflexivity).
  split; [reflexivity|]. split; [|split; [reflexivity|]].
  - pose proof (proj1 (sign_request Mock.kms Mock.crypto (Mock.client "") (ctxCaller 1)
                         [x0a; x0b] SHA384 0 w ckv _ Hc) eq_refl) as H.
    unfold w in H. rewrite H. vm_compute. reflexivity.
  - pose proof (proj2 (sign_request Mock.kms Mock.crypto (Mock.client "") (ctxCaller 1)
                         [x0a; x0b] MD5 0 w ckv _ Hc) eq_refl) as H.
    unfold w in H. rewrite H. reflexivity.
Defined.

(** X14.  A response whose claimed signature checksum is negative or not
    below 2^32 is never accepted: once the request check has passed, [sign]
    returns [ResponseCorrupted] whatever the signature bytes are. *)
Theorem sign_rejects_checksum_out_of_range :
  forall {S R : Type} (kms : KMS S) (crypto : Crypto R) g ctx digest alg crc
         (w : World S) ckv w1 req resp s' claimed,
    getCKV kms crypto g w = (Ok ckv, w1) ->
    signRequest (kv_Name (CryptoKeyVersion ckv)) digest alg crc = Some req ->
    AsymmetricSign kms ctx req (svc w1) = (ok resp, s') ->
    crc = 0 \/ resp_VerifiedDigestCrc32C resp = true ->
    resp_SignatureCrc32C resp = Some claimed ->
    claimed < 0 \/ 2 ^ 32 <= claimed ->
    fst (sign kms crypto g ctx digest alg crc w) = Err ResponseCorrupted.
Proof.
  intros S R kms crypto g ctx digest alg crc w ckv w1 req resp s' claimed
         Hc Hr Hs Hq Hsum Hrange.
  rewrite (sign_after_dispatch kms crypto g ctx digest alg crc w ckv w1 req resp s' Hc Hr Hs).
  simpl. rewrite (checkResponse_request_ok crc resp Hq), Hsum.
  pose proof (Checksum_range (resp_Signature resp)) as Hb.
  destruct (Z.eqb_spec (crc32.Checksum (resp_Signature resp)
                          (crc32.MakeTable crc32.Castagnoli)) claimed) as [E|E];
    [lia | reflexivity].
Qed.

Lemma sign_rejects_checksum_out_of_range_witness :
  (-1 < 0 \/ 2 ^ 32 <= -1) /\
  fst (sign Mock.kms Mock.crypto (Mock.client "") (ctxCaller 1) [] SHA256 0
         (Mock.primed Mock.unpinnedRef
            (Mock.service EC_SIGN_P384_SHA384 "EC"
               {| resp_Signature := Mock.sig0; resp_SignatureCrc32C := Some (-1);
                  resp_VerifiedDigestCrc32C := true |})))
  = Err ResponseCorrupted.
Proof.
  pose (neg := {| resp_Signature := Mock.sig0; resp_SignatureCrc32C := Some (-1);
                  resp_VerifiedDigestCrc32C := true |}).
  pose (st := Mock.service EC_SIGN_P384_SHA384 "EC" neg).
  pose (w := Mock.primed Mock.unpinnedRef st).
  pose (ckv := {| CryptoKeyVersion := Mock.enabled "1" EC_SIGN_P384_SHA384;
                  ckv_SignerVerifier :=
                    ECDSASignerVerifier
                      {| ecdsa_PublicKey_of := Mock.ecKey; ecdsa_D := None |} SHA384;
                  HashFunc := SHA384 |}).
  assert (Hc : getCKV Mock.kms Mock.crypto (Mock.client "") w
               = (Ok ckv, snd (getCKV Mock.kms Mock.crypto (Mock.client "") w)))
    by (vm_compute; reflexivity).
  assert (Hr : -1 < 0 \/ 2 ^ 32 <= -1) by (left; reflexivity).
  split; [exact Hr|].
  exact (sign_rejects_checksum_out_of_range Mock.kms Mock.crypto (Mock.client "")
           (ctxCaller 1) [] SHA256 0 w ckv _
           {| req_Name := Mock.versionName "1"; req_Digest := Digest_Sha256 [];
              req_DigestCrc32C := None |} neg st (-1)
           Hc eq_refl eq_refl (or_introl eq_refl) eq_refl Hr).
Defined.

(** ** Verification *)

Lemma resolver_calls_uncounted ctx l :
  Forall (resolver_call ctx) l ->
  List.filter is_verify l = [] /\ List.filter is_remove l = [] /\
  List.filter is_loader l = [].
Proof.
  induction 1 as [|e l He _ (I1 & I2 & I3)]; [auto|].
  destruct e; simpl in He; try contradiction; simpl; auto.
Qed.

(** A read of the cache verifies nothing, removes nothing and runs the
    loader at most once. *)
Lemma getCKV_counts {S R : Type} (kms : KMS S) (crypto : Crypto R) g (w : World S) r w' :
  getCKV kms crypto g w = (r, w') ->
  exists ext,
    trace w' = trace w ++ ext /\
    List.filter is_verify ext = [] /\ List.filter is_remove ext = [] /\
    (length (List.filter is_loader ext) <= 1)%nat.
Proof.
  intros H. apply getCKV_frame in H as [_ [(it & c' & _ & _ & _ & _ & Ht)
                                          | (c' & n & ext & _ & Ht & Hf)]].
  - eexists. split; [exact Ht|]. simpl. auto.
  - eexists. split; [exact Ht|].
    apply resolver_calls_uncounted in Hf as (F1 & F2 & F3).
    simpl. rewrite F1, F2, F3. simpl. auto.
Qed.

(** X15.  One [verify] call makes at most two verification attempts,
    removes the cached entry at most once and runs the loader at most twice;
    on a pinned client it makes at most one attempt, never removes the entry
    and runs the loader at most once. *)
Theorem verify_bounds :
  forall {S R : Type} (kms : KMS S) (crypto : Crypto R) g sig message opts (w : World S),
    exists ext,
      trace (snd (verify kms crypto g sig message opts w)) = trace w ++ ext /\
      (length (List.filter is_verify ext) <= if pinned g then 1 else 2)%nat /\
      (length (List.filter is_remove ext) <= if pinned g then 0 else 1)%nat /\
      (length (List.filter is_loader ext) <= if pinned g then 1 else 2)%nat.
Proof.
  intros S R kms crypto g sig message opts w.
  unfold verify, wrap, verifySignature, pinned.
  destruct (getCKV kms crypto g w) as [r1 w1] eqn:E1.
  apply getCKV_counts in E1 as (ext1 & Ht1 & V1 & R1 & L1).
  assert (B : forall b : bool, (0 <= if b then 1 else 2)%nat /\ (1 <= if b then 1 else 2)%nat)
    by (intros []; lia).
  destruct r1 as [crv|e|m].
  2, 3: (exists ext1; cbn [snd]; split; [exact Ht1|]; rewrite V1, R1; cbn [length];
         destruct (negb (String.eqb (version g) "")); lia).
  destruct (VerifySignature crypto (ckv_SignerVerifier crv) sig message opts)
    as [[e|] [sig' message']].
  2: { exists (ext1 ++ [EvVerifySignature (ckv_SignerVerifier crv)]). cbn [snd].
       split; [simpl; rewrite Ht1, <- app_assoc; reflexivity|].
       rewrite !List.filter_app, !length_app, V1, R1. simpl.
       destruct (negb (String.eqb (version g) "")); lia. }
  destruct (String.eqb (version g) "") eqn:Ev; cbn [negb].
  2: { exists (ext1 ++ [EvVerifySignature (ckv_SignerVerifier crv)]). cbn [snd].
       split; [simpl; rewrite Ht1, <- app_assoc; reflexivity|].
       rewrite !List.filter_app, !length_app, V1, R1. simpl. lia. }
  destruct (getCKV kms crypto g _) as [r2 w4] eqn:E2.
  apply getCKV_counts in E2 as (ext2 & Ht2 & V2 & R2 & L2). simpl in Ht2.
  assert (T2 : trace w4 = trace w ++ ext1
                 ++ [EvVerifySignature (ckv_SignerVerifier crv); EvCacheRemove CacheKey]
                 ++ ext2).
  { rewrite Ht2, Ht1. rewrite <- !app_assoc. reflexivity. }
  destruct r2 as [crv'|e'|m].
  2, 3: (eexists; cbn [snd]; split; [exact T2|];
         rewrite !List.filter_app, !length_app, V1, R1, V2, R2; simpl; lia).
  exists ((ext1 ++ [EvVerifySignature (ckv_SignerVerifier crv); EvCacheRemove CacheKey]
            ++ ext2) ++ [EvVerifySignature (ckv_SignerVerifier crv')]).
  split.
  - destruct (VerifySignature crypto (ckv_SignerVerifier crv') sig' message' opts)
      as [[e2|] rs2]; cbn [snd]; simpl; rewrite T2; rewrite <- !app_assoc; reflexivity.
  - rewrite !List.filter_app, !length_app, V1, R1, V2, R2. simpl. lia.
Qed.

(** X16.  What [verify] returns, and why.  It returns nil in two cases
    only: the verifier read from the cache accepted the caller's signature
    and message; or, on an unpinned client, that verifier rejected them, the
    cached entry was removed, and the verifier read from the cache after the
    removal accepted the two readers as the first attempt left them.  An
    error is the failure of the first read of the cache, wrapped as a
    transient error, with the readers unread; or, on a pinned client, the
    failure of the first attempt wrapped as
    [failed to verify for fixed version]; or, on an unpinned client whose
    first attempt failed, either the failure of the read after the removal,
    wrapped as a transient error, or the failure of the second attempt,
    returned as the verifier gave it.  A panic is that of one of the two
    reads of the cache.  In each case the world is the one that step left. *)
Theorem verify_outcomes :
  forall {S R : Type} (kms : KMS S) (crypto : Crypto R) g sig message opts
         (w : World S) r rs w',
    verify kms crypto g sig message opts w = (r, rs, w') ->
    match r with
    | Ok _ =>
        exists crv w1,
          getCKV kms crypto g w = (Ok crv, w1) /\
          ((VerifySignature crypto (ckv_SignerVerifier crv) sig message opts = (None, rs) /\
            w' = log (EvVerifySignature (ckv_SignerVerifier crv)) w1) \/
           (pinned g = false /\
            exists e1 sig' message' crv' w4,
              VerifySignature crypto (ckv_SignerVerifier crv) sig message opts
              = (Some e1, (sig', message')) /\
              getCKV kms crypto g
                (cache_Remove CacheKey
                   (log (EvVerifySignature (ckv_SignerVerifier crv)) w1))
              = (Ok crv', w4) /\
              VerifySignature crypto (ckv_SignerVerifier crv') sig' message' opts
              = (None, rs) /\
              w' = log (EvVerifySignature (ckv_SignerVerifier crv')) w4))
    | Err e =>
        (exists e0,
           getCKV kms crypto g w = (Err e0, w') /\
           e = errors_Wrap e0 "transient error getting info from KMS" /\
           rs = (sig, message)) \/
        (exists crv w1 e1 sig' message',
           getCKV kms crypto g w = (Ok crv, w1) /\
           VerifySignature crypto (ckv_SignerVerifier crv) sig message opts
           = (Some e1, (sig', message')) /\
           ((pinned g = true /\
             e = errors_Wrap e1 "failed to verify for fixed version" /\
             rs = (sig', message') /\
             w' = log (EvVerifySignature (ckv_SignerVerifier crv)) w1) \/
            (pinned g = false /\
             exists e0,
               getCKV kms crypto g
                 (cache_Remove CacheKey
                    (log (EvVerifySignature (ckv_SignerVerifier crv)) w1))
               = (Err e0, w') /\
               e = errors_Wrap e0 "transient error getting info from KMS" /\
               rs = (sig', message')) \/
            (pinned g = false /\
             exists crv' w4,
               getCKV kms crypto g
                 (cache_Remove CacheKey
                    (log (EvVerifySignature (ckv_SignerVerifier crv)) w1))
               = (Ok crv', w4) /\
               VerifySignature crypto (ckv_SignerVerifier crv') sig' message' opts
               = (Some e, rs) /\
               w' = log (EvVerifySignature (ckv_SignerVerifier crv')) w4)))
    | Panic msg =>
        (getCKV kms crypto g w = (Panic msg, w') /\ rs = (sig, message)) \/
        (pinned g = false /\
         exists crv w1 e1 sig' message',
           getCKV kms crypto g w = (Ok crv, w1) /\
           VerifySignature crypto (ckv_SignerVerifier crv) sig message opts
           = (Some e1, (sig', message')) /\
           getCKV kms crypto g
             (cache_Remove CacheKey
                (log (EvVerifySignature (ckv_SignerVerifier crv)) w1))
           = (Panic msg, w') /\
           rs = (sig', message'))
    end.
Proof.
  intros S R kms crypto g sig message opts w r rs w'.
  unfold verify, wrap, verifySignature, pinned.
  destruct (getCKV kms crypto g w) as [[crv|e|m] w1] eqn:E0.
  2: { intros H; inversion H; subst. left. exists e. auto. }
  2: { intros H; inversion H; subst. left. auto. }
  destruct (VerifySignature crypto (ckv_SignerVerifier crv) sig message opts)
    as [[e|] [sig' message']] eqn:E1.
  2: { intros H; inversion H; subst. exists crv, w1. split; [reflexivity|]. left. auto. }
  destruct (String.eqb (version g) "") eqn:Ev; cbn [negb].
  2: { intros H; inversion H; subst. right. exists crv, w1, e, sig', message'.
       split; [reflexivity|]. split; [exact E1|]. left. auto. }
  destruct (getCKV kms crypto g
              (cache_Remove CacheKey
                 (log (EvVerifySignature (ckv_SignerVerifier crv)) w1)))
    as [[crv'|e'|m] w4] eqn:E2.
  2: { intros H; inversion H; subst. right. exists crv, w1, e, sig', message'.
       split; [reflexivity|]. split; [exact E1|]. right; left.
       split; [reflexivity|]. exists e'. auto. }
  2: { intros H; inversion H; subst. right. split; [reflexivity|].
       exists crv, w1, e, sig', message'. auto. }
  destruct (VerifySignature crypto (ckv_SignerVerifier crv') sig' message' opts)
    as [[e2|] rs2] eqn:E3; intros H; inversion H; subst.
  - right. exists crv, w1, e, sig', message'.
    split; [reflexivity|]. split; [exact E1|]. right; right.
    split; [reflexivity|]. exists crv', w4. auto.
  - exists crv, w1. split; [reflexivity|]. right. split; [reflexivity|].
    exists e, sig', message', crv', w4. auto.
Qed.

Lemma verify_outcomes_witness :
  verify Mock.kms Mock.crypto (Mock.client "") [x05] [x06] []
    (Mock.primed Mock.unpinnedRef (Mock.service EC_SIGN_P384_SHA384 "EC" Mock.goodResp))
  = (Err (errors_New "invalid signature"), ([], []),
     snd (verify Mock.kms Mock.crypto (Mock.client "") [x05] [x06] []
            (Mock.primed Mock.unpinnedRef
               (Mock.service EC_SIGN_P384_SHA384 "EC" Mock.goodResp)))) /\
  exists crv w1 e1 sig' message',
    getCKV Mock.kms Mock.crypto (Mock.client "")
      (Mock.primed Mock.unpinnedRef (Mock.service EC_SIGN_P384_SHA384 "EC" Mock.goodResp))
    = (Ok crv, w1) /\
    VerifySignature Mock.crypto (ckv_SignerVerifier crv) [x05] [x06] []
    = (Some e1, (sig', message')) /\
    sig' = [] /\ message' = [] /\
    exists crv' w4,
      getCKV Mock.kms Mock.crypto (Mock.client "")
        (cache_Remove CacheKey (log (EvVerifySignature (ckv_SignerVerifier crv)) w1))
      = (Ok crv', w4) /\
      VerifySignature Mock.crypto (ckv_SignerVerifier crv') sig' message' []
      = (Some (errors_New "invalid signature"), ([], [])).
Proof.
  assert (H : verify Mock.kms Mock.crypto (Mock.client "") [x05] [x06] []
                (Mock.primed Mock.unpinnedRef
                   (Mock.service EC_SIGN_P384_SHA384 "EC" Mock.goodResp))
              = (Err (errors_New "invalid signature"), ([], []),
                 snd (verify Mock.kms Mock.crypto (Mock.client "") [x05] [x06] []
                        (Mock.primed Mock.unpinnedRef
                           (Mock.service EC_SIGN_P384_SHA384 "EC" Mock.goodResp)))))
    by (vm_compute; reflexivity).
  split; [exact H|].
  destruct (verify_outcomes Mock.kms Mock.crypto (Mock.client "") [x05] [x06] [] _ _ _ _ H)
    as [(e0 & _ & He & _) | (crv & w1 & e1 & sig' & message' & Hc & Hv & Hcase)];
    [discriminate He|].
  exists crv, w1, e1, sig', message'. split; [exact Hc|]. split; [exact Hv|].
  assert (Hs : sig' = [] /\ message' = []).
  { cbn in Hv. inversion Hv. auto. }
  split; [exact (proj1 Hs)|]. split; [exact (proj2 Hs)|].
  destruct Hcase as [(Hp & _) | [(_ & e0 & _ & He & _) | (_ & crv' & w4 & Hc' & Hv' & _)]].
  - discriminate Hp.
  - discriminate He.
  - exists crv', w4. split; [exact Hc' | exact Hv'].
Defined.

(** X17.  When the read of the cache fails, no operation goes on: [sign]
    and [getHashFunc] return the error as it is, and [sign] makes no signing
    call; [public] and [verify] return it wrapped as a transient error, and
    [verify] attempts no verification and leaves the readers unread. *)
Theorem cache_failure_stops_operations :
  forall {S R : Type} (kms : KMS S) (crypto : Crypto R) g (w : World S) e w1,
    getCKV kms crypto g w = (Err e, w1) ->
    (forall ctx digest alg crc,
       sign kms crypto g ctx digest alg crc w = (Err e, w1)) /\
    getHashFunc kms crypto g w = (Err e, w1) /\
    (forall ctx,
       public kms crypto g ctx w
       = (Err (errors_Wrap e "transient error getting info from KMS"), w1)) /\
    (forall sig message opts,
       verify kms crypto g sig message opts w
       = (Err (errors_Wrap e "transient error getting info from KMS"),
          (sig, message), w1)).
Proof.
  intros S R kms crypto g w e w1 H.
  unfold sign, getHashFunc, public, verify, bind, wrap. rewrite H.
  repeat split.
Qed.

Lemma cache_failure_stops_operations_witness :
  getCKV Mock.kms Mock.crypto (Mock.client "") (Mock.world Mock.emptyRing)
  = (Err Mock.NotFound,
     snd (getCKV Mock.kms Mock.crypto (Mock.client "") (Mock.world Mock.emptyRing))) /\
  fst (sign Mock.kms Mock.crypto (Mock.client "") (ctxCaller 1) [] SHA256 0
         (Mock.world Mock.emptyRing))
  = Err Mock.NotFound /\
  fst (public Mock.kms Mock.crypto (Mock.client "") (ctxCaller 1)
         (Mock.world Mock.emptyRing))
  = Err (errors_Wrap Mock.NotFound "transient error getting info from KMS").
Proof.
  assert (H : getCKV Mock.kms Mock.crypto (Mock.client "") (Mock.world Mock.emptyRing)
              = (Err Mock.NotFound,
                 snd (getCKV Mock.kms Mock.crypto (Mock.client "")
                        (Mock.world Mock.emptyRing))))
    by (vm_compute; reflexivity).
  destruct (cache_failure_stops_operations Mock.kms Mock.crypto (Mock.client "")
              (Mock.world Mock.emptyRing) _ _ H) as (Hs & _ & Hp & _).
  split; [exact H|]. split.
  - rewrite (Hs (ctxCaller 1) [] SHA256 0). reflexivity.
  - rewrite (Hp (ctxCaller 1)). reflexivity.
Defined.

(** ** Provisioning *)

Lemma createKeyRing_no_panic {S : Type} (kms : KMS S) g ctx (w : World S) :
  forall msg, fst (createKeyRing kms g ctx w) <> Panic msg.
Proof.
  intros msg. unfold createKeyRing, call.
  destruct (GetKeyRing kms ctx (keyRingPath g) (svc w)) as [[k|e] s1]; simpl;
    [discriminate|].
  destruct (CreateKeyRing kms ctx _ s1) as [[k|e2] s2]; discriminate.
Qed.

Lemma public_Err {S R : Type} (kms : KMS S) (crypto : Crypto R) g ctx (w : World S) e w' :
  public kms crypto g ctx w = (Err e, w') ->
  exists e0,
    getCKV kms crypto g w = (Err e0, w') /\
    e = errors_Wrap e0 "transient error getting info from KMS".
Proof.
  unfold public, bind, wrap, ret.
  destruct (getCKV kms crypto g w) as [[c|e1|m] w1]; intros H; inversion H. eauto.
Qed.

Lemma public_Ok {S R : Type} (kms : KMS S) (crypto : Crypto R) g ctx (w : World S) pk w' :
  public kms crypto g ctx w = (Ok pk, w') ->
  exists ckv,
    getCKV kms crypto g w = (Ok ckv, w') /\
    pk = SignerVerifier_PublicKey (ckv_SignerVerifier ckv).
Proof.
  unfold public, bind, wrap, ret.
  destruct (getCKV kms crypto g w) as [[c|e1|m] w1]; intros H; inversion H. eauto.
Qed.

(** X18.  Every error [createKey] returns has one of four causes, and the
    cause decides it.  The key ring was not found and its creation failed:
    the creation error wrapped as [creating key ring].  The key ring step
    succeeded, the key was not found and the name is outside the table:
    [unknown algorithm requested].  The key ring step succeeded, the key was
    not found, the name is in the table and the creation of the key with the
    native algorithm of the name failed: the creation error wrapped as
    [creating crypto key].  The key was found or has been created and the
    read of the cache that [public] makes failed: that error wrapped as a
    transient error.  The failures of the two lookups only select the path:
    neither is part of a returned error. *)
Theorem createKey_errors :
  forall {S R : Type} (kms : KMS S) (crypto : Crypto R) g ctx name (w : World S) e w',
    createKey kms crypto g ctx name w = (Err e, w') ->
    (exists e0 e1 s1 s2,
       GetKeyRing kms ctx (keyRingPath g) (svc w) = (err e0, s1) /\
       CreateKeyRing kms ctx
         {| ckr_Parent := locationPath g; ckr_KeyRingId := keyRing g |} s1
       = (err e1, s2) /\
       e = errors_Wrap e1 "creating key ring" /\
       createKeyRing kms g ctx w = (Err e1, w')) \/
    (exists w1,
       createKeyRing kms g ctx w = (Ok tt, w1) /\
       ((exists e0 s2,
           GetCryptoKey kms ctx (keyPath g) (svc w1) = (err e0, s2) /\
           algorithmMap !! name = None /\
           e = UnsupportedAlgorithm_requested /\
           w' = mkWorld s2 (kvCache w1) (now w1)
                  (trace w1 ++ [EvGetCryptoKey ctx (keyPath g)])) \/
        (exists e0 s2 native e1 s3,
           GetCryptoKey kms ctx (keyPath g) (svc w1) = (err e0, s2) /\
           algorithmMap !! name = Some native /\
           CreateCryptoKey kms ctx
             {| cck_Parent := keyRingPath g; cck_CryptoKeyId := keyName g;
                cck_Purpose := ASYMMETRIC_SIGN; cck_Algorithm := native |} s2
           = (err e1, s3) /\
           e = errors_Wrap e1 "creating crypto key" /\
           w' = mkWorld s3 (kvCache w1) (now w1)
                  (trace w1
                   ++ [EvGetCryptoKey ctx (keyPath g);
                       EvCreateCryptoKey ctx
                         {| cck_Parent := keyRingPath g; cck_CryptoKeyId := keyName g;
                            cck_Purpose := ASYMMETRIC_SIGN;
                            cck_Algorithm := native |}])) \/
        (exists w2 e1,
           ((exists key s2,
               GetCryptoKey kms ctx (keyPath g) (svc w1) = (ok key, s2) /\
               w2 = mkWorld s2 (kvCache w1) (now w1)
                      (trace w1 ++ [EvGetCryptoKey ctx (keyPath g)])) \/
            (exists e0 s2 native key s3,
               GetCryptoKey kms ctx (keyPath g) (svc w1) = (err e0, s2) /\
               algorithmMap !! name = Some native /\
               CreateCryptoKey kms ctx
                 {| cck_Parent := keyRingPath g; cck_CryptoKeyId := keyName g;
                    cck_Purpose := ASYMMETRIC_SIGN; cck_Algorithm := native |} s2
               = (ok key, s3) /\
               w2 = mkWorld s3 (kvCache w1) (now w1)
                      (trace w1
                       ++ [EvGetCryptoKey ctx (keyPath g);
                           EvCreateCryptoKey ctx
                             {| cck_Parent := keyRingPath g;
                                cck_CryptoKeyId := keyName g;
                                cck_Purpose := ASYMMETRIC_SIGN;
                                cck_Algorithm := native |}]))) /\
           getCKV kms crypto g w2 = (Err e1, w') /\
           e = errors_Wrap e1 "transient error getting info from KMS"))).
Proof.
  intros S R kms crypto g ctx name w e w'.
  unfold createKey, bind, wrap.
  destruct (createKeyRing kms g ctx w) as [r1 w1] eqn:E1.
  destruct r1 as [[]|e1|m].
  3: { intros H; discriminate H. }
  2: { intros H; inversion H; subst. left. revert E1. unfold createKeyRing, call.
       destruct (GetKeyRing kms ctx (keyRingPath g) (svc w)) as [[k|e0] s1]; simpl;
         [intros E; discriminate E|].
       destruct (CreateKeyRing kms ctx _ s1) as [[k|e2] s2] eqn:E2; simpl;
         intros E; inversion E; subst. exists e0, e1, s1, s2. auto. }
  intros H. right. exists w1. split; [reflexivity|]. revert H. unfold call.
  destruct (GetCryptoKey kms ctx (keyPath g) (svc w1)) as [[k|e0] s2] eqn:EK;
    cbv beta iota.
  - intros H. apply public_Err in H as (e1 & Hg & He).
    right; right. eexists _, e1. split; [|split; [exact Hg | exact He]].
    left. exists k, s2. auto.
  - destruct (algorithmMap !! name) as [native|] eqn:En.
    + unfold bind, wrap, call.
      destruct (CreateCryptoKey kms ctx _ _) as [[k|e2] s3] eqn:EC; cbv beta iota.
      * intros H. apply public_Err in H as (e1 & Hg & He).
        right; right. eexists _, e1. split; [|split; [exact Hg | exact He]].
        right. exists e0, s2, native, k, s3. cbn [svc kvCache now trace] in *.
        split; [reflexivity|]. split; [reflexivity|]. split; [exact EC|].
        rewrite <- app_assoc. reflexivity.
      * intros H; inversion H; subst. right; left.
        exists e0, s2, native, e2, s3. cbn [svc kvCache now trace] in *.
        split; [reflexivity|]. split; [reflexivity|]. split; [exact EC|].
        split; [reflexivity|]. rewrite <- app_assoc. reflexivity.
    + intros H; inversion H; subst. left. exists e0, s2. auto.
Qed.

Lemma createKey_errors_witness :
  createKey readonly_kms Mock.crypto (Mock.client "") (ctxCaller 1) "ecdsa-p384-sha384"
    (Mock.world Mock.emptyRing)
  = (Err (errors_Wrap (errors_New "rpc error: code = PermissionDenied")
            "creating crypto key"),
     snd (createKey readonly_kms Mock.crypto (Mock.client "") (ctxCaller 1)
            "ecdsa-p384-sha384" (Mock.world Mock.emptyRing))) /\
  exists w1 e0 s2 e1 s3,
    createKeyRing readonly_kms (Mock.client "") (ctxCaller 1) (Mock.world Mock.emptyRing)
    = (Ok tt, w1) /\
    GetCryptoKey readonly_kms (ctxCaller 1) (keyPath (Mock.client "")) (svc w1)
    = (err e0, s2) /\
    algorithmMap !! "ecdsa-p384-sha384" = Some EC_SIGN_P384_SHA384 /\
    CreateCryptoKey readonly_kms (ctxCaller 1)
      {| cck_Parent := keyRingPath (Mock.client ""); cck_CryptoKeyId := "k";
         cck_Purpose := ASYMMETRIC_SIGN; cck_Algorithm := EC_SIGN_P384_SHA384 |} s2
    = (err e1, s3) /\
    errors_Wrap (errors_New "rpc error: code = PermissionDenied") "creating crypto key"
    = errors_Wrap e1 "creating crypto key".
Proof.
  assert (H : createKey readonly_kms Mock.crypto (Mock.client "") (ctxCaller 1)
                "ecdsa-p384-sha384" (Mock.world Mock.emptyRing)
              = (Err (errors_Wrap (errors_New "rpc error: code = PermissionDenied")
                        "creating crypto key"),
                 snd (createKey readonly_kms Mock.crypto (Mock.client "") (ctxCaller 1)
                        "ecdsa-p384-sha384" (Mock.world Mock.emptyRing))))
    by (vm_compute; reflexivity).
  assert (Hn : algorithmMap !! "ecdsa-p384-sha384" = Some EC_SIGN_P384_SHA384)
    by (vm_compute; reflexivity).
  split; [exact H|].
  destruct (createKey_errors readonly_kms Mock.crypto (Mock.client "") (ctxCaller 1)
              "ecdsa-p384-sha384" (Mock.world Mock.emptyRing) _ _ H)
    as [(e0 & e1 & s1 & s2 & _ & _ & He & _)
       | (w1 & Hr & [(e0 & s2 & _ & _ & He & _)
                    | [(e0 & s2 & native & e1 & s3 & Hk & Hm & Hc & He & _)
                      | (w2 & e1 & _ & _ & He)]])];
    try discriminate He.
  rewrite Hn in Hm. inversion Hm; subst native.
  exists w1, e0, s2, e1, s3. auto.
Defined.



(** X20.  When the key ring step succeeds, the key is not there and the
    name is in the table, [createKey] asks for a key under the key ring's
    path, with the client's key name, the asymmetric-signing purpose and the
    native algorithm of the name.  A failure is returned wrapped as
    [creating crypto key]; after a success the result is what [public]
    returns, not anything read from the answer. *)
Theorem createKey_creates :
  forall {S R : Type} (kms : KMS S) (crypto : Crypto R) g ctx name (w : World S)
         w1 e s2 native,
    createKeyRing kms g ctx w = (Ok tt, w1) ->
    GetCryptoKey kms ctx (keyPath g) (svc w1) = (err e, s2) ->
    algorithmMap !! name = Some native ->
    createKey kms crypto g ctx name w
    = match CreateCryptoKey kms ctx
              {| cck_Parent := keyRingPath g; cck_CryptoKeyId := keyName g;
                 cck_Purpose := ASYMMETRIC_SIGN; cck_Algorithm := native |} s2 with
      | (ok _, s3) =>
          public kms crypto g ctx
            (mkWorld s3 (kvCache w1) (now w1)
               ((trace w1 ++ [EvGetCryptoKey ctx (keyPath g)])
                ++ [EvCreateCryptoKey ctx
                      {| cck_Parent := keyRingPath g; cck_CryptoKeyId := keyName g;
                         cck_Purpose := ASYMMETRIC_SIGN; cck_Algorithm := native |}]))
      | (err e', s3) =>
          (Err (errors_Wrap e' "creating crypto key"),
           mkWorld s3 (kvCache w1) (now w1)
             ((trace w1 ++ [EvGetCryptoKey ctx (keyPath g)])
              ++ [EvCreateCryptoKey ctx
                    {| cck_Parent := keyRingPath g; cck_CryptoKeyId := keyName g;
                       cck_Purpose := ASYMMETRIC_SIGN; cck_Algorithm := native |}]))
      end.
Proof.
  intros S R kms crypto g ctx name w w1 e s2 native Hr Hk Hn.
  unfold createKey, bind, wrap, call. rewrite Hr. cbv beta iota. rewrite Hk.
  cbv beta iota. rewrite Hn. cbn [svc].
  destruct (CreateCryptoKey kms ctx _ s2) as [[k|e'] s3]; reflexivity.
Qed.

Lemma createKey_creates_witness :
  algorithmMap !! "rsa-pss-2048-sha256" = Some RSA_SIGN_PSS_2048_SHA256 /\
  List.filter is_create_key
    (trace (snd (createKey Mock.kms Mock.crypto (Mock.client "") (ctxCaller 1)
                   "rsa-pss-2048-sha256"
                   (mkWorld Mock.emptyRing ttlcache.NewCache 0 []))))
  = [EvCreateCryptoKey (ctxCaller 1)
       {| cck_Parent := "projects/p/locations/l/keyRings/r"; cck_CryptoKeyId := "k";
          cck_Purpose := ASYMMETRIC_SIGN; cck_Algorithm := RSA_SIGN_PSS_2048_SHA256 |}].
Proof.
  assert (Hn : algorithmMap !! "rsa-pss-2048-sha256" = Some RSA_SIGN_PSS_2048_SHA256)
    by (vm_compute; reflexivity).
  split; [exact Hn|].
  rewrite (createKey_creates Mock.kms Mock.crypto (Mock.client "") (ctxCaller 1)
             "rsa-pss-2048-sha256" (mkWorld Mock.emptyRing ttlcache.NewCache 0 [])
             (mkWorld Mock.emptyRing ttlcache.NewCache 0
                [EvGetKeyRing (ctxCaller 1) "projects/p/locations/l/keyRings/r"])
             Mock.NotFound Mock.emptyRing RSA_SIGN_PSS_2048_SHA256
             eq_refl eq_refl Hn).
  vm_compute. reflexivity.
Defined.

(** X21.  A public key that [createKey] returns is the public key of the
    verifier in the resolved version the cache gave at the end of the call;
    it is read through the cache, also right after a key was created. *)
Theorem createKey_returns_cached_key :
  forall {S R : Type} (kms : KMS S) (crypto : Crypto R) g ctx name (w : World S) pk w',
    createKey kms crypto g ctx name w = (Ok pk, w') ->
    exists w2 ckv,
      getCKV kms crypto g w2 = (Ok ckv, w') /\
      kvCache w2 = kvCache w /\ now w2 = now w /\
      pk = SignerVerifier_PublicKey (ckv_SignerVerifier ckv).
Proof.
  intros S R kms crypto g ctx name w pk w'.
  unfold createKey, bind, wrap.
  destruct (createKeyRing kms g ctx w) as [r1 w1] eqn:E1.
  assert (F1 : kvCache w1 = kvCache w /\ now w1 = now w).
  { revert E1. unfold createKeyRing, call.
    destruct (GetKeyRing kms ctx (keyRingPath g) (svc w)) as [[k|e0] s1]; simpl.
    - intros E; inversion E; subst. auto.
    - destruct (CreateKeyRing kms ctx _ s1) as [[k|e2] s2]; simpl;
        intros E; inversion E; subst; auto. }
  destruct F1 as [Fc Fn].
  destruct r1 as [[]|e1|m]; try (intros H; discriminate H).
  unfold call.
  destruct (GetCryptoKey kms ctx (keyPath g) (svc w1)) as [[k|e0] s2]; cbv beta iota.
  - intros H. apply public_Ok in H as (ckv & Hc & Hpk).
    eexists _, ckv. split; [exact Hc|]. simpl. auto.
  - destruct (algorithmMap !! name) as [native|]; [|intros H; discriminate H].
    unfold bind, wrap, call.
    destruct (CreateCryptoKey kms ctx _ _) as [[k|e2] s3]; cbv beta iota;
      [|intros H; discriminate H].
    intros H. apply public_Ok in H as (ckv & Hc & Hpk).
    eexists _, ckv. split; [exact Hc|]. simpl. auto.
Qed.

Lemma createKey_returns_cached_key_witness :
  createKey Mock.kms Mock.crypto (Mock.client "") (ctxCaller 1) "ecdsa-p384-sha384"
    (Mock.primed Mock.unpinnedRef (Mock.service RSA_SIGN_PSS_2048_SHA256 "RSA" Mock.goodResp))
  = (Ok (PubRSA Mock.rsaKey),
     snd (createKey Mock.kms Mock.crypto (Mock.client "") (ctxCaller 1)
            "ecdsa-p384-sha384"
            (Mock.primed Mock.unpinnedRef
               (Mock.service RSA_SIGN_PSS_2048_SHA256 "RSA" Mock.goodResp)))) /\
  exists w2 ckv,
    getCKV Mock.kms Mock.crypto (Mock.client "") w2
    = (Ok ckv,
       snd (createKey Mock.kms Mock.crypto (Mock.client "") (ctxCaller 1)
              "ecdsa-p384-sha384"
              (Mock.primed Mock.unpinnedRef
                 (Mock.service RSA_SIGN_PSS_2048_SHA256 "RSA" Mock.goodResp)))) /\
    PubRSA Mock.rsaKey = SignerVerifier_PublicKey (ckv_SignerVerifier ckv).
Proof.
  assert (H : createKey Mock.kms Mock.crypto (Mock.client "") (ctxCaller 1)
                "ecdsa-p384-sha384"
                (Mock.primed Mock.unpinnedRef
                   (Mock.service RSA_SIGN_PSS_2048_SHA256 "RSA" Mock.goodResp))
              = (Ok (PubRSA Mock.rsaKey),
                 snd (createKey Mock.kms Mock.crypto (Mock.client "") (ctxCaller 1)
                        "ecdsa-p384-sha384"
                        (Mock.primed Mock.unpinnedRef
                           (Mock.service RSA_SIGN_PSS_2048_SHA256 "RSA" Mock.goodResp)))))
    by (vm_compute; reflexivity).
  split; [exact H|].
  destruct (createKey_returns_cached_key Mock.kms Mock.crypto (Mock.client "")
              (ctxCaller 1) "ecdsa-p384-sha384" _ _ _ H)
    as (w2 & ckv & Hc & _ & _ & Hpk).
  exists w2, ckv. split; [exact Hc | exact Hpk].
Defined.

(** ** The first operations after construction *)

Lemma newGCPClient_Ok_resolved {S R : Type} (kms : KMS S) (crypto : Crypto R)
    ctx ref (w0 : World S) g w1 :
  newGCPClient kms crypto ctx ref w0 = (Ok g, w1) ->
  g = clientOf ctx ref /\
  exists ckv w',
    keyVersionName kms crypto g ctxBackground (priming w0) = (Ok ckv, w') /\
    svc w1 = svc w' /\ trace w1 = trace w' /\
    holds (kvCache w1)
      {| ttlcache.data := ckv; ttlcache.ttl := loader_ttl g;
         ttlcache.expireAt := if pinned g then 0 else now w1 + 300 * Second |}.
Proof.
  unfold newGCPClient. intros H.
  destruct (ValidReference ref); [discriminate|].
  destruct (p_err (parseReference ref)); [discriminate|].
  destruct (NewKeyManagementClient kms _); [discriminate|].
  rewrite getCKV_unfold in H. cbn [kvCache now set_cache] in H.
  change (ttlcache.getItem (ttlcache.SkipTTLExtensionOnHit true ttlcache.NewCache)
            (now w0) CacheKey)
    with (@None ttlcache.item, ttlcache.SkipTTLExtensionOnHit true ttlcache.NewCache) in H.
  cbv iota beta in H. fold (clientOf ctx ref) in H.
  change (log (EvLoader CacheKey)
            (log (EvCacheGet CacheKey)
               (set_cache (ttlcache.SkipTTLExtensionOnHit true ttlcache.NewCache) w0)))
    with (priming w0) in H.
  destruct (keyVersionName kms crypto (clientOf ctx ref) ctxBackground (priming w0))
    as [r w'] eqn:E.
  pose proof (keyVersionName_frame kms crypto _ _ _ _ _ E) as (Hc & Hn & _).
  simpl in Hc, Hn.
  destruct r as [ckv|e|m]; [|discriminate|discriminate].
  inversion H; subst g w1; clear H. split; [reflexivity|].
  exists ckv, w'. split; [exact E|]. simpl. split; [reflexivity|].
  split; [reflexivity|]. rewrite Hc, Hn. apply SetWithTTL_fresh.
Qed.

(** X22.  Right after a successful construction the client answers from
    the version it resolved while being constructed: [getHashFunc] returns
    the hash function of that version's algorithm and [public] the public key
    of its verifier, each by one read of the cache and without any remote
    call. *)
Theorem construction_primes_operations :
  forall {S R : Type} (kms : KMS S) (crypto : Crypto R) ctx ref (w0 : World S) g w1,
    newGCPClient kms crypto ctx ref w0 = (Ok g, w1) ->
    exists ckv w',
      keyVersionName kms crypto g ctxBackground (priming w0) = (Ok ckv, w') /\
      hashFor (kv_Algorithm (CryptoKeyVersion ckv)) = Some (HashFunc ckv) /\
      getHashFunc kms crypto g w1
      = (Ok (HashFunc ckv),
         mkWorld (svc w1) (kvCache w1) (now w1) (trace w1 ++ [EvCacheGet CacheKey])) /\
      (forall c,
         public kms crypto g c w1
         = (Ok (SignerVerifier_PublicKey (ckv_SignerVerifier ckv)),
            mkWorld (svc w1) (kvCache w1) (now w1) (trace w1 ++ [EvCacheGet CacheKey]))).
Proof.
  intros S R kms crypto ctx ref w0 g w1 H.
  apply newGCPClient_Ok_resolved in H as (_ & ckv & w' & Hk & _ & _ & Hh).
  exists ckv, w'. split; [exact Hk|].
  pose proof (keyVersionName_Ok kms crypto _ _ _ _ _ Hk)
    as (s2 & pkr & pk & _ & _ & _ & Hf & _).
  split; [exact Hf|].
  assert (He : ttlcache.expired (now w1)
                 {| ttlcache.data := ckv; ttlcache.ttl := loader_ttl g;
                    ttlcache.expireAt := if pinned g then 0 else now w1 + 300 * Second |}
               = false).
  { unfold ttlcache.expired, loader_ttl. destruct (pinned g); simpl; [reflexivity|].
    apply Z.ltb_ge. unfold Second. lia. }
  pose proof (getCKV_hit kms crypto g w1 _ Hh He) as Hg. simpl in Hg.
  split.
  - unfold getHashFunc, bind, ret. rewrite Hg. reflexivity.
  - intros c. unfold public, bind, wrap, ret. rewrite Hg. reflexivity.
Qed.

Lemma construction_primes_operations_witness :
  newGCPClient Mock.kms Mock.crypto None Mock.unpinnedRef
    (Mock.world (Mock.service RSA_SIGN_PKCS1_4096_SHA512 "RSA" Mock.goodResp))
  = (Ok (Mock.client ""),
     Mock.primed Mock.unpinnedRef
       (Mock.service RSA_SIGN_PKCS1_4096_SHA512 "RSA" Mock.goodResp)) /\
  fst (getHashFunc Mock.kms Mock.crypto (Mock.client "")
         (Mock.primed Mock.unpinnedRef
            (Mock.service RSA_SIGN_PKCS1_4096_SHA512 "RSA" Mock.goodResp)))
  = Ok SHA512.
Proof.
  assert (H : newGCPClient Mock.kms Mock.crypto None Mock.unpinnedRef
                (Mock.world (Mock.service RSA_SIGN_PKCS1_4096_SHA512 "RSA" Mock.goodResp))
              = (Ok (Mock.client ""),
                 Mock.primed Mock.unpinnedRef
                   (Mock.service RSA_SIGN_PKCS1_4096_SHA512 "RSA" Mock.goodResp)))
    by (vm_compute; reflexivity).
  split; [exact H|].
  destruct (construction_primes_operations Mock.kms Mock.crypto None Mock.unpinnedRef
              _ _ _ H) as (ckv & w' & Hk & _ & Hg & _).
  rewrite Hg. simpl. f_equal.
  revert Hk. vm_compute. intros Hk. inversion Hk. reflexivity.
Defined.
